(** * design-to-code: the node-to-component translation engine

    A shallow embedding of the two generators of the repository:

    - [Converter]: [convertFigmaToCode] and its helpers (converter.ts),
      working on the [FigmaNode] of figma-client.ts ([FigmaClient]);
    - [Index]: the [DesignToCode] class (index.ts) with its own
      [FigmaNode] and its [ComponentConfig];

    and of converter.ts once more, over documents of any shape, with
    the [TypeError] of a method called on a value that has none
    ([Untyped]).

    JavaScript strings are sequences of UTF-16 code units.  A number of
    the design document is held as the rational its binary64 value is
    equal to.  Comparing such numbers and rounding them to an integer
    is exact; the product [n * 255] and the text of a number are the
    binary64 ones ([JS.times], [JS.numberToString]), which read a
    rational that is no binary64 value as the nearest one, ties to
    even, the way a literal is read. *)

From Stdlib Require Import String Ascii List NArith ZArith QArith Qround Lia Lqa Bool.
From Stdlib Require DecimalString HexadecimalString.
Import ListNotations.

Set Implicit Arguments.

(* ================================================================== *)
(** ** The part of the JavaScript runtime the generators use *)
(* ================================================================== *)

Module JS.

(** A string value: its UTF-16 code units. *)
Definition jsstring := list N.

(** An ASCII literal as a string value. *)
Definition str (s : string) : jsstring :=
  map N_of_ascii (list_ascii_of_string s).

Definition nl : jsstring := [10%N].
Definition dq : jsstring := [34%N].

Definition jsstring_eqb (a b : jsstring) : bool :=
  if list_eq_dec N.eq_dec a b then true else false.

(** Truthiness of a string: only the empty string is falsy. *)
Definition truthy (s : jsstring) : bool :=
  match s with [] => false | _ :: _ => true end.

(** [a || b] on strings where [a] may be undefined. *)
Definition orElse (a : option jsstring) (b : jsstring) : jsstring :=
  match a with
  | Some s => if truthy s then s else b
  | None => b
  end.

(** *** Character classes of the regular expressions (no [u] flag:
    they see single code units) *)

Definition between (lo hi c : N) : bool := ((lo <=? c) && (c <=? hi))%N.

Definition isUpperAZ (c : N) : bool := between 65 90 c.
Definition isLowerAZ (c : N) : bool := between 97 122 c.
Definition isDigit (c : N) : bool := between 48 57 c.

(** [[a-zA-Z0-9]] *)
Definition isAlnum (c : N) : bool := isLowerAZ c || isUpperAZ c || isDigit c.

(** [\w] *)
Definition isWord (c : N) : bool := isAlnum c || (c =? 95)%N.

(** [[a-z0-9\-]] *)
Definition isSlugChar (c : N) : bool := isLowerAZ c || isDigit c || (c =? 45)%N.

(** [\s]: WhiteSpace and LineTerminator of ECMAScript. *)
Definition isSpace (c : N) : bool :=
  between 9 13 c || (c =? 32)%N || (c =? 160)%N || (c =? 5760)%N
  || between 8192 8202 c || (c =? 8232)%N || (c =? 8233)%N
  || (c =? 8239)%N || (c =? 8287)%N || (c =? 12288)%N || (c =? 65279)%N.

(** [[\s\-_]] *)
Definition isNameSep (c : N) : bool := isSpace c || (c =? 45)%N || (c =? 95)%N.

(** *** Case conversion

    [String.prototype.toLowerCase] and [toUpperCase] follow the Unicode
    case tables of the runtime, which are no part of the repository.
    They are taken as an interface; what is fixed is their action on
    strings of ASCII code units, where only the letters A-Z and a-z move. *)

Definition isAscii (c : N) : bool := (c <? 128)%N.

Definition lowerUnit (c : N) : N := if isUpperAZ c then (c + 32)%N else c.
Definition upperUnit (c : N) : N := if isLowerAZ c then (c - 32)%N else c.

Class CaseConversion := {
  toLowerCase : jsstring -> jsstring;
  toUpperCase : jsstring -> jsstring;
  toLowerCase_ascii :
    forall s, forallb isAscii s = true -> toLowerCase s = map lowerUnit s;
  toUpperCase_ascii :
    forall s, forallb isAscii s = true -> toUpperCase s = map upperUnit s
}.

(** The conversion that moves the ASCII letters and nothing else: it
    agrees with every runtime on ASCII strings. *)
Definition asciiCase : CaseConversion :=
  {| toLowerCase := map lowerUnit;
     toUpperCase := map upperUnit;
     toLowerCase_ascii := fun _ _ => eq_refl;
     toUpperCase_ascii := fun _ _ => eq_refl |}.

(** *** String methods *)

(** [Array.prototype.join] on an array of strings. *)
Fixpoint join (sep : jsstring) (l : list jsstring) : jsstring :=
  match l with
  | [] => []
  | [x] => x
  | x :: rest => x ++ sep ++ join sep rest
  end.

Fixpoint startsWith (s p : jsstring) {struct p} : bool :=
  match p, s with
  | [], _ => true
  | _ :: _, [] => false
  | a :: p', b :: s' => (a =? b)%N && startsWith s' p'
  end.

(** [s.includes(p)] *)
Fixpoint includes (s p : jsstring) : bool :=
  startsWith s p ||
  match s with
  | [] => false
  | _ :: s' => includes s' p
  end.

(** [s.charAt(0)] *)
Definition charAt0 (s : jsstring) : jsstring :=
  match s with [] => [] | c :: _ => [c] end.

(** [s.slice(b, e)]; a negative index counts from the end, an absent
    [e] is the length. *)
Definition sliceIndex (len i : Z) : Z :=
  if (i <? 0)%Z then Z.max (len + i) 0 else Z.min i len.

Definition slice (s : jsstring) (b : Z) (e : option Z) : jsstring :=
  let len := Z.of_nat (length s) in
  let from := sliceIndex len b in
  let to := match e with Some e' => sliceIndex len e' | None => len end in
  firstn (Z.to_nat (to - from)) (skipn (Z.to_nat from) s).

(** [s.split(/[C]+/)] for a character class [C]: cut at every maximal
    run of class members.  [cur] is the piece being read, [inRun] tells
    that the previous code unit was a separator. *)
Fixpoint splitRuns (isSep : N -> bool) (s cur : jsstring) (inRun : bool)
  : list jsstring :=
  match s with
  | [] => [cur]
  | c :: r =>
      if isSep c
      then if inRun then splitRuns isSep r [] true
           else cur :: splitRuns isSep r [] true
      else splitRuns isSep r (cur ++ [c]) false
  end.

Definition splitOn (isSep : N -> bool) (s : jsstring) : list jsstring :=
  splitRuns isSep s [] false.

(** [s.replace(/[C]+/g, by)]: every maximal run becomes one [by]. *)
Fixpoint replaceRuns (isC : N -> bool) (by_ : jsstring) (s : jsstring)
  (inRun : bool) : jsstring :=
  match s with
  | [] => []
  | c :: r =>
      if isC c
      then if inRun then replaceRuns isC by_ r true
           else by_ ++ replaceRuns isC by_ r true
      else c :: replaceRuns isC by_ r false
  end.

(** [s.replace(/[^C]/g, '')]: keep the class members. *)
Definition keepOnly (isC : N -> bool) (s : jsstring) : jsstring :=
  filter isC s.

(** [s.split('\n')], the inverse reading of [join nl]. *)
Fixpoint splitAt (d : N) (s cur : jsstring) : list jsstring :=
  match s with
  | [] => [cur]
  | c :: r => if (c =? d)%N then cur :: splitAt d r []
              else splitAt d r (cur ++ [c])
  end.

Definition lines (s : jsstring) : list jsstring := splitAt 10%N s [].

(** No line feed among the code units of [s]. *)
Definition noNewline (s : jsstring) : bool :=
  forallb (fun c => negb (c =? 10)%N) s.

(** *** The global match of [/\$\{(\w+)\}/g] *)

Fixpoint spanWord (s : jsstring) : jsstring * jsstring :=
  match s with
  | c :: r => if isWord c
              then let (w, rest) := spanWord r in (c :: w, rest)
              else ([], s)
  | [] => ([], [])
  end.

(** The match starting at the head of [s], if there is one: [\w+] is
    greedy and a shorter run is never followed by the closing brace. *)
Definition matchPlaceholderAt (s : jsstring) : option jsstring :=
  match s with
  | 36%N :: 123%N :: r =>
      match spanWord r with
      | ((_ :: _) as w, 125%N :: _) => Some (36%N :: 123%N :: w ++ [125%N])
      | _ => None
      end
  | _ => None
  end.

(** All matches, left to right; after a match the scan resumes behind
    it ([skip] counts the code units of the match still to pass). *)
Fixpoint matchAllFrom (skip : nat) (s : jsstring) : list jsstring :=
  match s with
  | [] => []
  | _ :: r =>
      match skip with
      | S k => matchAllFrom k r
      | O =>
          match matchPlaceholderAt s with
          | Some m => m :: matchAllFrom (length m - 1) r
          | None => matchAllFrom 0 r
          end
      end
  end.

(** [s.match(/\$\{(\w+)\}/g)]: [null] when nothing matches. *)
Definition matchPlaceholders (s : jsstring) : option (list jsstring) :=
  match matchAllFrom 0 s with
  | [] => None
  | ms => Some ms
  end.

(** *** [Set<string>]: insertion order, no duplicates *)

Definition set_add (x : jsstring) (s : list jsstring) : list jsstring :=
  if existsb (jsstring_eqb x) s then s else s ++ [x].

(** *** [Record<string, string>]: own keys in insertion order; assigning
    to a present key replaces its value in place *)

Definition record := list (jsstring * jsstring).

Fixpoint record_set (k v : jsstring) (r : record) : record :=
  match r with
  | [] => [(k, v)]
  | (k', v') :: rest =>
      if jsstring_eqb k k' then (k, v) :: rest
      else (k', v') :: record_set k v rest
  end.

(** [r[k]]: the value of an own key, [undefined] when there is none. *)
Fixpoint record_get (k : jsstring) (r : record) : option jsstring :=
  match r with
  | [] => None
  | (k', v') :: rest =>
      if jsstring_eqb k k' then Some v' else record_get k rest
  end.

(** *** Numbers *)

(** [Math.round]: the nearest integer, a tie goes up. *)
Definition Math_round (x : Q) : Z := Qfloor (x + (1 # 2)).

(** Truthiness of a number: zero is falsy. *)
Definition truthyQ (x : Q) : bool := negb (Qeq_bool x 0).

(** [n.toString(16)] for an integer [n]: lowercase digits. *)
Definition intToString16 (z : Z) : jsstring :=
  str (HexadecimalString.NilZero.string_of_int (Z.to_hex_int z)).

(** *** Binary64 arithmetic

    The result of an arithmetic operation: a finite value, an infinity
    or NaN.  (The sign of a zero is not kept: no output of the
    generators shows it.) *)
Inductive number := Finite (q : Q) | PosInfinity | NegInfinity | NaN.

(** [2 ^ e], and [1] for a negative [e]. *)
Definition pow2 (e : Z) : Z := (2 ^ Z.max 0 e)%Z.

(** The integer nearest to [n / d], a tie goes to the even one
    ([0 <= n], [0 < d]). *)
Definition roundHalfEven (n d : Z) : Z :=
  let fl := (n / d)%Z in
  match (2 * (n mod d) ?= d)%Z with
  | Lt => fl
  | Gt => (fl + 1)%Z
  | Eq => if Z.even fl then fl else (fl + 1)%Z
  end.

(** The [e] with [2 ^ e <= n / d < 2 ^ (e + 1)] ([0 < n], [0 < d]). *)
Definition floorLog2 (n d : Z) : Z :=
  let e0 := (Z.log2 n - Z.log2 d)%Z in
  if (d * pow2 e0 <=? n * pow2 (- e0))%Z then e0 else (e0 - 1)%Z.

(** The binary64 value nearest to [q]: a significand of 53 bits, the
    unit in the last place no finer than [2 ^ -1074], a tie goes to the
    even significand, and a magnitude that rounds to [2 ^ 1024] or
    beyond is an infinity. *)
Definition toBinary64 (q : Q) : number :=
  let n := Z.abs (Qnum q) in
  let d := Zpos (Qden q) in
  if (n =? 0)%Z then Finite 0 else
  let k := Z.max (floorLog2 n d - 52) (-1074) in
  let m := roundHalfEven (n * pow2 (- k)) (d * pow2 k) in
  let v := (m * pow2 k)%Z in
  if (2 ^ 1024 * pow2 (- k) <=? v)%Z
  then (if (Qnum q <? 0)%Z then NegInfinity else PosInfinity)
  else Finite (Qmake (Z.sgn (Qnum q) * v) (Z.to_pos (pow2 (- k)))).

(** *** [Number.prototype.toString] in radix ten *)

(** The decimal digits of a natural number. *)
Definition digitsOf (z : Z) : jsstring :=
  str (DecimalString.NilZero.string_of_uint (N.to_uint (Z.to_N z))).

(** [10 ^ e], and [1] for a negative [e]. *)
Definition pow10 (e : Z) : Z := (10 ^ Z.max 0 e)%Z.

(** [s * 10 ^ e] *)
Definition scale10 (s e : Z) : Q :=
  Qmake (s * pow10 e) (Z.to_pos (pow10 (- e))).

(** The [n] with [10 ^ (n - 1) <= a / b < 10 ^ n], searched downwards
    from [n] ([0 < a], [0 < b]). *)
Fixpoint decimalExponentFrom (fuel : nat) (a b n : Z) : Z :=
  match fuel with
  | O => n
  | S k =>
      if (b * pow10 (n - 1) <=? a * pow10 (1 - n))%Z then n
      else decimalExponentFrom k a b (n - 1)
  end.

(** The search starts just above the exponent: [30103 / 100000] is the
    logarithm of two to five places. *)
Definition decimalExponent (a b : Z) : Z :=
  decimalExponentFrom 8 a b ((floorLog2 a b + 1) * 30103 / 100000 + 2).

Definition sameValue (x : number) (q : Q) : bool :=
  match x with
  | Finite p => Qeq_bool p q
  | _ => false
  end.

(** The shortest digits of the binary64 value [a / b] with the decimal
    exponent [n]: the first [k] for which some [s] of [k] digits has
    [s * 10 ^ (n - k)] rounded to that value; of two such [s] the one
    nearer the value, the even one in a tie.  Seventeen digits tell any
    two binary64 values apart. *)
Fixpoint shortest (fuel : nat) (a b n k : Z) : Z * Z :=
  match fuel with
  | O => (0%Z, k)
  | S f =>
      let e := (n - k)%Z in
      let num := (a * pow10 (- e))%Z in
      let den := (b * pow10 e)%Z in
      let lo := (num / den)%Z in
      let hi := (lo + 1)%Z in
      let okLo := sameValue (toBinary64 (scale10 lo e)) (Qmake a (Z.to_pos b)) in
      let okHi := sameValue (toBinary64 (scale10 hi e)) (Qmake a (Z.to_pos b)) in
      match okLo, okHi with
      | true, true =>
          match (2 * (num mod den) ?= den)%Z with
          | Lt => (lo, k)
          | Gt => (hi, k)
          | Eq => (if Z.even lo then lo else hi, k)
          end
      | true, false => (lo, k)
      | false, true => (hi, k)
      | false, false => shortest f a b n (k + 1)
      end
  end.

Definition zeros (n : Z) : jsstring := repeat 48%N (Z.to_nat n).

(** The text of the positive binary64 value [a / b]: positional when
    the decimal exponent [n] lies between -5 and 21, with an exponent
    part otherwise. *)
Definition positiveToString (a b : Z) : jsstring :=
  let n0 := decimalExponent a b in
  let (s0, k0) := shortest 17 a b n0 1 in
  let '(s, k, n) := if (s0 =? pow10 k0)%Z then (1%Z, 1%Z, (n0 + 1)%Z)
                    else (s0, k0, n0) in
  let digits := digitsOf s in
  if ((-5 <=? n) && (n <=? 21))%Z
  then
    if (k <=? n)%Z then digits ++ zeros (n - k)
    else if (0 <? n)%Z
         then firstn (Z.to_nat n) digits ++ str "." ++ skipn (Z.to_nat n) digits
         else str "0." ++ zeros (- n) ++ digits
  else
    let e := (n - 1)%Z in
    let exponent :=
      (if (e <? 0)%Z then str "-" else str "+") ++ digitsOf (Z.abs e) in
    match digits with
    | [] => []
    | [d] => [d] ++ str "e" ++ exponent
    | d :: rest => [d] ++ str "." ++ rest ++ str "e" ++ exponent
    end.

Definition numberText (x : number) : jsstring :=
  match x with
  | NaN => str "NaN"
  | PosInfinity => str "Infinity"
  | NegInfinity => str "-Infinity"
  | Finite q =>
      let a := Z.abs (Qnum q) in
      if (a =? 0)%Z then str "0"
      else (if (Qnum q <? 0)%Z then str "-" else [])
           ++ positiveToString a (Zpos (Qden q))
  end.

(** A number in a template literal: the text of the binary64 value
    nearest to what is written. *)
Definition numberToString (q : Q) : jsstring := numberText (toBinary64 q).

(** An integer in a template literal. *)
Definition intToString (z : Z) : jsstring := numberToString (inject_Z z).

(** *** The binary64 product *)

(** The sign of a product with an infinite factor; zero times an
    infinity is NaN. *)
Definition scaleInfinity (positive : bool) (q : Q) : number :=
  match Qcompare q 0 with
  | Eq => NaN
  | Gt => if positive then PosInfinity else NegInfinity
  | Lt => if positive then NegInfinity else PosInfinity
  end.

(** [x * y]: each operand is the binary64 value nearest to what is
    written, the product is rounded once more. *)
Definition times (x y : Q) : number :=
  match toBinary64 x, toBinary64 y with
  | Finite a, Finite b => toBinary64 (a * b)
  | Finite a, PosInfinity | PosInfinity, Finite a => scaleInfinity true a
  | Finite a, NegInfinity | NegInfinity, Finite a => scaleInfinity false a
  | PosInfinity, PosInfinity | NegInfinity, NegInfinity => PosInfinity
  | PosInfinity, NegInfinity | NegInfinity, PosInfinity => NegInfinity
  | NaN, _ | _, NaN => NaN
  end.

(** [Math.round(x).toString(16)]: rounding keeps an infinity and NaN,
    which print by name. *)
Definition roundedToString16 (x : number) : jsstring :=
  match x with
  | Finite q => intToString16 (Math_round q)
  | PosInfinity => str "Infinity"
  | NegInfinity => str "-Infinity"
  | NaN => str "NaN"
  end.

End JS.

(* ================================================================== *)
(** ** figma-client.ts: the document handed to the converter *)
(* ================================================================== *)

Module FigmaClient.
Import JS.

Record Color := { r : Q; g : Q; b : Q; a : Q }.

(** An entry of [fills] or [strokes]. *)
Record Paint := { paint_type : jsstring; paint_color : option Color }.

Record BoundingBox := { x : Q; y : Q; width : Q; height : Q }.

(** An optional field is [None] when the property is absent. *)
#[warnings="-register-all"]
Inductive FigmaNode := {
  id : jsstring;
  name : jsstring;
  type : jsstring;
  visible : option bool;
  absoluteBoundingBox : option BoundingBox;
  fills : option (list Paint);
  strokes : option (list Paint);
  strokeWeight : option Q;
  cornerRadius : option Q;
  fontSize : option Q;
  fontFamily : option jsstring;
  fontWeight : option Q;
  textContent : option jsstring;
  children : option (list FigmaNode)
}.

Record FigmaFile := {
  file_id : jsstring;
  file_name : jsstring;
  nodes : list FigmaNode;
  componentCount : Z;
  frameCount : Z;
  raw : option FigmaNode
}.

(** [n.visible !== false] *)
Definition visibleNotFalse (n : FigmaNode) : bool :=
  match visible n with
  | Some false => false
  | _ => true
  end.

Definition isComponentOrFrame (n : FigmaNode) : bool :=
  jsstring_eqb (type n) (str "COMPONENT") || jsstring_eqb (type n) (str "FRAME").

(** The walk that collects the nodes of a file: a hidden node hides its
    subtree; components and frames are pushed, parent before children. *)
Fixpoint walkFigmaTree (node : FigmaNode) (result : list FigmaNode)
  : list FigmaNode :=
  if visibleNotFalse node then
    let result1 := if isComponentOrFrame node then result ++ [node] else result in
    match children node with
    | Some cs => fold_left (fun acc child => walkFigmaTree child acc) cs result1
    | None => result1
    end
  else result.

(** [count] starts at one for a component and grows by the count of
    every child, hidden or not. *)
Fixpoint countComponentsInNode (node : FigmaNode) : Z :=
  let count := if jsstring_eqb (type node) (str "COMPONENT") then 1%Z else 0%Z in
  match children node with
  | Some cs =>
      fold_left (fun acc child => (acc + countComponentsInNode child)%Z) cs count
  | None => count
  end.

Fixpoint countFramesInNode (node : FigmaNode) : Z :=
  let count := if jsstring_eqb (type node) (str "FRAME") then 1%Z else 0%Z in
  match children node with
  | Some cs =>
      fold_left (fun acc child => (acc + countFramesInNode child)%Z) cs count
  | None => count
  end.

(** The greedy run of [[a-zA-Z0-9]] at the head of [s], and what follows. *)
Fixpoint spanAlnum (s : jsstring) : jsstring * jsstring :=
  match s with
  | c :: r => if isAlnum c
              then let (w, rest) := spanAlnum r in (c :: w, rest)
              else ([], s)
  | [] => ([], [])
  end.

(** The capture of [/\/file\/([a-zA-Z0-9]+)\//] when the match starts at
    the head of [s]: the run is greedy, and a shorter run is followed by
    a letter or digit, never by the closing slash. *)
Definition fileIdAt (s : jsstring) : option jsstring :=
  if startsWith s (str "/file/")
  then match spanAlnum (skipn 6 s) with
       | ((_ :: _) as w, 47%N :: _) => Some w
       | _ => None
       end
  else None.

(** [urlOrId.match(...)]: the leftmost match. *)
Fixpoint findFileId (s : jsstring) : option jsstring :=
  match s with
  | [] => None
  | _ :: r =>
      match fileIdAt s with
      | Some w => Some w
      | None => findFileId r
      end
  end.

Definition extractFileId (urlOrId : jsstring) : jsstring :=
  match findFileId urlOrId with
  | Some w => w
  | None => urlOrId
  end.

(** What [fetchFigmaFile] returns once the request has answered with the
    document [document] and the file name [name_]. *)
Definition figmaFileOf (urlOrId name_ : jsstring) (document : FigmaNode)
  : FigmaFile :=
  {| file_id := extractFileId urlOrId;
     file_name := name_;
     nodes := walkFigmaTree document [];
     componentCount := countComponentsInNode document;
     frameCount := countFramesInNode document;
     raw := Some document |}.

End FigmaClient.

(* ================================================================== *)
(** ** converter.ts *)
(* ================================================================== *)

Module Converter.
Import JS FigmaClient.

Inductive Framework := react | vue | svelte.

Definition frameworkName (f : Framework) : jsstring :=
  match f with
  | react => str "react"
  | vue => str "vue"
  | svelte => str "svelte"
  end.

Record ConversionResult := {
  components : record;
  index : jsstring
}.

(** The settled state of the promise an [async] function returns: it
    is rejected when the body throws. *)
Inductive Promise (A : Type) :=
| Fulfilled (value : A)
| Rejected (reason : jsstring).

Arguments Fulfilled {A} value.
Arguments Rejected {A} reason.

Section WithRuntime.
Context {cc : CaseConversion}.

Definition sanitizeFileName (name : jsstring) : jsstring :=
  slice
    (keepOnly isSlugChar
       (replaceRuns isSpace (str "-") (toLowerCase name) false))
    0 (Some 50%Z).

Definition capitalize (word : jsstring) : jsstring :=
  toUpperCase (charAt0 word) ++ toLowerCase (slice word 1 None).

Definition toPascalCase (s : jsstring) : jsstring :=
  keepOnly isAlnum (join [] (map capitalize (splitOn isNameSep s))).

(** The body of the [forEach] over the children: the placeholders of
    one TEXT child are added to the set. *)
Definition addPlaceholders (props : list jsstring) (child : FigmaNode)
  : list jsstring :=
  match textContent child with
  | Some text =>
      if jsstring_eqb (type child) (str "TEXT") && includes text (str "${")
      then match matchPlaceholders text with
           | Some matches =>
               fold_left (fun acc m => set_add (slice m 2 (Some (-1)%Z)) acc)
                 matches props
           | None => props
           end
      else props
  | None => props
  end.

Definition extractPropsFromNode (node : FigmaNode) : list jsstring :=
  match children node with
  | Some cs => fold_left addPlaceholders cs []
  | None => []
  end.

(** The [dimensions] text shared by the three renderers. *)
Definition dimensionsOf (node : FigmaNode) : jsstring :=
  match absoluteBoundingBox node with
  | Some box =>
      str "width: " ++ intToString (Math_round (width box))
      ++ str "px; height: " ++ intToString (Math_round (height box))
      ++ str "px;"
  | None => []
  end.

(** The three children renderers differ in indentation and in the
    comment syntax of the placeholder element only. *)
Definition ownText (node : FigmaNode) : jsstring :=
  match textContent node with
  | Some t => if truthy t then str "<p>" ++ t ++ str "</p>" else []
  | None => []
  end.

Definition reactChild (child : FigmaNode) : jsstring :=
  if jsstring_eqb (type child) (str "TEXT")
  then str "      <p>" ++ orElse (textContent child) (name child) ++ str "</p>"
  else str "      <div>{/* " ++ name child ++ str " */}</div>".

Definition generateReactChildren (node : FigmaNode) : jsstring :=
  match children node with
  | None | Some [] => ownText node
  | Some cs => join nl (map reactChild (filter visibleNotFalse cs))
  end.

Definition vueChild (child : FigmaNode) : jsstring :=
  if jsstring_eqb (type child) (str "TEXT")
  then str "    <p>" ++ orElse (textContent child) (name child) ++ str "</p>"
  else str "    <div><!-- " ++ name child ++ str " --></div>".

Definition generateVueChildren (node : FigmaNode) : jsstring :=
  match children node with
  | None | Some [] => ownText node
  | Some cs => join nl (map vueChild (filter visibleNotFalse cs))
  end.

Definition svelteChild (child : FigmaNode) : jsstring :=
  if jsstring_eqb (type child) (str "TEXT")
  then str "  <p>" ++ orElse (textContent child) (name child) ++ str "</p>"
  else str "  <div><!-- " ++ name child ++ str " --></div>".

Definition generateSvelteChildren (node : FigmaNode) : jsstring :=
  match children node with
  | None | Some [] => ownText node
  | Some cs => join nl (map svelteChild (filter visibleNotFalse cs))
  end.

Definition generateReactComponent (name_ : jsstring) (node : FigmaNode)
  (props : list jsstring) : jsstring :=
  let propString :=
    match props with
    | [] => []
    | _ => str "{ " ++ join (str ", ") props ++ str " }"
    end in
  str "import React from 'react';" ++ nl
  ++ nl
  ++ str "interface " ++ name_ ++ str "Props {" ++ nl
  ++ str "  "
  ++ join (nl ++ str "  ") (map (fun p => p ++ str "?: string | number;") props)
  ++ nl
  ++ str "}" ++ nl
  ++ nl
  ++ str "export const " ++ name_ ++ str ": React.FC<" ++ name_
  ++ str "Props> = (" ++ propString ++ str ") => {" ++ nl
  ++ str "  return (" ++ nl
  ++ str "    <div style={{ " ++ dimensionsOf node ++ str " }}>" ++ nl
  ++ str "      {/* " ++ name node ++ str " Component */}" ++ nl
  ++ str "      " ++ generateReactChildren node ++ nl
  ++ str "    </div>" ++ nl
  ++ str "  );" ++ nl
  ++ str "};" ++ nl
  ++ nl
  ++ str "export default " ++ name_ ++ str ";" ++ nl.

Definition generateVueComponent (name_ : jsstring) (node : FigmaNode)
  (props : list jsstring) : jsstring :=
  let propsSection :=
    match props with
    | [] => []
    | _ => nl ++ str "  props: {" ++ nl ++ str "    "
           ++ join (nl ++ str "    ") (map (fun p => p ++ str ": String,") props)
           ++ nl ++ str "  },"
    end in
  str "<template>" ++ nl
  ++ str "  <div style=" ++ dq ++ dimensionsOf node ++ dq ++ str ">" ++ nl
  ++ str "    <!-- " ++ name node ++ str " Component -->" ++ nl
  ++ str "    " ++ generateVueChildren node ++ nl
  ++ str "  </div>" ++ nl
  ++ str "</template>" ++ nl
  ++ nl
  ++ str "<script>" ++ nl
  ++ str "export default {" ++ nl
  ++ str "  name: '" ++ name_ ++ str "'," ++ propsSection ++ nl
  ++ str "};" ++ nl
  ++ str "</script>" ++ nl
  ++ nl
  ++ str "<style scoped>" ++ nl
  ++ str "div {" ++ nl
  ++ str "  box-sizing: border-box;" ++ nl
  ++ str "}" ++ nl
  ++ str "</style>" ++ nl.

Definition generateSvelteComponent (name_ : jsstring) (node : FigmaNode)
  (props : list jsstring) : jsstring :=
  let exportProps :=
    join nl (map (fun p => str "export let " ++ p ++ str ";") props) in
  str "<script>" ++ nl
  ++ str "  " ++ exportProps ++ nl
  ++ str "</script>" ++ nl
  ++ nl
  ++ str "<div style=" ++ dq ++ dimensionsOf node ++ dq ++ str ">" ++ nl
  ++ str "  <!-- " ++ name node ++ str " Component -->" ++ nl
  ++ str "  " ++ generateSvelteChildren node ++ nl
  ++ str "</div>" ++ nl
  ++ nl
  ++ str "<style>" ++ nl
  ++ str "  div {" ++ nl
  ++ str "    box-sizing: border-box;" ++ nl
  ++ str "  }" ++ nl
  ++ str "</style>" ++ nl.

Definition generateComponentCode (node : FigmaNode) (framework : Framework)
  : jsstring :=
  let name_ := toPascalCase (name node) in
  let props := extractPropsFromNode node in
  match framework with
  | react => generateReactComponent name_ node props
  | vue => generateVueComponent name_ node props
  | svelte => generateSvelteComponent name_ node props
  end.

(** The filter of the entry point, repeated by the index builder. *)
Definition isValidNode (n : FigmaNode) : bool :=
  visibleNotFalse n && truthy (name n).

Definition exportLine (node : FigmaNode) : jsstring :=
  str "export { default as " ++ toPascalCase (name node)
  ++ str " } from './" ++ sanitizeFileName (name node) ++ str "';".

Definition generateIndexFile (nodes : list FigmaNode) (framework : Framework)
  : jsstring :=
  let imports := join nl (map exportLine (filter isValidNode nodes)) in
  match framework with
  | vue => str "// Vue Components" ++ nl ++ imports ++ nl
  | _ => str "// " ++ frameworkName framework ++ str " Components" ++ nl
         ++ imports ++ nl
  end.

(** One turn of the loop over [validNodes]: the text is stored under
    [`${filename}.tsx`]. *)
Definition storeComponent (framework : Framework) (components : record)
  (node : FigmaNode) : record :=
  let filename := sanitizeFileName (name node) in
  let code := generateComponentCode node framework in
  record_set (filename ++ str ".tsx") code components.

(** The body of [convertFigmaToCode]: it has no [throw] and calls
    nothing that throws on a value of its declared type. *)
Definition conversionOf (figmaFile : FigmaFile) (framework : Framework)
  : ConversionResult :=
  let validNodes := filter isValidNode (nodes figmaFile) in
  let components := fold_left (storeComponent framework) validNodes [] in
  let indexFile := generateIndexFile validNodes framework in
  {| components := components; index := indexFile |}.

Definition convertFigmaToCode (figmaFile : FigmaFile) (framework : Framework)
  : Promise ConversionResult :=
  Fulfilled (conversionOf figmaFile framework).

End WithRuntime.

End Converter.

(* ================================================================== *)
(** ** converter.ts on documents of any shape *)
(* ================================================================== *)

(** The declared types are erased when the converter runs: a document
    read from a response or handed over by a caller can hold any value
    where the interfaces promise a string, a boolean or an array.  Here
    the functions of converter.ts are embedded once more, over such
    values, with the [TypeError] the runtime throws when a method is
    called on a value that has none of that name. *)

Module Untyped.
Import JS.

(** What [JSON.parse] can yield, and [undefined], the value of a
    property that is not there.  The properties of an object are listed
    with distinct names. *)
#[warnings="-register-all"]
Inductive value :=
| VUndefined
| VNull
| VBool (b : bool)
| VNum (q : Q)
| VStr (s : jsstring)
| VArr (items : list value)
| VObj (fields : list (jsstring * value)).

(** How an evaluation ends: with a result, or with a thrown [TypeError],
    the one error these functions can run into. *)
Inductive completion (A : Type) :=
| Normal (result : A)
| TypeError.

Arguments Normal {A} result.
Arguments TypeError {A}.

Definition bind {A B : Type} (c : completion A) (k : A -> completion B)
  : completion B :=
  match c with
  | Normal a => k a
  | TypeError => TypeError
  end.

Notation "x <- c ;; k" := (bind c (fun x => k))
  (at level 61, c at next level, right associativity).

(** [array.filter], [array.map] and [array.forEach] with a callback
    that can throw: the elements are visited in order and the first
    throw ends the call. *)
Fixpoint filterM {A : Type} (p : A -> completion bool) (l : list A)
  : completion (list A) :=
  match l with
  | [] => Normal []
  | x :: rest =>
      keep <- p x ;;
      kept <- filterM p rest ;;
      Normal (if keep then x :: kept else kept)
  end.

Fixpoint mapM {A B : Type} (f : A -> completion B) (l : list A)
  : completion (list B) :=
  match l with
  | [] => Normal []
  | x :: rest =>
      y <- f x ;;
      ys <- mapM f rest ;;
      Normal (y :: ys)
  end.

Fixpoint foldM {A B : Type} (f : B -> A -> completion B) (l : list A) (acc : B)
  : completion B :=
  match l with
  | [] => Normal acc
  | x :: rest =>
      acc1 <- f acc x ;;
      foldM f rest acc1
  end.

(** The own property [key] of an object. *)
Definition lookup (key : jsstring) (fields : list (jsstring * value)) : value :=
  match find (fun kv => jsstring_eqb key (fst kv)) fields with
  | Some kv => snd kv
  | None => VUndefined
  end.

(** [v.key] for the property names the converter reads ([nodes],
    [visible], [name], [type], [children], [length], [textContent],
    [absoluteBoundingBox], [width], [height]): reading from [null] or
    [undefined] throws; a string and an array have a [length] and none
    of the others; a number and a boolean have none of them. *)
Definition get (v : value) (key : jsstring) : completion value :=
  match v with
  | VUndefined | VNull => TypeError
  | VObj fields => Normal (lookup key fields)
  | VStr s =>
      Normal (if jsstring_eqb key (str "length")
              then VNum (inject_Z (Z.of_nat (length s))) else VUndefined)
  | VArr items =>
      Normal (if jsstring_eqb key (str "length")
              then VNum (inject_Z (Z.of_nat (length items))) else VUndefined)
  | VBool _ | VNum _ => Normal VUndefined
  end.

(** Truthiness: [undefined], [null], [false], zero and the empty string
    are falsy. *)
Definition truthyValue (v : value) : bool :=
  match v with
  | VUndefined | VNull => false
  | VBool b => b
  | VNum q => truthyQ q
  | VStr s => truthy s
  | VArr _ | VObj _ => true
  end.

(** [v === false], [v === 0] and [v === 'literal']. *)
Definition isFalse (v : value) : bool :=
  match v with VBool false => true | _ => false end.

Definition isZero (v : value) : bool :=
  match v with VNum q => Qeq_bool q 0 | _ => false end.

Definition isString (v : value) (literal : jsstring) : bool :=
  match v with VStr s => jsstring_eqb s literal | _ => false end.

(** A value in a template literal.  An array prints its elements
    separated by commas, [null] and [undefined] among them as nothing;
    an object prints as [[object Object]], unless it has an own
    [toString], which is no function and leaves no way to a text. *)
Fixpoint toStringOf (v : value) : completion jsstring :=
  match v with
  | VUndefined => Normal (str "undefined")
  | VNull => Normal (str "null")
  | VBool b => Normal (if b then str "true" else str "false")
  | VNum q => Normal (numberToString q)
  | VStr s => Normal s
  | VArr items =>
      (fix joined (l : list value) : completion jsstring :=
         match l with
         | [] => Normal []
         | x :: rest =>
             text <- match x with
                     | VUndefined | VNull => Normal []
                     | _ => toStringOf x
                     end ;;
             match rest with
             | [] => Normal text
             | _ :: _ => more <- joined rest ;; Normal (text ++ str "," ++ more)
             end
         end) items
  | VObj fields =>
      if existsb (fun kv => jsstring_eqb (fst kv) (str "toString")) fields
      then TypeError
      else Normal (str "[object Object]")
  end.

(** The part of the conversion to a number that is left to the
    runtime: the text of [Math.round(v)] for a [v] that is a string, an
    array or an object.  (A string is parsed as a numeric literal, an
    array and an object go through their text first, which can
    throw.) *)
Class NumberCoercion := {
  roundedTextOf : value -> completion jsstring
}.

Section WithRuntime.
Context {cc : CaseConversion} {nc : NumberCoercion}.

(** [`${Math.round(v)}`] *)
Definition roundedText (v : value) : completion jsstring :=
  match v with
  | VNum q => Normal (intToString (Math_round q))
  | VUndefined => Normal (str "NaN")
  | VNull => Normal (str "0")
  | VBool b => Normal (if b then str "1" else str "0")
  | VStr _ | VArr _ | VObj _ => roundedTextOf v
  end.

(** [name.toLowerCase()] and [str.split(...)] exist on strings only. *)
Definition sanitizeFileName (name : value) : completion jsstring :=
  match name with
  | VStr s => Normal (Converter.sanitizeFileName s)
  | _ => TypeError
  end.

Definition toPascalCase (s : value) : completion jsstring :=
  match s with
  | VStr s => Normal (Converter.toPascalCase s)
  | _ => TypeError
  end.

(** The placeholders of a text, added to the set. *)
Definition addMatches (props : list jsstring) (text : jsstring) : list jsstring :=
  match matchPlaceholders text with
  | Some matches =>
      fold_left (fun acc m => set_add (slice m 2 (Some (-1)%Z)) acc)
        matches props
  | None => props
  end.

(** The body of the [forEach] over the children.  The optional call
    [child.textContent?.includes('${')] is skipped for [null] and
    [undefined] only: a string searches itself, an array searches its
    elements and has no [match] to go on with, any other value has no
    [includes]. *)
Definition addPlaceholders (props : list jsstring) (child : value)
  : completion (list jsstring) :=
  ty <- get child (str "type") ;;
  if isString ty (str "TEXT")
  then
    text <- get child (str "textContent") ;;
    match text with
    | VUndefined | VNull => Normal props
    | VStr t =>
        Normal (if includes t (str "${") then addMatches props t else props)
    | VArr items =>
        if existsb (fun x => isString x (str "${")) items
        then TypeError
        else Normal props
    | VBool _ | VNum _ | VObj _ => TypeError
    end
  else Normal props.

(** [forEach] exists on arrays only. *)
Definition extractPropsFromNode (node : value) : completion (list jsstring) :=
  children <- get node (str "children") ;;
  if truthyValue children
  then match children with
       | VArr items => foldM addPlaceholders items []
       | _ => TypeError
       end
  else Normal [].

Definition dimensionsOf (node : value) : completion jsstring :=
  box <- get node (str "absoluteBoundingBox") ;;
  if truthyValue box
  then
    w <- get box (str "width") ;;
    width <- roundedText w ;;
    h <- get box (str "height") ;;
    height <- roundedText h ;;
    Normal (str "width: " ++ width ++ str "px; height: " ++ height ++ str "px;")
  else Normal [].

Definition ownText (node : value) : completion jsstring :=
  text <- get node (str "textContent") ;;
  if truthyValue text
  then t <- toStringOf text ;; Normal (str "<p>" ++ t ++ str "</p>")
  else Normal [].

(** [c.visible !== false] *)
Definition visibleNotFalse (c : value) : completion bool :=
  visible <- get c (str "visible") ;;
  Normal (negb (isFalse visible)).

(** One child in the markup: [indent] and the two halves of the comment
    are what the three renderers differ in. *)
Definition childMarkup (indent opening closing : jsstring) (child : value)
  : completion jsstring :=
  ty <- get child (str "type") ;;
  if isString ty (str "TEXT")
  then
    text <- get child (str "textContent") ;;
    shown <- (if truthyValue text then Normal text else get child (str "name")) ;;
    t <- toStringOf shown ;;
    Normal (indent ++ str "<p>" ++ t ++ str "</p>")
  else
    name <- get child (str "name") ;;
    t <- toStringOf name ;;
    Normal (indent ++ str "<div>" ++ opening ++ t ++ closing ++ str "</div>").

(** [filter] exists on arrays only. *)
Definition childrenMarkup (indent opening closing : jsstring) (node : value)
  : completion jsstring :=
  children <- get node (str "children") ;;
  len <- (if truthyValue children then get children (str "length")
          else Normal VUndefined) ;;
  if negb (truthyValue children) || isZero len
  then ownText node
  else match children with
       | VArr items =>
           shown <- filterM visibleNotFalse items ;;
           texts <- mapM (childMarkup indent opening closing) shown ;;
           Normal (join nl texts)
       | _ => TypeError
       end.

Definition generateReactChildren : value -> completion jsstring :=
  childrenMarkup (str "      ") (str "{/* ") (str " */}").

Definition generateVueChildren : value -> completion jsstring :=
  childrenMarkup (str "    ") (str "<!-- ") (str " -->").

Definition generateSvelteChildren : value -> completion jsstring :=
  childrenMarkup (str "  ") (str "<!-- ") (str " -->").

(** The three templates, with what they interpolate already
    evaluated. *)
Definition reactText (name_ : jsstring) (props : list jsstring)
  (dimensions nodeName children : jsstring) : jsstring :=
  let propString :=
    match props with
    | [] => []
    | _ => str "{ " ++ join (str ", ") props ++ str " }"
    end in
  str "import React from 'react';" ++ nl
  ++ nl
  ++ str "interface " ++ name_ ++ str "Props {" ++ nl
  ++ str "  "
  ++ join (nl ++ str "  ") (map (fun p => p ++ str "?: string | number;") props)
  ++ nl
  ++ str "}" ++ nl
  ++ nl
  ++ str "export const " ++ name_ ++ str ": React.FC<" ++ name_
  ++ str "Props> = (" ++ propString ++ str ") => {" ++ nl
  ++ str "  return (" ++ nl
  ++ str "    <div style={{ " ++ dimensions ++ str " }}>" ++ nl
  ++ str "      {/* " ++ nodeName ++ str " Component */}" ++ nl
  ++ str "      " ++ children ++ nl
  ++ str "    </div>" ++ nl
  ++ str "  );" ++ nl
  ++ str "};" ++ nl
  ++ nl
  ++ str "export default " ++ name_ ++ str ";" ++ nl.

Definition vueText (name_ : jsstring) (props : list jsstring)
  (dimensions nodeName children : jsstring) : jsstring :=
  let propsSection :=
    match props with
    | [] => []
    | _ => nl ++ str "  props: {" ++ nl ++ str "    "
           ++ join (nl ++ str "    ") (map (fun p => p ++ str ": String,") props)
           ++ nl ++ str "  },"
    end in
  str "<template>" ++ nl
  ++ str "  <div style=" ++ dq ++ dimensions ++ dq ++ str ">" ++ nl
  ++ str "    <!-- " ++ nodeName ++ str " Component -->" ++ nl
  ++ str "    " ++ children ++ nl
  ++ str "  </div>" ++ nl
  ++ str "</template>" ++ nl
  ++ nl
  ++ str "<script>" ++ nl
  ++ str "export default {" ++ nl
  ++ str "  name: '" ++ name_ ++ str "'," ++ propsSection ++ nl
  ++ str "};" ++ nl
  ++ str "</script>" ++ nl
  ++ nl
  ++ str "<style scoped>" ++ nl
  ++ str "div {" ++ nl
  ++ str "  box-sizing: border-box;" ++ nl
  ++ str "}" ++ nl
  ++ str "</style>" ++ nl.

Definition svelteText (name_ : jsstring) (props : list jsstring)
  (dimensions nodeName children : jsstring) : jsstring :=
  let exportProps :=
    join nl (map (fun p => str "export let " ++ p ++ str ";") props) in
  str "<script>" ++ nl
  ++ str "  " ++ exportProps ++ nl
  ++ str "</script>" ++ nl
  ++ nl
  ++ str "<div style=" ++ dq ++ dimensions ++ dq ++ str ">" ++ nl
  ++ str "  <!-- " ++ nodeName ++ str " Component -->" ++ nl
  ++ str "  " ++ children ++ nl
  ++ str "</div>" ++ nl
  ++ nl
  ++ str "<style>" ++ nl
  ++ str "  div {" ++ nl
  ++ str "    box-sizing: border-box;" ++ nl
  ++ str "  }" ++ nl
  ++ str "</style>" ++ nl.

(** A renderer evaluates the dimensions, then the interpolations of its
    template from top to bottom. *)
Definition renderWith
  (template : jsstring -> list jsstring -> jsstring -> jsstring -> jsstring
              -> jsstring)
  (childrenOf : value -> completion jsstring)
  (name_ : jsstring) (node : value) (props : list jsstring)
  : completion jsstring :=
  dimensions <- dimensionsOf node ;;
  name <- get node (str "name") ;;
  nodeName <- toStringOf name ;;
  children <- childrenOf node ;;
  Normal (template name_ props dimensions nodeName children).

Definition generateReactComponent :=
  renderWith reactText generateReactChildren.

Definition generateVueComponent :=
  renderWith vueText generateVueChildren.

Definition generateSvelteComponent :=
  renderWith svelteText generateSvelteChildren.

Definition generateComponentCode (node : value) (framework : Converter.Framework)
  : completion jsstring :=
  name <- get node (str "name") ;;
  name_ <- toPascalCase name ;;
  props <- extractPropsFromNode node ;;
  match framework with
  | Converter.react => generateReactComponent name_ node props
  | Converter.vue => generateVueComponent name_ node props
  | Converter.svelte => generateSvelteComponent name_ node props
  end.

(** [n.visible !== false && n.name] *)
Definition isValidNode (n : value) : completion bool :=
  visible <- get n (str "visible") ;;
  if isFalse visible then Normal false
  else name <- get n (str "name") ;; Normal (truthyValue name).

Definition exportLine (node : value) : completion jsstring :=
  nodeName <- get node (str "name") ;;
  name <- toPascalCase nodeName ;;
  filename <- sanitizeFileName nodeName ;;
  Normal (str "export { default as " ++ name ++ str " } from './"
          ++ filename ++ str "';").

Definition generateIndexFile (nodes : list value) (framework : Converter.Framework)
  : completion jsstring :=
  valid <- filterM isValidNode nodes ;;
  lines <- mapM exportLine valid ;;
  let imports := join nl lines in
  Normal (match framework with
          | Converter.vue => str "// Vue Components" ++ nl ++ imports ++ nl
          | _ => str "// " ++ Converter.frameworkName framework
                 ++ str " Components" ++ nl ++ imports ++ nl
          end).

Definition storeComponent (framework : Converter.Framework) (components : record)
  (node : value) : completion record :=
  name <- get node (str "name") ;;
  filename <- sanitizeFileName name ;;
  code <- generateComponentCode node framework ;;
  Normal (record_set (filename ++ str ".tsx") code components).

(** The body of [convertFigmaToCode]. *)
Definition conversionOf (figmaFile : value) (framework : Converter.Framework)
  : completion Converter.ConversionResult :=
  nodes <- get figmaFile (str "nodes") ;;
  match nodes with
  | VArr items =>
      validNodes <- filterM isValidNode items ;;
      components <- foldM (storeComponent framework) validNodes [] ;;
      indexFile <- generateIndexFile validNodes framework ;;
      Normal {| Converter.components := components;
                Converter.index := indexFile |}
  | _ => TypeError
  end.

(** The promise of the [async] function: rejected with the error the
    body throws. *)
Definition convertFigmaToCode (figmaFile : value) (framework : Converter.Framework)
  : Converter.Promise Converter.ConversionResult :=
  match conversionOf figmaFile framework with
  | Normal result => Converter.Fulfilled result
  | TypeError => Converter.Rejected (str "TypeError")
  end.

End WithRuntime.

(** *** A document of the declared shape as a value *)

Definition optional (key : jsstring) (v : option value)
  : list (jsstring * value) :=
  match v with
  | Some x => [(key, x)]
  | None => []
  end.

Definition colorValue (c : FigmaClient.Color) : value :=
  VObj [(str "r", VNum (FigmaClient.r c)); (str "g", VNum (FigmaClient.g c));
        (str "b", VNum (FigmaClient.b c)); (str "a", VNum (FigmaClient.a c))].

Definition paintValue (p : FigmaClient.Paint) : value :=
  VObj ((str "type", VStr (FigmaClient.paint_type p))
        :: optional (str "color") (option_map colorValue (FigmaClient.paint_color p))).

Definition boxValue (box : FigmaClient.BoundingBox) : value :=
  VObj [(str "x", VNum (FigmaClient.x box)); (str "y", VNum (FigmaClient.y box));
        (str "width", VNum (FigmaClient.width box));
        (str "height", VNum (FigmaClient.height box))].

(** An absent optional attribute is a property that is not there. *)
Fixpoint nodeValue (n : FigmaClient.FigmaNode) : value :=
  VObj
    ([(str "name", VStr (FigmaClient.name n));
      (str "type", VStr (FigmaClient.type n))]
     ++ optional (str "visible") (option_map VBool (FigmaClient.visible n))
     ++ optional (str "textContent")
          (option_map VStr (FigmaClient.textContent n))
     ++ optional (str "absoluteBoundingBox")
          (option_map boxValue (FigmaClient.absoluteBoundingBox n))
     ++ optional (str "children")
          (match FigmaClient.children n with
           | Some cs => Some (VArr (map nodeValue cs))
           | None => None
           end)
     ++ [(str "id", VStr (FigmaClient.id n))]
     ++ optional (str "fills")
          (option_map (fun l => VArr (map paintValue l)) (FigmaClient.fills n))
     ++ optional (str "strokes")
          (option_map (fun l => VArr (map paintValue l)) (FigmaClient.strokes n))
     ++ optional (str "strokeWeight")
          (option_map VNum (FigmaClient.strokeWeight n))
     ++ optional (str "cornerRadius")
          (option_map VNum (FigmaClient.cornerRadius n))
     ++ optional (str "fontSize") (option_map VNum (FigmaClient.fontSize n))
     ++ optional (str "fontFamily") (option_map VStr (FigmaClient.fontFamily n))
     ++ optional (str "fontWeight") (option_map VNum (FigmaClient.fontWeight n))).

Definition fileValue (f : FigmaClient.FigmaFile) : value :=
  VObj
    ([(str "id", VStr (FigmaClient.file_id f));
      (str "name", VStr (FigmaClient.file_name f));
      (str "nodes", VArr (map nodeValue (FigmaClient.nodes f)));
      (str "componentCount", VNum (inject_Z (FigmaClient.componentCount f)));
      (str "frameCount", VNum (inject_Z (FigmaClient.frameCount f)))]
     ++ optional (str "raw") (option_map nodeValue (FigmaClient.raw f))).

End Untyped.

(* ================================================================== *)
(** ** index.ts: the [DesignToCode] class *)
(* ================================================================== *)

Module Index.
Import JS.

Record Color := { r : Q; g : Q; b : Q; a : Q }.

(** An entry of [fills] or [strokes]. *)
Record Paint := { paint_type : jsstring; paint_color : option Color }.

Record BoundingBox := { x : Q; y : Q; width : Q; height : Q }.

Record Constraints := { horizontal : jsstring; vertical : jsstring }.

#[warnings="-register-all"]
Inductive FigmaNode := {
  id : jsstring;
  name : jsstring;
  type : jsstring;
  visible : option bool;
  children : option (list FigmaNode);
  fills : option (list Paint);
  strokes : option (list Paint);
  effects : option (list jsstring);
  constraints : option Constraints;
  absoluteBoundingBox : option BoundingBox;
  characters : option jsstring;
  fontSize : option Q;
  fontWeight : option Q
}.

Inductive Framework := react | vue | svelte.

Record ComponentConfig := {
  framework : Framework;
  outputDir : jsstring;
  typescript : bool;
  tailwind : bool;
  includeStyles : bool
}.

(** [Partial<ComponentConfig>], the argument of the constructor. *)
Record PartialConfig := {
  framework_opt : option Framework;
  outputDir_opt : option jsstring;
  typescript_opt : option bool;
  tailwind_opt : option bool;
  includeStyles_opt : option bool
}.

(** [flag !== false] *)
Definition notFalse (flag : option bool) : bool :=
  match flag with
  | Some false => false
  | _ => true
  end.

(** The object: its only field is the private [config]. *)
Record DesignToCode := { config : ComponentConfig }.

Definition new_DesignToCode (c : PartialConfig) : DesignToCode :=
  {| config :=
       {| framework := match framework_opt c with Some f => f | None => react end;
          outputDir := orElse (outputDir_opt c) (str "./components");
          typescript := notFalse (typescript_opt c);
          tailwind := notFalse (tailwind_opt c);
          includeStyles := notFalse (includeStyles_opt c) |} |}.

Record Dimensions := { dim_width : Q; dim_height : Q }.

(** The [props] record built by [extractProps]; an optional key is
    [None] when it was never assigned. *)
Record Props := {
  props_id : jsstring;
  props_name : jsstring;
  props_type : jsstring;
  props_children : nat;
  dimensions : option Dimensions;
  backgroundColor : option jsstring;
  text : option jsstring;
  props_fontSize : option Q;
  props_fontWeight : option Q
}.

(** [n || d] on numbers where [n] may be undefined. *)
Definition orDefault (n : option Q) (d : Q) : Q :=
  match n with
  | Some v => if truthyQ v then v else d
  | None => d
  end.

(** A truthy optional number / string. *)
Definition truthyNum (n : option Q) : option Q :=
  match n with
  | Some v => if truthyQ v then Some v else None
  | None => None
  end.

Definition truthyStr (s : option jsstring) : option jsstring :=
  match s with
  | Some v => if truthy v then Some v else None
  | None => None
  end.

Section WithRuntime.
Context {cc : CaseConversion}.

Definition sanitizeName (name_ : jsstring) : jsstring :=
  keepOnly isAlnum name_.

Definition capitalize (word : jsstring) : jsstring :=
  toUpperCase (charAt0 word) ++ toLowerCase (slice word 1 None).

Definition toPascalCase (s : jsstring) : jsstring :=
  join [] (map capitalize (splitOn isNameSep s)).

(** [str.replace(/([A-Z])/g, '-$1')] *)
Definition dashCapitals (s : jsstring) : jsstring :=
  flat_map (fun c => if isUpperAZ c then [45%N; c] else [c]) s.

(** [s.replace(/^-/, '')] *)
Definition dropLeadingDash (s : jsstring) : jsstring :=
  match s with
  | 45%N :: rest => rest
  | _ => s
  end.

Definition toKebabCase (s : jsstring) : jsstring :=
  dropLeadingDash (toLowerCase (dashCapitals s)).

Definition toHex (n : Q) : jsstring :=
  let hex := roundedToString16 (times n 255) in
  if (length hex =? 1)%nat then str "0" ++ hex else hex.

Definition colorToHex (fill : Paint) : jsstring :=
  match paint_color fill with
  | Some c =>
      if jsstring_eqb (paint_type fill) (str "SOLID")
      then toUpperCase (str "#" ++ toHex (r c) ++ toHex (g c) ++ toHex (b c))
      else str "#000000"
  | None => str "#000000"
  end.

Definition extractProps (node : FigmaNode) : Props :=
  {| props_id := id node;
     props_name := sanitizeName (name node);
     props_type := type node;
     props_children :=
       match children node with Some cs => length cs | None => O end;
     dimensions :=
       match absoluteBoundingBox node with
       | Some box => Some {| dim_width := width box; dim_height := height box |}
       | None => None
       end;
     backgroundColor :=
       match fills node with
       | Some (fill :: _) => Some (colorToHex fill)
       | _ => None
       end;
     text := truthyStr (characters node);
     props_fontSize :=
       match truthyStr (characters node) with
       | Some _ => Some (orDefault (fontSize node) 14)
       | None => None
       end;
     props_fontWeight :=
       match truthyStr (characters node) with
       | Some _ => Some (orDefault (fontWeight node) 400)
       | None => None
       end |}.

(** The [classes] array of [generateTailwindClasses], push by push. *)
Definition dimensionClasses (props : Props) : list jsstring :=
  match dimensions props with
  | Some d =>
      [str "w-[" ++ intToString (Math_round (dim_width d)) ++ str "px]";
       str "h-[" ++ intToString (Math_round (dim_height d)) ++ str "px]"]
  | None => []
  end.

Definition backgroundClasses (props : Props) : list jsstring :=
  match truthyStr (backgroundColor props) with
  | Some hex => [str "bg-[" ++ hex ++ str "]"]
  | None => []
  end.

Definition fontSizeClasses (props : Props) : list jsstring :=
  match truthyNum (props_fontSize props) with
  | Some fs =>
      let size := Math_round (fs / 4) in
      [str "text-" ++ (if (size >? 16)%Z
                       then str "[" ++ numberToString fs ++ str "px]"
                       else intToString size)]
  | None => []
  end.

Definition tailwindClasses (props : Props) : list jsstring :=
  dimensionClasses props ++ backgroundClasses props ++ fontSizeClasses props.

Definition generateTailwindClasses (props : Props) : jsstring :=
  join (str " ") (tailwindClasses props).

Definition generateCSSClasses (props : Props) : jsstring :=
  str "component-auto-generated".

(** The [css] record, key by key in assignment order. *)
Definition styleObjectToCSS (props : Props) : record :=
  (match dimensions props with
   | Some d => [(str "width", numberToString (dim_width d) ++ str "px");
                (str "height", numberToString (dim_height d) ++ str "px")]
   | None => []
   end)
  ++ (match truthyStr (backgroundColor props) with
      | Some hex => [(str "background-color", hex)]
      | None => []
      end)
  ++ (match truthyNum (props_fontSize props) with
      | Some fs => [(str "font-size", numberToString fs ++ str "px")]
      | None => []
      end)
  ++ (match truthyNum (props_fontWeight props) with
      | Some fw => [(str "font-weight", numberToString fw)]
      | None => []
      end).

Definition generateCSSContent (props : Props) : jsstring :=
  join nl
    (map (fun kv => str "  " ++ fst kv ++ str ": " ++ snd kv ++ str ";")
       (styleObjectToCSS props)).

Section Methods.
Variable this : DesignToCode.

Definition stylesOf (props : Props) : jsstring :=
  if tailwind (config this)
  then generateTailwindClasses props
  else generateCSSClasses props.

Definition generateReactComponent (node : FigmaNode) (props : Props)
  : jsstring :=
  let componentName := toPascalCase (props_name props) in
  let isTS := typescript (config this) in
  let typeAnnotation := if isTS then str ": React.FC<Props>" else [] in
  let propsInterface :=
    if isTS
    then nl ++ str "interface Props {" ++ nl
         ++ str "  children?: React.ReactNode;" ++ nl
         ++ str "  className?: string;" ++ nl
         ++ str "}" ++ nl
    else [] in
  let styles := stylesOf props in
  str "import React" ++ (if isTS then str ", { FC }" else [])
  ++ str " from 'react';" ++ nl
  ++ (if includeStyles (config this) && negb (tailwind (config this))
      then str "import styles from './" ++ componentName
           ++ str ".module.css';" ++ nl
      else []) ++ nl
  ++ nl
  ++ propsInterface ++ nl
  ++ str "/**" ++ nl
  ++ str " * " ++ componentName ++ str " Component" ++ nl
  ++ str " * Auto-generated from Figma design" ++ nl
  ++ str " * Original Figma ID: " ++ props_id props ++ nl
  ++ str " */" ++ nl
  ++ str "const " ++ componentName ++ typeAnnotation
  ++ str " = ({ children, className = '' }) => {" ++ nl
  ++ str "  return (" ++ nl
  ++ str "    <div" ++ nl
  ++ str "      className=" ++ dq ++ styles ++ str " ${className}" ++ dq ++ nl
  ++ str "      role=" ++ dq ++ str "presentation" ++ dq ++ nl
  ++ str "      data-testid=" ++ dq ++ toKebabCase componentName ++ dq ++ nl
  ++ str "    >" ++ nl
  ++ str "      {children}" ++ nl
  ++ str "    </div>" ++ nl
  ++ str "  );" ++ nl
  ++ str "};" ++ nl
  ++ nl
  ++ str "export default " ++ componentName ++ str ";" ++ nl
  ++ str "export { " ++ componentName ++ str " };" ++ nl.

(** The default export of the Vue script block, the same text in
    both branches of the template. *)
Definition vueDefaultExport (componentName : jsstring) : jsstring :=
  str "export default {" ++ nl
  ++ str "  name: '" ++ componentName ++ str "'," ++ nl
  ++ str "  props: {" ++ nl
  ++ str "    className: {" ++ nl
  ++ str "      type: String," ++ nl
  ++ str "      default: ''" ++ nl
  ++ str "    }" ++ nl
  ++ str "  }," ++ nl
  ++ str "  data() {" ++ nl
  ++ str "    return {" ++ nl
  ++ str "      testId: '" ++ toKebabCase componentName ++ str "'" ++ nl
  ++ str "    };" ++ nl
  ++ str "  }" ++ nl
  ++ str "};" ++ nl.

Definition generateVueComponent (node : FigmaNode) (props : Props)
  : jsstring :=
  let componentName := toPascalCase (props_name props) in
  let isTS := typescript (config this) in
  let styles := stylesOf props in
  str "<template>" ++ nl
  ++ str "  <div" ++ nl
  ++ str "    :class=" ++ dq ++ str "['" ++ styles ++ str "', className]" ++ dq ++ nl
  ++ str "    role=" ++ dq ++ str "presentation" ++ dq ++ nl
  ++ str "    :data-testid=" ++ dq ++ str "testId" ++ dq ++ nl
  ++ str "  >" ++ nl
  ++ str "    <slot></slot>" ++ nl
  ++ str "  </div>" ++ nl
  ++ str "</template>" ++ nl
  ++ nl
  ++ str "<script"
  ++ (if isTS then str " lang=" ++ dq ++ str "ts" ++ dq else [])
  ++ str ">" ++ nl
  ++ (if isTS
      then nl ++ str "interface Props {" ++ nl
           ++ str "  className?: string;" ++ nl
           ++ str "}" ++ nl
           ++ nl
           ++ vueDefaultExport componentName
      else nl ++ vueDefaultExport componentName) ++ nl
  ++ str "</script>" ++ nl
  ++ nl
  ++ str "<style" ++ (if tailwind (config this) then [] else str " scoped")
  ++ str ">" ++ nl
  ++ (if negb (tailwind (config this))
      then generateCSSContent props
      else str "/* Tailwind CSS is enabled */") ++ nl
  ++ str "</style>" ++ nl.

(** An entry of [Object.entries] joined into text is [key,value]. *)
Definition entryText (kv : jsstring * jsstring) : jsstring :=
  fst kv ++ str "," ++ snd kv.

Definition generateSvelteComponent (node : FigmaNode) (props : Props)
  : jsstring :=
  let componentName := toPascalCase (props_name props) in
  let isTS := typescript (config this) in
  let styles := stylesOf props in
  str "<script"
  ++ (if isTS then str " lang=" ++ dq ++ str "ts" ++ dq else [])
  ++ str ">" ++ nl
  ++ str "  let className = '';" ++ nl
  ++ str "  export { className as class };" ++ nl
  ++ str "  " ++ nl
  ++ str "  "
  ++ (if isTS
      then nl ++ str "  interface Props {" ++ nl
           ++ str "    class?: string;" ++ nl
           ++ str "  }" ++ nl
           ++ str "  "
      else []) ++ nl
  ++ nl
  ++ str "  const testId = '" ++ toKebabCase componentName ++ str "';" ++ nl
  ++ str "</script>" ++ nl
  ++ nl
  ++ str "<div" ++ nl
  ++ str "  class=" ++ dq ++ styles ++ str " {className}" ++ dq ++ nl
  ++ str "  role=" ++ dq ++ str "presentation" ++ dq ++ nl
  ++ str "  data-testid=" ++ dq ++ str "{testId}" ++ dq ++ nl
  ++ str ">" ++ nl
  ++ str "  <slot></slot>" ++ nl
  ++ str "</div>" ++ nl
  ++ nl
  ++ str "<style" ++ (if negb (tailwind (config this)) then str " scoped" else [])
  ++ str ">" ++ nl
  ++ str "  "
  ++ (if negb (tailwind (config this))
      then nl ++ str "  div {" ++ nl
           ++ str "    "
           ++ join (nl ++ str "    ") (map entryText (styleObjectToCSS props))
           ++ nl
           ++ str "  }" ++ nl
           ++ str "  "
      else str "/* Tailwind CSS is enabled */") ++ nl
  ++ str "</style>" ++ nl.

(** The value returned by [generateComponent]. *)
Record Generated := { code : jsstring; filename : jsstring }.

Definition generateComponent (node : FigmaNode) : Generated :=
  let props := extractProps node in
  let componentName := toPascalCase (props_name props) in
  let '(code_, ext) :=
    match framework (config this) with
    | react =>
        (generateReactComponent node props,
         if typescript (config this) then str "tsx" else str "jsx")
    | vue => (generateVueComponent node props, str "vue")
    | svelte => (generateSvelteComponent node props, str "svelte")
    end in
  {| code := code_; filename := componentName ++ str "." ++ ext |}.

Definition processDesign (nodes : list FigmaNode) : list Generated :=
  map generateComponent nodes.

End Methods.

End WithRuntime.

End Index.

(* ================================================================== *)
(** ** The vocabulary of the specification *)
(* ================================================================== *)

Module Spec.
Import JS.

(** [[A-Za-z0-9]+] *)
Definition matchesDisplayName (s : jsstring) : bool :=
  truthy s && forallb isAlnum s.

(** [[a-z0-9-]{1,50}] *)
Definition matchesFileSlug (s : jsstring) : bool :=
  (1 <=? length s)%nat && (length s <=? 50)%nat && forallb isSlugChar s.

(** A code unit of the raw name that leaves something in the file slug:
    a letter or digit, a hyphen, or white space (which becomes a
    hyphen). *)
Definition slugSource (c : N) : bool :=
  isAlnum c || (c =? 45)%N || isSpace c.

(** What is checked code unit by code unit over ASCII: how the two case
    mappings meet the character classes of the normalizer. *)
Definition asciiUnitChecked (c : N) : bool :=
  Bool.eqb (isAlnum (upperUnit c)) (isAlnum c)
  && Bool.eqb (isAlnum (lowerUnit c)) (isAlnum c)
  && Bool.eqb (isSpace (lowerUnit c)) (isSpace c)
  && Bool.eqb (isSlugChar (lowerUnit c)) (isAlnum c || (c =? 45)%N)
  && negb (isAlnum c && isNameSep c)
  && negb (isSpace c && (isAlnum c || (c =? 45)%N)).

(** The first line of the index file. *)
Definition indexHeader (f : Converter.Framework) : jsstring :=
  match f with
  | Converter.react => str "// react Components"
  | Converter.vue => str "// Vue Components"
  | Converter.svelte => str "// svelte Components"
  end.


(** One uppercase hexadecimal digit, two for a byte. *)
Definition hexDigit (d : Z) : N :=
  if (d <? 10)%Z then Z.to_N (48 + d) else Z.to_N (55 + d).

Definition hexByte (z : Z) : jsstring :=
  [hexDigit (z / 16); hexDigit (z mod 16)].

Definition clampByte (z : Z) : Z := Z.max 0 (Z.min 255 z).

(** [round(channel * 255)] clamped to a byte, the product being the
    binary64 one. *)
Definition channelByte (channel : Q) : Z :=
  match times channel 255 with
  | Finite p => clampByte (Math_round p)
  | PosInfinity => 255%Z
  | NegInfinity | NaN => 0%Z
  end.

(** The colour as [#RRGGBB]. *)
Definition hexTriplet (c : Index.Color) : jsstring :=
  str "#" ++ hexByte (channelByte (Index.r c))
  ++ hexByte (channelByte (Index.g c))
  ++ hexByte (channelByte (Index.b c)).

Definition isUpperHexDigit (c : N) : bool := isDigit c || between 65 70 c.

(** [#] followed by six uppercase hexadecimal digits. *)
Definition isHexTriplet (s : jsstring) : bool :=
  match s with
  | 35%N :: digits => (length digits =? 6)%nat && forallb isUpperHexDigit digits
  | _ => false
  end.

(** The digits [toHex] pads, for an integer [z] in place of the
    rounded product. *)
Definition paddedHex (z : Z) : jsstring :=
  let hex := intToString16 z in
  if (length hex =? 1)%nat then str "0" ++ hex else hex.

(** What is checked byte by byte: the uppercased digits of the code
    are the two digits of the byte. *)
Definition byteChecked (k : nat) : bool :=
  let z := Z.of_nat k in
  jsstring_eqb (map upperUnit (paddedHex z)) (hexByte z)
  && forallb isAscii (paddedHex z)
  && forallb isUpperHexDigit (hexByte z).

(** The extension that goes with a configuration: one per dialect,
    two for the function component. *)
Definition extensionOf (c : Index.ComponentConfig) : jsstring :=
  match Index.framework c with
  | Index.react => if Index.typescript c then str "tsx" else str "jsx"
  | Index.vue => str "vue"
  | Index.svelte => str "svelte"
  end.

(** The font-size utility with its threshold on the font size itself. *)
Definition fontUtility (fontSize : Q) : jsstring :=
  if Qle_bool 66 fontSize
  then str "text-[" ++ numberToString fontSize ++ str "px]"
  else str "text-" ++ intToString (Math_round (fontSize / 4)).

(** A channel of the data model: a number of [[0, 1]]. *)
Definition inUnit (channel : Q) : Prop := 0 <= channel /\ channel <= 1.

End Spec.

(* ================================================================== *)
(** ** Sample documents *)
(* ================================================================== *)

Module Samples.
Import JS.

(** A node of figma-client.ts with every optional attribute absent. *)
Definition bare (name_ type_ : jsstring) : FigmaClient.FigmaNode :=
  {| FigmaClient.id := str "0:1";
     FigmaClient.name := name_;
     FigmaClient.type := type_;
     FigmaClient.visible := None;
     FigmaClient.absoluteBoundingBox := None;
     FigmaClient.fills := None;
     FigmaClient.strokes := None;
     FigmaClient.strokeWeight := None;
     FigmaClient.cornerRadius := None;
     FigmaClient.fontSize := None;
     FigmaClient.fontFamily := None;
     FigmaClient.fontWeight := None;
     FigmaClient.textContent := None;
     FigmaClient.children := None |}.

Definition fileOf (ns : list FigmaClient.FigmaNode) : FigmaClient.FigmaFile :=
  {| FigmaClient.file_id := str "abc123";
     FigmaClient.file_name := str "Design";
     FigmaClient.nodes := ns;
     FigmaClient.componentCount := 0;
     FigmaClient.frameCount := Z.of_nat (length ns);
     FigmaClient.raw := None |}.

Definition button : FigmaClient.FigmaNode := bare (str "Button") (str "COMPONENT").
Definition buttonBang : FigmaClient.FigmaNode := bare (str "Button!!") (str "FRAME").
Definition punctuation : FigmaClient.FigmaNode := bare (str "!!!") (str "FRAME").
Definition nameless : FigmaClient.FigmaNode := bare [] (str "FRAME").

(** A text layer and a frame around children. *)
Definition textLayer (name_ text_ : jsstring) (vis : option bool)
  : FigmaClient.FigmaNode :=
  {| FigmaClient.id := str "0:2";
     FigmaClient.name := name_;
     FigmaClient.type := str "TEXT";
     FigmaClient.visible := vis;
     FigmaClient.absoluteBoundingBox := None;
     FigmaClient.fills := None;
     FigmaClient.strokes := None;
     FigmaClient.strokeWeight := None;
     FigmaClient.cornerRadius := None;
     FigmaClient.fontSize := None;
     FigmaClient.fontFamily := None;
     FigmaClient.fontWeight := None;
     FigmaClient.textContent := Some text_;
     FigmaClient.children := None |}.

Definition frameOf (name_ : jsstring) (cs : list FigmaClient.FigmaNode)
  : FigmaClient.FigmaNode :=
  {| FigmaClient.id := str "0:3";
     FigmaClient.name := name_;
     FigmaClient.type := str "FRAME";
     FigmaClient.visible := Some true;
     FigmaClient.absoluteBoundingBox :=
       Some {| FigmaClient.x := 0; FigmaClient.y := 0;
               FigmaClient.width := 1205 # 10; FigmaClient.height := 48 |};
     FigmaClient.fills := None;
     FigmaClient.strokes := None;
     FigmaClient.strokeWeight := None;
     FigmaClient.cornerRadius := None;
     FigmaClient.fontSize := None;
     FigmaClient.fontFamily := None;
     FigmaClient.fontWeight := None;
     FigmaClient.textContent := None;
     FigmaClient.children := Some cs |}.

Definition greeting : FigmaClient.FigmaNode :=
  textLayer (str "greeting") (str "Hello, ${userName}") None.

Definition hiddenNote : FigmaClient.FigmaNode :=
  textLayer (str "note") (str "internal") (Some false).

Definition box : FigmaClient.FigmaNode := bare (str "box") (str "GROUP").

Definition greetingCard : FigmaClient.FigmaNode :=
  frameOf (str "Greeting Card") [greeting; hiddenNote; box].

(** The same card with another hidden child in the place of the note: a
    group, not a text layer. *)
Definition hiddenPanel : FigmaClient.FigmaNode :=
  {| FigmaClient.id := str "0:9";
     FigmaClient.name := str "secret panel";
     FigmaClient.type := str "GROUP";
     FigmaClient.visible := Some false;
     FigmaClient.absoluteBoundingBox := None;
     FigmaClient.fills := None;
     FigmaClient.strokes := None;
     FigmaClient.strokeWeight := None;
     FigmaClient.cornerRadius := None;
     FigmaClient.fontSize := None;
     FigmaClient.fontFamily := None;
     FigmaClient.fontWeight := None;
     FigmaClient.textContent := None;
     FigmaClient.children := None |}.

Definition greetingCardWithPanel : FigmaClient.FigmaNode :=
  frameOf (str "Greeting Card") [greeting; hiddenPanel; box].

(** A node of index.ts with every optional attribute absent. *)
Definition bareIndex (name_ type_ : jsstring) : Index.FigmaNode :=
  {| Index.id := str "0:1";
     Index.name := name_;
     Index.type := type_;
     Index.visible := None;
     Index.children := None;
     Index.fills := None;
     Index.strokes := None;
     Index.effects := None;
     Index.constraints := None;
     Index.absoluteBoundingBox := None;
     Index.characters := None;
     Index.fontSize := None;
     Index.fontWeight := None |}.

Definition withFill (fill : Index.Paint) : Index.FigmaNode :=
  {| Index.id := str "0:4";
     Index.name := str "Submit Button";
     Index.type := str "FRAME";
     Index.visible := None;
     Index.children := None;
     Index.fills := Some [fill];
     Index.strokes := None;
     Index.effects := None;
     Index.constraints := None;
     Index.absoluteBoundingBox :=
       Some {| Index.x := 0; Index.y := 0;
               Index.width := 1004 # 10; Index.height := 40 |};
     Index.characters := None;
     Index.fontSize := None;
     Index.fontWeight := None |}.

Definition indigo : Index.Color :=
  {| Index.r := 4 # 10; Index.g := 4 # 10; Index.b := 94 # 100; Index.a := 1 |}.

Definition solidFill : Index.Paint :=
  {| Index.paint_type := str "SOLID"; Index.paint_color := Some indigo |}.

Definition gradientFill : Index.Paint :=
  {| Index.paint_type := str "GRADIENT_LINEAR"; Index.paint_color := None |}.

(** A red channel written 0.00196078431372549: the exact product by 255
    is below one half, the binary64 product is one half and rounds to
    one. *)
Definition faint : Index.Color :=
  {| Index.r := 196078431372549 # 100000000000000000;
     Index.g := 0; Index.b := 1; Index.a := 1 |}.

Definition faintFill : Index.Paint :=
  {| Index.paint_type := str "SOLID"; Index.paint_color := Some faint |}.

(** A text layer of index.ts with a font size of 20. *)
Definition label20 : Index.FigmaNode :=
  {| Index.id := str "0:5";
     Index.name := str "Label";
     Index.type := str "TEXT";
     Index.visible := None;
     Index.children := None;
     Index.fills := None;
     Index.strokes := None;
     Index.effects := None;
     Index.constraints := None;
     Index.absoluteBoundingBox := None;
     Index.characters := Some (str "Click me");
     Index.fontSize := Some 20;
     Index.fontWeight := None |}.

Definition submitButton : FigmaClient.FigmaNode :=
  bare (str "Submit Button") (str "FRAME").

Definition converterOf (f : Index.Framework) (ts tw : bool) : Index.DesignToCode :=
  Index.new_DesignToCode
    {| Index.framework_opt := Some f;
       Index.outputDir_opt := None;
       Index.typescript_opt := Some ts;
       Index.tailwind_opt := Some tw;
       Index.includeStyles_opt := None |}.

End Samples.

(* ================================================================== *)
(** ** Further vocabulary *)
(* ================================================================== *)

Module Vocabulary.
Import JS.

(** The children of a node as a list, none when the property is absent. *)
Definition childrenOf (n : FigmaClient.FigmaNode) : list FigmaClient.FigmaNode :=
  match FigmaClient.children n with
  | Some cs => cs
  | None => []
  end.

(** [m] is [n] or lies below it. *)
Inductive inTree (m : FigmaClient.FigmaNode) : FigmaClient.FigmaNode -> Prop :=
| inTree_here : inTree m m
| inTree_below : forall n c, In c (childrenOf n) -> inTree m c -> inTree m n.

(** The sum of an integer measure over a list of nodes. *)
Definition sumOver (f : FigmaClient.FigmaNode -> Z)
  (cs : list FigmaClient.FigmaNode) : Z :=
  fold_right (fun c acc => (f c + acc)%Z) 0%Z cs.

(** A code unit of a file name that stays inside its directory:
    letters, digits, the dot and the hyphen. *)
Definition isFileNameChar (c : N) : bool :=
  isAlnum c || (c =? 46)%N || (c =? 45)%N.

(** The first letter uppercased, the rest lowercased. *)
Definition capitalized (s : jsstring) : jsstring :=
  match s with
  | [] => []
  | c :: r => upperUnit c :: map lowerUnit r
  end.

(** What is checked code unit by code unit over ASCII for the kebab-case
    form of a capitalized word. *)
Definition kebabUnitChecked (c : N) : bool :=
  negb (isUpperAZ (lowerUnit c))
  && (lowerUnit (lowerUnit c) =? lowerUnit c)%N
  && (lowerUnit (upperUnit c) =? lowerUnit c)%N
  && Bool.eqb (isAlnum (upperUnit c)) (isAlnum c)
  && Bool.eqb (isAlnum (lowerUnit c)) (isAlnum c)
  && isAscii (upperUnit c) && isAscii (lowerUnit c)
  && (negb (isAlnum c) || isUpperAZ (upperUnit c) || isDigit c)
  && negb (isDigit c && (upperUnit c =? 45)%N)
  && Bool.eqb (isSlugChar (lowerUnit c)) (isAlnum c || (c =? 45)%N)
  && (negb (isSlugChar c) || (lowerUnit c =? c)%N)
  && negb (isSlugChar c && isSpace c)
  && negb (isAlnum c && isNameSep c).

(** A code unit of [n.toString(16)] for an integer [n]: a lowercase
    hexadecimal digit or the minus sign. *)
Definition isHexOutput (c : N) : bool :=
  isDigit c || between 97 102 c || (c =? 45)%N.

(** The same after uppercasing. *)
Definition isUpperHexOutput (c : N) : bool :=
  isDigit c || between 65 70 c || (c =? 45)%N.

(** What is checked code unit by code unit over ASCII for the uppercased
    digits. *)
Definition hexUnitChecked (c : N) : bool :=
  negb (isHexOutput c) || isUpperHexOutput (upperUnit c).

(** The text of one channel in a colour: at least two code units, each
    an uppercase hexadecimal digit or the minus sign, or else the
    uppercased name of an infinity. *)
Definition isChannelText (s : jsstring) : bool :=
  ((2 <=? length s)%nat && forallb isUpperHexOutput s)
  || jsstring_eqb s (str "INFINITY")
  || jsstring_eqb s (str "-INFINITY").

(** The style entries of a node, read off its attributes. *)
Definition styleEntriesOf {cc : CaseConversion} (node : Index.FigmaNode)
  : record :=
  (match Index.absoluteBoundingBox node with
   | Some box =>
       [(str "width", numberToString (Index.width box) ++ str "px");
        (str "height", numberToString (Index.height box) ++ str "px")]
   | None => []
   end)
  ++ (match Index.fills node with
      | Some (fill :: _) => [(str "background-color", Index.colorToHex fill)]
      | _ => []
      end)
  ++ (match Index.truthyStr (Index.characters node) with
      | Some _ =>
          [(str "font-size",
            numberToString (Index.orDefault (Index.fontSize node) 14)
            ++ str "px");
           (str "font-weight",
            numberToString (Index.orDefault (Index.fontWeight node) 400))]
      | None => []
      end).

(** An identifier of a placeholder: one or more word characters. *)
Definition isIdentifier (p : jsstring) : bool :=
  truthy p && forallb isWord p.

(** The text of the placeholder for the identifier [w]. *)
Definition placeholder (w : jsstring) : jsstring :=
  str "${" ++ w ++ str "}".

(** The declaration of the input [p] in the text of each dialect. *)
Definition declarationOf (f : Converter.Framework) (p : jsstring) : jsstring :=
  match f with
  | Converter.react => p ++ str "?: string | number;"
  | Converter.vue => p ++ str ": String,"
  | Converter.svelte => str "export let " ++ p ++ str ";"
  end.

(** The text stored last under [key] by the nodes of [ns], [init] when
    none of them has that file name. *)
Definition lastStored {cc : CaseConversion} (fw : Converter.Framework)
  (key : jsstring) (ns : list FigmaClient.FigmaNode) (init : option jsstring)
  : option jsstring :=
  fold_left
    (fun acc n =>
       if jsstring_eqb key
            (Converter.sanitizeFileName (FigmaClient.name n) ++ str ".tsx")
       then Some (Converter.generateComponentCode n fw)
       else acc)
    ns init.

End Vocabulary.

(* ================================================================== *)
(** ** Further sample documents *)
(* ================================================================== *)

Module Documents.
Import JS.

Definition nodeOf (name_ type_ : jsstring) (vis : option bool)
  (cs : option (list FigmaClient.FigmaNode)) : FigmaClient.FigmaNode :=
  {| FigmaClient.id := str "1:1";
     FigmaClient.name := name_;
     FigmaClient.type := type_;
     FigmaClient.visible := vis;
     FigmaClient.absoluteBoundingBox := None;
     FigmaClient.fills := None;
     FigmaClient.strokes := None;
     FigmaClient.strokeWeight := None;
     FigmaClient.cornerRadius := None;
     FigmaClient.fontSize := None;
     FigmaClient.fontFamily := None;
     FigmaClient.fontWeight := None;
     FigmaClient.textContent := None;
     FigmaClient.children := cs |}.

Definition icon : FigmaClient.FigmaNode :=
  nodeOf (str "Icon") (str "COMPONENT") None None.

Definition draft : FigmaClient.FigmaNode :=
  nodeOf (str "Draft") (str "FRAME") (Some false) (Some [icon]).

Definition header : FigmaClient.FigmaNode :=
  nodeOf (str "Header Nav") (str "FRAME") (Some true) (Some [icon]).

(** A page with a visible frame and a hidden one, each around an icon. *)
Definition page : FigmaClient.FigmaNode :=
  nodeOf (str "Page 1") (str "CANVAS") None (Some [header; draft]).

(** A page where nothing is hidden. *)
Definition openPage : FigmaClient.FigmaNode :=
  nodeOf (str "Page 2") (str "CANVAS") None (Some [header; icon]).

Definition hiddenButton : FigmaClient.FigmaNode :=
  nodeOf (str "Button") (str "COMPONENT") (Some false) None.

(** A hidden text layer with a placeholder, alone in a card. *)
Definition hiddenToken : FigmaClient.FigmaNode :=
  Samples.textLayer (str "token") (str "Token: ${apiKey}!") (Some false).

Definition cardWithToken : FigmaClient.FigmaNode :=
  Samples.frameOf (str "Card") [hiddenToken].

(** A file object that holds its nodes and nothing else. *)
Definition looseFile (items : list Untyped.value) : Untyped.value :=
  Untyped.VObj [(str "nodes", Untyped.VArr items)].

(** A frame whose name is the number 123. *)
Definition numberNamed : Untyped.value :=
  Untyped.VObj [(str "id", Untyped.VStr (str "1:7"));
                (str "name", Untyped.VNum 123);
                (str "type", Untyped.VStr (str "FRAME"))].

(** A runtime for documents that hold numbers wherever a number is
    rounded: its conversion is never called on them. *)
Definition unusedCoercion : Untyped.NumberCoercion :=
  {| Untyped.roundedTextOf := fun _ => Untyped.Normal (str "NaN") |}.

End Documents.

(* ================================================================== *)
(** ** Properties *)
(* ================================================================== *)

Import JS.

(** *** Strings *)

Section StringFacts.

Lemma jsstring_eqb_eq (a b : jsstring) : jsstring_eqb a b = true <-> a = b.
Proof.
  unfold jsstring_eqb. destruct (list_eq_dec N.eq_dec a b); split;
    intros; congruence.
Qed.

Lemma jsstring_eqb_refl (a : jsstring) : jsstring_eqb a a = true.
Proof. now apply jsstring_eqb_eq. Qed.

Lemma jsstring_eqb_neq (a b : jsstring) : a <> b -> jsstring_eqb a b = false.
Proof.
  intros H. destruct (jsstring_eqb a b) eqn:E; [|reflexivity].
  now apply jsstring_eqb_eq in E.
Qed.

Lemma keepOnly_all (isC : N -> bool) (s : jsstring) :
  forallb isC (keepOnly isC s) = true.
Proof.
  unfold keepOnly. apply forallb_forall. intros c Hc.
  now apply filter_In in Hc.
Qed.

Lemma slice_prefix (s : jsstring) (n : nat) :
  slice s 0 (Some (Z.of_nat n)) = firstn n s.
Proof.
  unfold slice, sliceIndex.
  change (0 <? 0)%Z with false. cbv iota.
  assert (H0 : Z.min 0 (Z.of_nat (length s)) = 0%Z) by lia.
  rewrite H0, Z.sub_0_r. simpl skipn.
  destruct (Z.of_nat n <? 0)%Z eqn:E; [apply Z.ltb_lt in E; lia|].
  destruct (Z.le_ge_cases (Z.of_nat n) (Z.of_nat (length s))) as [Hle|Hge].
  - rewrite Z.min_l by lia. now rewrite Nat2Z.id.
  - rewrite Z.min_r by lia. rewrite Nat2Z.id.
    rewrite !firstn_all2; auto; lia.
Qed.

Lemma forallb_firstn (isC : N -> bool) (n : nat) (s : jsstring) :
  forallb isC s = true -> forallb isC (firstn n s) = true.
Proof.
  revert s. induction n as [|n IH]; intros [|c s]; simpl; auto.
  intros H. apply andb_true_iff in H. destruct H as [H1 H2].
  now rewrite H1, IH.
Qed.

Lemma startsWith_app (p t : jsstring) : startsWith (p ++ t) p = true.
Proof.
  induction p as [|c p IH]; simpl; [reflexivity|].
  now rewrite N.eqb_refl, IH.
Qed.

Lemma includes_here (p t : jsstring) : includes (p ++ t) p = true.
Proof.
  destruct (p ++ t) eqn:E; simpl; rewrite <- E, startsWith_app; reflexivity.
Qed.

Lemma includes_app_r (s t p : jsstring) :
  includes t p = true -> includes (s ++ t) p = true.
Proof.
  intros H. induction s as [|c s IH]; simpl; [exact H|].
  rewrite IH. apply orb_true_r.
Qed.

Lemma startsWith_app_l (s t p : jsstring) :
  startsWith s p = true -> startsWith (s ++ t) p = true.
Proof.
  revert s. induction p as [|e p IH]; intros [|d s]; simpl; auto;
    try discriminate.
  intros H. apply andb_true_iff in H. destruct H as [H1 H2].
  now rewrite H1, IH.
Qed.

Lemma includes_app_l (s t p : jsstring) :
  includes s p = true -> includes (s ++ t) p = true.
Proof.
  induction s as [|c s IH]; intros H.
  - simpl in H. rewrite orb_false_r in H.
    destruct p; [|discriminate]. destruct t; reflexivity.
  - simpl in H. apply orb_true_iff in H.
    change ((c :: s) ++ t) with (c :: (s ++ t)).
    simpl includes. apply orb_true_iff. destruct H as [H|H].
    + left. now apply (startsWith_app_l (c :: s) t p).
    + right. auto.
Qed.

Lemma includes_join (sep : jsstring) (l : list jsstring) (x : jsstring) :
  In x l -> includes (join sep l) x = true.
Proof.
  induction l as [|y l IH]; intros H; [destruct H|].
  destruct H as [->|H].
  - destruct l; simpl join.
    + rewrite <- (app_nil_r x) at 1. apply includes_here.
    + apply includes_here.
  - destruct l as [|z l]; [destruct H|].
    change (join sep (y :: z :: l)) with (y ++ sep ++ join sep (z :: l)).
    apply includes_app_r, includes_app_r, IH, H.
Qed.

End StringFacts.

(** *** Identity Normalizer *)

Section Identity.
Context {cc : CaseConversion}.

Lemma sanitizeFileName_firstn (name : jsstring) :
  Converter.sanitizeFileName name =
  firstn 50 (keepOnly isSlugChar
               (replaceRuns isSpace (str "-") (toLowerCase name) false)).
Proof. unfold Converter.sanitizeFileName. apply (slice_prefix _ 50). Qed.

Lemma toPascalCase_alnum (name : jsstring) :
  forallb isAlnum (Converter.toPascalCase name) = true.
Proof. apply keepOnly_all. Qed.

Lemma sanitizeFileName_slug (name : jsstring) :
  forallb isSlugChar (Converter.sanitizeFileName name) = true.
Proof.
  rewrite sanitizeFileName_firstn. apply forallb_firstn, keepOnly_all.
Qed.

Lemma sanitizeFileName_length (name : jsstring) :
  (length (Converter.sanitizeFileName name) <= 50)%nat.
Proof. rewrite sanitizeFileName_firstn. apply firstn_le_length. Qed.

(** The facts about single ASCII code units, by enumeration. *)
Lemma ascii_units_checked :
  forallb Spec.asciiUnitChecked (map N.of_nat (seq 0 128)) = true.
Proof. vm_compute. reflexivity. Qed.

Lemma ascii_unit (c : N) :
  isAscii c = true -> Spec.asciiUnitChecked c = true.
Proof.
  intros H. unfold isAscii in H. apply N.ltb_lt in H.
  pose proof ascii_units_checked as Hall. rewrite forallb_forall in Hall.
  apply Hall. apply in_map_iff. exists (N.to_nat c). split.
  - apply N2Nat.id.
  - apply in_seq. lia.
Qed.

Lemma ascii_unit_facts (c : N) :
  isAscii c = true ->
  isAlnum (upperUnit c) = isAlnum c
  /\ isAlnum (lowerUnit c) = isAlnum c
  /\ isSpace (lowerUnit c) = isSpace c
  /\ isSlugChar (lowerUnit c) = (isAlnum c || (c =? 45)%N)
  /\ isAlnum c && isNameSep c = false
  /\ isSpace c && (isAlnum c || (c =? 45)%N) = false.
Proof.
  intros H. pose proof (ascii_unit c H) as F. unfold Spec.asciiUnitChecked in F.
  repeat (apply andb_true_iff in F; let G := fresh "G" in destruct F as [F G]).
  repeat match goal with
         | X : Bool.eqb _ _ = true |- _ => apply Bool.eqb_prop in X
         | X : negb _ = true |- _ => apply negb_true_iff in X
         end.
  repeat split; assumption.
Qed.

Lemma truthy_filter (isC : N -> bool) (s : jsstring) :
  truthy (filter isC s) = existsb isC s.
Proof.
  induction s as [|c s IH]; simpl; [reflexivity|].
  destruct (isC c); simpl; auto.
Qed.

Lemma truthy_firstn (n : nat) (s : jsstring) :
  truthy (firstn (S n) s) = truthy s.
Proof. destruct s; reflexivity. Qed.

Lemma join_nil_concat (l : list jsstring) : join [] l = concat l.
Proof.
  induction l as [|x l IH]; [reflexivity|].
  destruct l as [|y l]; [simpl; now rewrite app_nil_r|].
  change (join [] (x :: y :: l)) with (x ++ [] ++ join [] (y :: l)).
  now rewrite IH.
Qed.

Lemma existsb_concat (isC : N -> bool) (l : list jsstring) :
  existsb isC (concat l) = existsb (existsb isC) l.
Proof.
  induction l as [|x l IH]; simpl; [reflexivity|].
  now rewrite existsb_app, IH.
Qed.

(** The pieces of a split hold the code units that are no separators,
    in order.  In a run the piece being read is empty. *)
Lemma concat_splitRuns (isSep : N -> bool) (s cur : jsstring) (inRun : bool) :
  (inRun = true -> cur = []) ->
  concat (splitRuns isSep s cur inRun)
  = cur ++ filter (fun c => negb (isSep c)) s.
Proof.
  revert cur inRun. induction s as [|c s IH]; intros cur inRun Hinv; simpl.
  - now rewrite app_nil_r.
  - destruct (isSep c); simpl.
    + destruct inRun.
      * rewrite IH by reflexivity. now rewrite Hinv.
      * simpl. rewrite IH by reflexivity. reflexivity.
    + rewrite IH by discriminate. now rewrite <- app_assoc.
Qed.

Lemma splitRuns_ascii (isSep : N -> bool) (s cur : jsstring) (inRun : bool) :
  forallb isAscii s = true -> forallb isAscii cur = true ->
  forallb (forallb isAscii) (splitRuns isSep s cur inRun) = true.
Proof.
  revert cur inRun. induction s as [|c s IH]; intros cur inRun Hs Hcur; simpl.
  - now rewrite Hcur.
  - simpl in Hs. apply andb_true_iff in Hs. destruct Hs as [Hc Hs].
    destruct (isSep c).
    + destruct inRun; simpl; rewrite ?Hcur; simpl; now apply IH.
    + apply IH; [exact Hs|]. rewrite forallb_app, Hcur. simpl. now rewrite Hc.
Qed.

Lemma existsb_map_ascii (f : N -> N) (isC : N -> bool) (s : jsstring) :
  (forall c, isAscii c = true -> isC (f c) = isC c) ->
  forallb isAscii s = true ->
  existsb isC (map f s) = existsb isC s.
Proof.
  intros Hf. induction s as [|c s IH]; simpl; [reflexivity|].
  intros H. apply andb_true_iff in H. destruct H as [Hc Hs].
  now rewrite Hf, IH.
Qed.

Lemma slice_tail (c : N) (s : jsstring) : slice (c :: s) 1 None = s.
Proof.
  unfold slice, sliceIndex. change (1 <? 0)%Z with false. cbv iota.
  rewrite Z.min_l by (simpl length; lia).
  change (Z.to_nat 1) with 1%nat. simpl skipn.
  replace (Z.to_nat (Z.of_nat (length (c :: s)) - 1)) with (length s)
    by (simpl length; lia).
  apply firstn_all.
Qed.

Lemma capitalize_alnum (w : jsstring) :
  forallb isAscii w = true ->
  existsb isAlnum (Converter.capitalize w) = existsb isAlnum w.
Proof.
  intros H. unfold Converter.capitalize. destruct w as [|c w].
  - rewrite toUpperCase_ascii, toLowerCase_ascii by reflexivity. reflexivity.
  - rewrite slice_tail. simpl in H. apply andb_true_iff in H.
    destruct H as [Hc Hw].
    rewrite toUpperCase_ascii by (simpl; now rewrite Hc).
    rewrite toLowerCase_ascii by exact Hw.
    rewrite existsb_app. simpl. rewrite orb_false_r.
    rewrite (existsb_map_ascii lowerUnit isAlnum) by
      (auto; intros d Hd; apply (ascii_unit_facts d Hd)).
    destruct (ascii_unit_facts c Hc) as [Fup _]. now rewrite Fup.
Qed.

Lemma toPascalCase_truthy (name : jsstring) :
  forallb isAscii name = true ->
  truthy (Converter.toPascalCase name) = existsb isAlnum name.
Proof.
  intros H. unfold Converter.toPascalCase, keepOnly, splitOn.
  rewrite truthy_filter, join_nil_concat, existsb_concat.
  pose proof (splitRuns_ascii isNameSep name [] false H eq_refl) as Hws.
  transitivity (existsb (existsb isAlnum) (splitRuns isNameSep name [] false)).
  - induction (splitRuns isNameSep name [] false) as [|w ws IH];
      [reflexivity|].
    simpl in Hws. apply andb_true_iff in Hws. destruct Hws as [Hw Hws].
    simpl. now rewrite capitalize_alnum, IH.
  - rewrite <- existsb_concat, concat_splitRuns by discriminate. simpl.
    clear Hws. induction name as [|c name IH]; [reflexivity|].
    simpl in H. apply andb_true_iff in H. destruct H as [Hc Hn].
    destruct (ascii_unit_facts c Hc) as [_ [_ [_ [_ [Fsep _]]]]].
    simpl.
    destruct (isAlnum c) eqn:Ea, (isNameSep c) eqn:Es; simpl;
      rewrite ?Ea; simpl; auto; discriminate.
Qed.

(** The slug before truncation, from a position in or out of a run of
    white space. *)
Lemma slug_body_empty (s : jsstring) (inRun : bool) :
  forallb isAscii s = true ->
  existsb Spec.slugSource s = false ->
  keepOnly isSlugChar (replaceRuns isSpace (str "-") (map lowerUnit s) inRun) = [].
Proof.
  revert inRun. induction s as [|c s IH]; intros inRun Ha Hs; [reflexivity|].
  simpl in Ha. apply andb_true_iff in Ha. destruct Ha as [Hc Ha].
  simpl in Hs. apply orb_false_iff in Hs. destruct Hs as [Hsrc Hs].
  unfold Spec.slugSource in Hsrc. apply orb_false_iff in Hsrc.
  destruct Hsrc as [Hal Hsp].
  destruct (ascii_unit_facts c Hc) as [_ [_ [Fsp [Fslug _]]]].
  simpl. rewrite Fsp, Hsp. unfold keepOnly. simpl. rewrite Fslug, Hal.
  now apply IH.
Qed.

Lemma slug_body_truthy (s : jsstring) (inRun : bool) :
  forallb isAscii s = true ->
  existsb (fun c => isAlnum c || (c =? 45)%N) s = true
  \/ (inRun = false /\ existsb isSpace s = true) ->
  truthy (keepOnly isSlugChar
            (replaceRuns isSpace (str "-") (map lowerUnit s) inRun)) = true.
Proof.
  revert inRun. induction s as [|c s IH]; intros inRun Ha Hs.
  - destruct Hs as [Hs|[_ Hs]]; discriminate.
  - simpl in Ha. apply andb_true_iff in Ha. destruct Ha as [Hc Ha].
    destruct (ascii_unit_facts c Hc) as [_ [_ [Fsp [Fslug [_ Fdis]]]]].
    simpl in Hs. simpl. rewrite Fsp.
    destruct (isSpace c) eqn:Esp.
    + simpl in Fdis. rewrite Fdis in Hs. simpl in Hs.
      destruct inRun; [|reflexivity].
      apply IH; [exact Ha|]. left.
      destruct Hs as [Hs|[Hfalse _]]; [exact Hs|discriminate].
    + unfold keepOnly. simpl. rewrite Fslug.
      destruct (isAlnum c || (c =? 45)%N) eqn:Ead; [reflexivity|].
      simpl in Hs. apply IH; [exact Ha|].
      destruct Hs as [Hs|[_ Hs]]; [now left|now right].
Qed.

Lemma sanitizeFileName_truthy (name : jsstring) :
  forallb isAscii name = true ->
  truthy (Converter.sanitizeFileName name) = existsb Spec.slugSource name.
Proof.
  intros H. rewrite sanitizeFileName_firstn, truthy_firstn.
  rewrite toLowerCase_ascii by exact H.
  destruct (existsb Spec.slugSource name) eqn:E.
  - apply slug_body_truthy; [exact H|].
    clear H. induction name as [|c name IH]; [discriminate|].
    simpl in E. unfold Spec.slugSource at 1 in E. simpl.
    destruct (isAlnum c || (c =? 45)%N); [now left|].
    destruct (isSpace c); [now right|].
    simpl in E. destruct (IH E) as [Hl|[_ Hr]]; [now left|now right].
  - now rewrite slug_body_empty.
Qed.

End Identity.

(** C1 (as amended): for every raw name, whatever the case tables of the
    runtime, the display name holds only code units of [[A-Za-z0-9]] and
    the file slug only code units of [[a-z0-9-]], at most fifty of them.
    Either may be empty, the code has no fallback name: for an ASCII name
    the display name is non-empty exactly when the name holds a letter
    or a digit, the file slug exactly when it holds a letter, a digit, a
    hyphen or white space. *)
Theorem C1_identity_charset :
  forall (cc : CaseConversion) (name : jsstring),
    forallb isAlnum (Converter.toPascalCase name) = true
    /\ forallb isSlugChar (Converter.sanitizeFileName name) = true
    /\ (length (Converter.sanitizeFileName name) <= 50)%nat
    /\ (forallb isAscii name = true ->
        truthy (Converter.toPascalCase name) = existsb isAlnum name
        /\ truthy (Converter.sanitizeFileName name)
           = existsb Spec.slugSource name).
Proof.
  intros cc name. split; [|split; [|split]].
  - apply toPascalCase_alnum.
  - apply sanitizeFileName_slug.
  - apply sanitizeFileName_length.
  - intros Hascii. split.
    + now apply toPascalCase_truthy.
    + now apply sanitizeFileName_truthy.
Qed.

Lemma C1_identity_charset_witness :
  forallb isAscii (str "Submit Button") = true
  /\ truthy (Converter.toPascalCase (cc := asciiCase) (str "Submit Button")) = true
  /\ truthy (Converter.sanitizeFileName (cc := asciiCase) (str "Submit Button"))
     = true.
Proof.
  split; [reflexivity|].
  exact (proj2 (proj2 (proj2 (@C1_identity_charset asciiCase (str "Submit Button"))))
           eq_refl).
Defined.

(** C1 fails as stated: the name [!!!] is kept by the entry point (it is
    a non-empty string), and both its display name and its file slug are
    the empty string.  The name is ASCII, so every runtime agrees. *)
Lemma C1_punctuation_has_no_identity :
  Converter.toPascalCase (cc := asciiCase) (str "!!!") = []
  /\ Converter.sanitizeFileName (cc := asciiCase) (str "!!!") = []
  /\ Converter.isValidNode Samples.punctuation = true
  /\ Spec.matchesDisplayName
       (Converter.toPascalCase (cc := asciiCase) (str "!!!")) = false
  /\ Spec.matchesFileSlug
       (Converter.sanitizeFileName (cc := asciiCase) (str "!!!")) = false.
Proof. repeat split; reflexivity. Qed.

(** *** The entry point and its filter *)

Section EntryPoint.
Context {cc : CaseConversion}.


Lemma filter_skip (A : Type) (keep : A -> bool) (pre post : list A) (x : A) :
  keep x = false -> filter keep (pre ++ x :: post) = filter keep (pre ++ post).
Proof.
  intros H. rewrite !filter_app. simpl. now rewrite H.
Qed.

(** The result depends on the file through its nodes only. *)
Lemma conversionOf_nodes (f1 f2 : FigmaClient.FigmaFile) (fw : Converter.Framework) :
  filter Converter.isValidNode (FigmaClient.nodes f1)
  = filter Converter.isValidNode (FigmaClient.nodes f2) ->
  Converter.conversionOf f1 fw = Converter.conversionOf f2 fw.
Proof.
  intros H. unfold Converter.conversionOf. now rewrite H.
Qed.

End EntryPoint.



(** *** Failure and defaulting *)

Section MonadFacts.
Import Untyped.

Lemma filterM_pure (A B : Type) (f : A -> B) (p : B -> completion bool)
  (q : A -> bool) (l : list A) :
  (forall x, p (f x) = Normal (q x)) ->
  filterM p (map f l) = Normal (map f (filter q l)).
Proof.
  intros H. induction l as [|x l IH]; simpl; [reflexivity|].
  rewrite H, IH. simpl. now destruct (q x).
Qed.

Lemma mapM_pure (A B C : Type) (f : A -> B) (g : B -> completion C)
  (h : A -> C) (l : list A) :
  (forall x, g (f x) = Normal (h x)) ->
  mapM g (map f l) = Normal (map h l).
Proof.
  intros H. induction l as [|x l IH]; simpl; [reflexivity|].
  now rewrite H, IH.
Qed.

Lemma foldM_pure (A B C : Type) (f : A -> B) (step : C -> B -> completion C)
  (step' : C -> A -> C) (l : list A) (acc : C) :
  (forall c x, step c (f x) = Normal (step' c x)) ->
  foldM step (map f l) acc = Normal (fold_left step' l acc).
Proof.
  intros H. revert acc. induction l as [|x l IH]; intros acc; simpl;
    [reflexivity|].
  rewrite H. simpl. apply IH.
Qed.

(** What passes the callback is kept. *)
Lemma filterM_In (A : Type) (p : A -> completion bool) (l kept : list A)
  (x : A) :
  filterM p l = Normal kept -> In x l -> p x = Normal true -> In x kept.
Proof.
  revert kept. induction l as [|y l IH]; intros kept Hf Hin Hp; simpl in *;
    [contradiction|].
  destruct (p y) as [keep|] eqn:Ey; simpl in Hf; [|discriminate].
  destruct (filterM p l) as [rest|]; simpl in Hf; [|discriminate].
  injection Hf as <-. destruct Hin as [->|Hin].
  - rewrite Hp in Ey. injection Ey as <-. now left.
  - specialize (IH rest eq_refl Hin Hp). destruct keep; [now right|exact IH].
Qed.

(** A loop whose body throws at one of the elements throws. *)
Lemma foldM_throws (A B : Type) (step : B -> A -> completion B) (l : list A)
  (x : A) (acc : B) :
  In x l -> (forall c, step c x = TypeError) -> foldM step l acc = TypeError.
Proof.
  revert acc. induction l as [|y l IH]; intros acc Hin Hx; simpl;
    [contradiction|].
  destruct Hin as [->|Hin].
  - now rewrite Hx.
  - destruct (step acc y); simpl; [now apply IH|reflexivity].
Qed.

Lemma lookup_cons_ne (key k : jsstring) (v : value)
  (fields : list (jsstring * value)) :
  jsstring_eqb key k = false ->
  lookup key ((k, v) :: fields) = lookup key fields.
Proof. intros H. unfold lookup. simpl. now rewrite H. Qed.

Lemma lookup_cons_eq (key : jsstring) (v : value)
  (fields : list (jsstring * value)) :
  lookup key ((key, v) :: fields) = v.
Proof. unfold lookup. simpl. now rewrite jsstring_eqb_refl. Qed.

Lemma lookup_optional_ne (key k : jsstring) (o : option value)
  (fields : list (jsstring * value)) :
  jsstring_eqb key k = false ->
  lookup key (optional k o ++ fields) = lookup key fields.
Proof. intros H. destruct o; simpl; [now apply lookup_cons_ne|reflexivity]. Qed.

Lemma lookup_optional_last (key k : jsstring) (o : option value) :
  jsstring_eqb key k = false -> lookup key (optional k o) = VUndefined.
Proof.
  intros H. destruct o; simpl; [|reflexivity].
  now rewrite lookup_cons_ne.
Qed.

Lemma lookup_optional_eq (key : jsstring) (o : option value)
  (fields : list (jsstring * value)) :
  lookup key fields = VUndefined ->
  lookup key (optional key o ++ fields)
  = match o with Some v => v | None => VUndefined end.
Proof.
  intros H. destruct o; simpl; [apply lookup_cons_eq|exact H].
Qed.

End MonadFacts.

Ltac skip_fields :=
  repeat first
    [ rewrite lookup_cons_ne by reflexivity
    | rewrite lookup_optional_ne by reflexivity
    | rewrite lookup_optional_last by reflexivity ].

Section Shapes.
Import Untyped.
Context {cc : CaseConversion} {nc : NumberCoercion}.

Lemma get_name (n : FigmaClient.FigmaNode) :
  get (nodeValue n) (str "name") = Normal (VStr (FigmaClient.name n)).
Proof. destruct n. reflexivity. Qed.

Lemma get_type (n : FigmaClient.FigmaNode) :
  get (nodeValue n) (str "type") = Normal (VStr (FigmaClient.type n)).
Proof. destruct n. reflexivity. Qed.

Lemma get_visible (n : FigmaClient.FigmaNode) :
  get (nodeValue n) (str "visible")
  = Normal (match FigmaClient.visible n with
            | Some b => VBool b
            | None => VUndefined
            end).
Proof.
  destruct n. cbn [nodeValue get app FigmaClient.visible]. f_equal.
  skip_fields. rewrite lookup_optional_eq.
  - now destruct visible.
  - skip_fields. reflexivity.
Qed.

Lemma get_textContent (n : FigmaClient.FigmaNode) :
  get (nodeValue n) (str "textContent")
  = Normal (match FigmaClient.textContent n with
            | Some t => VStr t
            | None => VUndefined
            end).
Proof.
  destruct n. cbn [nodeValue get app FigmaClient.textContent]. f_equal.
  skip_fields. rewrite lookup_optional_eq.
  - now destruct textContent.
  - skip_fields. reflexivity.
Qed.

Lemma get_box (n : FigmaClient.FigmaNode) :
  get (nodeValue n) (str "absoluteBoundingBox")
  = Normal (match FigmaClient.absoluteBoundingBox n with
            | Some box => boxValue box
            | None => VUndefined
            end).
Proof.
  destruct n. cbn [nodeValue get app FigmaClient.absoluteBoundingBox]. f_equal.
  skip_fields. rewrite lookup_optional_eq.
  - now destruct absoluteBoundingBox.
  - skip_fields. reflexivity.
Qed.

Lemma get_children (n : FigmaClient.FigmaNode) :
  get (nodeValue n) (str "children")
  = Normal (match FigmaClient.children n with
            | Some cs => VArr (map nodeValue cs)
            | None => VUndefined
            end).
Proof.
  destruct n. cbn [nodeValue get app FigmaClient.children]. f_equal.
  skip_fields. rewrite lookup_optional_eq.
  - now destruct children.
  - skip_fields. reflexivity.
Qed.

Lemma isValidNode_shape (n : FigmaClient.FigmaNode) :
  isValidNode (nodeValue n) = Normal (Converter.isValidNode n).
Proof.
  unfold isValidNode, Converter.isValidNode, FigmaClient.visibleNotFalse.
  rewrite get_visible. cbn [bind].
  destruct (FigmaClient.visible n) as [[|]|]; cbn [isFalse];
    try reflexivity; now rewrite get_name.
Qed.

Lemma addPlaceholders_shape (props : list jsstring) (c : FigmaClient.FigmaNode) :
  addPlaceholders props (nodeValue c) = Normal (Converter.addPlaceholders props c).
Proof.
  unfold addPlaceholders, Converter.addPlaceholders, addMatches.
  rewrite get_type. cbn [bind isString]. rewrite get_textContent.
  destruct (jsstring_eqb (FigmaClient.type c) (str "TEXT"));
    destruct (FigmaClient.textContent c) as [t|]; cbn [bind andb];
    reflexivity.
Qed.

Lemma extractPropsFromNode_shape (n : FigmaClient.FigmaNode) :
  extractPropsFromNode (nodeValue n) = Normal (Converter.extractPropsFromNode n).
Proof.
  unfold extractPropsFromNode, Converter.extractPropsFromNode.
  rewrite get_children.
  destruct (FigmaClient.children n) as [cs|]; cbn [bind truthyValue];
    [|reflexivity].
  apply foldM_pure. intros c x. apply addPlaceholders_shape.
Qed.

Lemma dimensionsOf_shape (n : FigmaClient.FigmaNode) :
  dimensionsOf (nodeValue n) = Normal (Converter.dimensionsOf n).
Proof.
  unfold dimensionsOf, Converter.dimensionsOf. rewrite get_box.
  destruct (FigmaClient.absoluteBoundingBox n) as [box|]; reflexivity.
Qed.

Lemma ownText_shape (n : FigmaClient.FigmaNode) :
  ownText (nodeValue n) = Normal (Converter.ownText n).
Proof.
  unfold ownText, Converter.ownText. rewrite get_textContent.
  destruct (FigmaClient.textContent n) as [t|]; cbn [bind truthyValue];
    [|reflexivity].
  now destruct (truthy t).
Qed.

Lemma visibleNotFalse_shape (c : FigmaClient.FigmaNode) :
  visibleNotFalse (nodeValue c) = Normal (FigmaClient.visibleNotFalse c).
Proof.
  unfold visibleNotFalse, FigmaClient.visibleNotFalse. rewrite get_visible.
  now destruct (FigmaClient.visible c) as [[|]|].
Qed.

Lemma childMarkup_shape (indent opening closing : jsstring)
  (c : FigmaClient.FigmaNode) :
  childMarkup indent opening closing (nodeValue c)
  = Normal (if jsstring_eqb (FigmaClient.type c) (str "TEXT")
            then indent ++ str "<p>"
                 ++ orElse (FigmaClient.textContent c) (FigmaClient.name c)
                 ++ str "</p>"
            else indent ++ str "<div>" ++ opening ++ FigmaClient.name c
                 ++ closing ++ str "</div>").
Proof.
  unfold childMarkup. rewrite get_type. cbn [bind isString].
  destruct (jsstring_eqb (FigmaClient.type c) (str "TEXT")).
  - rewrite get_textContent. cbn [bind]. unfold orElse.
    destruct (FigmaClient.textContent c) as [t|]; cbn [truthyValue].
    + destruct (truthy t); [reflexivity|]. now rewrite get_name.
    + now rewrite get_name.
  - now rewrite get_name.
Qed.

Lemma childrenMarkup_shape (indent opening closing : jsstring)
  (n : FigmaClient.FigmaNode) :
  childrenMarkup indent opening closing (nodeValue n)
  = Normal (match FigmaClient.children n with
            | None | Some [] => Converter.ownText n
            | Some cs =>
                join nl
                  (map (fun c =>
                          if jsstring_eqb (FigmaClient.type c) (str "TEXT")
                          then indent ++ str "<p>"
                               ++ orElse (FigmaClient.textContent c)
                                    (FigmaClient.name c)
                               ++ str "</p>"
                          else indent ++ str "<div>" ++ opening
                               ++ FigmaClient.name c ++ closing ++ str "</div>")
                     (filter FigmaClient.visibleNotFalse cs))
            end).
Proof.
  unfold childrenMarkup. rewrite get_children.
  destruct (FigmaClient.children n) as [[|c cs]|];
    cbn [bind truthyValue negb orb]; try apply ownText_shape.
  assert (Hlen : get (VArr (map nodeValue (c :: cs))) (str "length")
                 = Normal (VNum (inject_Z
                                   (Z.of_nat (S (length (map nodeValue cs)))))))
    by reflexivity.
  rewrite Hlen. cbn [bind].
  assert (Hz : isZero (VNum (inject_Z
                               (Z.of_nat (S (length (map nodeValue cs))))))
               = false) by reflexivity.
  rewrite Hz.
  rewrite (filterM_pure nodeValue visibleNotFalse FigmaClient.visibleNotFalse
             (c :: cs) visibleNotFalse_shape).
  cbn [bind].
  rewrite (mapM_pure nodeValue (childMarkup indent opening closing) _ _
             (childMarkup_shape indent opening closing)).
  reflexivity.
Qed.

Lemma generateComponentCode_shape (n : FigmaClient.FigmaNode)
  (fw : Converter.Framework) :
  generateComponentCode (nodeValue n) fw
  = Normal (Converter.generateComponentCode n fw).
Proof.
  unfold generateComponentCode, Converter.generateComponentCode.
  rewrite get_name. cbn [bind toPascalCase].
  rewrite extractPropsFromNode_shape. cbn [bind].
  destruct fw;
    unfold generateReactComponent, generateVueComponent,
      generateSvelteComponent, renderWith,
      generateReactChildren, generateVueChildren, generateSvelteChildren;
    rewrite dimensionsOf_shape, get_name; cbn [bind toStringOf];
    rewrite childrenMarkup_shape; cbn [bind]; f_equal;
    unfold Converter.generateReactComponent, Converter.generateVueComponent,
      Converter.generateSvelteComponent, reactText, vueText, svelteText,
      Converter.generateReactChildren, Converter.generateVueChildren,
      Converter.generateSvelteChildren;
    destruct (FigmaClient.children n) as [[|c cs]|]; reflexivity.
Qed.

Lemma storeComponent_shape (fw : Converter.Framework) (components : record)
  (n : FigmaClient.FigmaNode) :
  storeComponent fw components (nodeValue n)
  = Normal (Converter.storeComponent fw components n).
Proof.
  unfold storeComponent, Converter.storeComponent.
  rewrite get_name. cbn [bind sanitizeFileName].
  now rewrite generateComponentCode_shape.
Qed.

Lemma exportLine_shape (n : FigmaClient.FigmaNode) :
  exportLine (nodeValue n) = Normal (Converter.exportLine n).
Proof. unfold exportLine. now rewrite get_name. Qed.

Lemma generateIndexFile_shape (ns : list FigmaClient.FigmaNode)
  (fw : Converter.Framework) :
  generateIndexFile (map nodeValue ns) fw
  = Normal (Converter.generateIndexFile ns fw).
Proof.
  unfold generateIndexFile, Converter.generateIndexFile.
  rewrite (filterM_pure nodeValue isValidNode Converter.isValidNode ns
             isValidNode_shape).
  cbn [bind].
  rewrite (mapM_pure nodeValue exportLine Converter.exportLine _
             exportLine_shape).
  reflexivity.
Qed.

(** On a document of the declared shape the conversion ends normally,
    with the result of the typed embedding. *)
Lemma conversionOf_shape (f : FigmaClient.FigmaFile) (fw : Converter.Framework) :
  conversionOf (fileValue f) fw = Normal (Converter.conversionOf f fw).
Proof.
  unfold conversionOf, Converter.conversionOf.
  assert (Hn : get (fileValue f) (str "nodes")
               = Normal (VArr (map nodeValue (FigmaClient.nodes f))))
    by reflexivity.
  rewrite Hn. cbn [bind].
  rewrite (filterM_pure nodeValue isValidNode Converter.isValidNode _
             isValidNode_shape).
  cbn [bind].
  rewrite (foldM_pure nodeValue (storeComponent fw)
             (Converter.storeComponent fw) _ _ (storeComponent_shape fw)).
  cbn [bind]. now rewrite generateIndexFile_shape.
Qed.

(** With nothing left by the filter the result is empty. *)
Lemma conversionOf_no_valid (file : value) (items : list value)
  (fw : Converter.Framework) :
  get file (str "nodes") = Normal (VArr items) ->
  filterM isValidNode items = Normal [] ->
  conversionOf file fw
  = Normal {| Converter.components := [];
              Converter.index := Spec.indexHeader fw ++ nl ++ nl |}.
Proof.
  intros Hn Hf. unfold conversionOf. rewrite Hn. cbn [bind]. rewrite Hf.
  cbn [bind foldM generateIndexFile filterM mapM].
  destruct fw; reflexivity.
Qed.

(** A node that passes the filter with a name that is no string. *)
Lemma conversionOf_name_not_string (file : value) (items : list value)
  (n visible name : value) (fw : Converter.Framework) :
  get file (str "nodes") = Normal (VArr items) ->
  In n items ->
  get n (str "visible") = Normal visible -> isFalse visible = false ->
  get n (str "name") = Normal name -> truthyValue name = true ->
  (forall s, name <> VStr s) ->
  conversionOf file fw = TypeError.
Proof.
  intros Hn Hin Hv Hnf Hname Ht Hs. unfold conversionOf.
  rewrite Hn. cbn [bind].
  destruct (filterM isValidNode items) as [valid|] eqn:Ef; [|reflexivity].
  cbn [bind].
  assert (Hvalid : In n valid).
  { apply (@filterM_In _ isValidNode items valid n Ef Hin). unfold isValidNode.
    rewrite Hv. cbn [bind]. rewrite Hnf, Hname. cbn [bind]. now rewrite Ht. }
  rewrite (@foldM_throws _ _ (storeComponent fw) valid n []); [reflexivity|exact Hvalid|].
  intros c. unfold storeComponent. rewrite Hname. cbn [bind].
  destruct name; try reflexivity. now elim (Hs s).
Qed.

End Shapes.

(** C9 (as amended): the entry point has no failure for missing input.
    When no node of the file passes the filter (visible not false, name
    truthy) its promise is fulfilled, with the empty component mapping
    and an index that holds the header comment alone.  For every
    document of the declared shape, whatever its numbers and with
    optional attributes absent or present, the promise is fulfilled,
    with the result of the typed embedding; and [extractProps] leaves
    out dimensions, background and typography of a node without
    bounding box, fills and text.  A wrong-shaped attribute is not
    absorbed in general: a node that passes the filter with a name that
    is not a string makes the promise reject with a [TypeError]. *)
Theorem C9_failure_boundary :
  forall (cc : CaseConversion) (nc : Untyped.NumberCoercion)
         (fw : Converter.Framework),
    (forall (file : Untyped.value) (items : list Untyped.value),
        Untyped.get file (str "nodes") = Untyped.Normal (Untyped.VArr items) ->
        Untyped.filterM Untyped.isValidNode items = Untyped.Normal [] ->
        Untyped.convertFigmaToCode file fw
        = Converter.Fulfilled
            {| Converter.components := [];
               Converter.index := Spec.indexHeader fw ++ nl ++ nl |})
    /\ (forall f : FigmaClient.FigmaFile,
          Untyped.convertFigmaToCode (Untyped.fileValue f) fw
          = Converter.Fulfilled (Converter.conversionOf f fw))
    /\ (forall (file : Untyped.value) (items : list Untyped.value)
               (n visible name : Untyped.value),
          Untyped.get file (str "nodes") = Untyped.Normal (Untyped.VArr items) ->
          In n items ->
          Untyped.get n (str "visible") = Untyped.Normal visible ->
          Untyped.isFalse visible = false ->
          Untyped.get n (str "name") = Untyped.Normal name ->
          Untyped.truthyValue name = true ->
          (forall s, name <> Untyped.VStr s) ->
          Untyped.convertFigmaToCode file fw
          = Converter.Rejected (str "TypeError"))
    /\ (forall node : Index.FigmaNode,
          Index.absoluteBoundingBox node = None ->
          Index.fills node = None ->
          Index.characters node = None ->
          Index.dimensions (Index.extractProps node) = None
          /\ Index.backgroundColor (Index.extractProps node) = None
          /\ Index.text (Index.extractProps node) = None
          /\ Index.props_fontSize (Index.extractProps node) = None
          /\ Index.props_fontWeight (Index.extractProps node) = None).
Proof.
  intros cc nc fw. split; [|split; [|split]].
  - intros file items Hn Hf. unfold Untyped.convertFigmaToCode.
    now rewrite (@conversionOf_no_valid cc nc file items fw Hn Hf).
  - intros f. unfold Untyped.convertFigmaToCode.
    now rewrite conversionOf_shape.
  - intros file items n visible name Hn Hin Hv Hnf Hname Ht Hs.
    unfold Untyped.convertFigmaToCode.
    now rewrite (@conversionOf_name_not_string cc nc file items n visible name fw
                   Hn Hin Hv Hnf Hname Ht Hs).
  - intros node Hb Hf Hc. unfold Index.extractProps. simpl.
    rewrite Hb, Hf, Hc. repeat split; reflexivity.
Qed.

Lemma C9_failure_boundary_witness :
  Untyped.convertFigmaToCode (cc := asciiCase) (nc := Documents.unusedCoercion)
    (Documents.looseFile [Untyped.nodeValue Samples.nameless]) Converter.vue
  = Converter.Fulfilled
      {| Converter.components := [];
         Converter.index := str "// Vue Components" ++ nl ++ nl |}
  /\ Untyped.convertFigmaToCode (cc := asciiCase) (nc := Documents.unusedCoercion)
       (Untyped.fileValue (Samples.fileOf [Samples.greetingCard])) Converter.vue
     = Converter.Fulfilled
         (Converter.conversionOf (cc := asciiCase)
            (Samples.fileOf [Samples.greetingCard]) Converter.vue)
  /\ Untyped.convertFigmaToCode (cc := asciiCase) (nc := Documents.unusedCoercion)
       (Documents.looseFile [Untyped.nodeValue Samples.button;
                             Documents.numberNamed])
       Converter.vue
     = Converter.Rejected (str "TypeError")
  /\ Index.dimensions
       (Index.extractProps (cc := asciiCase)
          (Samples.bareIndex (str "Card") (str "FRAME"))) = None.
Proof.
  destruct (@C9_failure_boundary asciiCase Documents.unusedCoercion Converter.vue)
    as [Hempty [Hshape [Hname Hprops]]].
  split; [|split; [|split]].
  - apply (Hempty (Documents.looseFile [Untyped.nodeValue Samples.nameless])
             [Untyped.nodeValue Samples.nameless]); reflexivity.
  - apply Hshape.
  - apply (Hname
             (Documents.looseFile [Untyped.nodeValue Samples.button;
                                   Documents.numberNamed])
             [Untyped.nodeValue Samples.button; Documents.numberNamed]
             Documents.numberNamed Untyped.VUndefined
             (Untyped.VNum 123)); try reflexivity.
    + right. now left.
    + intros s. discriminate.
  - apply (Hprops (Samples.bareIndex (str "Card") (str "FRAME")));
      reflexivity.
Defined.

(** C9 fails as stated, twice.  No node is supplied, and the promise is
    fulfilled with an ordinary result where the specification expects
    the failure MissingRequiredInput.  A frame is supplied whose name is
    the number 123, and the promise is rejected with a [TypeError] where
    the specification expects the attribute to be treated as absent. *)
Lemma C9_no_missing_input_but_type_error :
  Untyped.convertFigmaToCode (cc := asciiCase) (nc := Documents.unusedCoercion)
    (Documents.looseFile []) Converter.react
  = Converter.Fulfilled
      {| Converter.components := [];
         Converter.index := str "// react Components" ++ nl ++ nl |}
  /\ Untyped.convertFigmaToCode (cc := asciiCase) (nc := Documents.unusedCoercion)
       (Documents.looseFile [Documents.numberNamed]) Converter.react
     = Converter.Rejected (str "TypeError").
Proof. split; reflexivity. Qed.

(** *** Visibility filtering *)

Section Visibility.

Lemma hidden_not_visible (h : FigmaClient.FigmaNode) :
  FigmaClient.visible h = Some false -> FigmaClient.visibleNotFalse h = false.
Proof. intros H. unfold FigmaClient.visibleNotFalse. now rewrite H. Qed.

Lemma children_markup (A : Type) (own : jsstring) (entry : A -> jsstring)
  (keep : A -> bool) (pre post : list A) (h : A) :
  keep h = false ->
  match pre ++ h :: post with
  | [] => own
  | cs => join nl (map entry (filter keep cs))
  end = join nl (map entry (filter keep (pre ++ post))).
Proof.
  intros H. rewrite <- (@filter_skip _ keep pre post h H).
  destruct (pre ++ h :: post) eqn:E; [|reflexivity].
  destruct pre; discriminate.
Qed.

Lemma children_without_hidden (node : FigmaClient.FigmaNode)
  (pre post : list FigmaClient.FigmaNode) (h : FigmaClient.FigmaNode) :
  FigmaClient.visible h = Some false ->
  FigmaClient.children node = Some (pre ++ h :: post) ->
  Converter.generateReactChildren node
  = join nl (map Converter.reactChild
               (filter FigmaClient.visibleNotFalse (pre ++ post)))
  /\ Converter.generateVueChildren node
     = join nl (map Converter.vueChild
                  (filter FigmaClient.visibleNotFalse (pre ++ post)))
  /\ Converter.generateSvelteChildren node
     = join nl (map Converter.svelteChild
                  (filter FigmaClient.visibleNotFalse (pre ++ post))).
Proof.
  intros Hh Hc. apply hidden_not_visible in Hh.
  unfold Converter.generateReactChildren, Converter.generateVueChildren,
    Converter.generateSvelteChildren.
  rewrite Hc.
  pose proof (@children_markup _ (Converter.ownText node) Converter.reactChild
                FigmaClient.visibleNotFalse pre post h Hh) as Hr.
  pose proof (@children_markup _ (Converter.ownText node) Converter.vueChild
                FigmaClient.visibleNotFalse pre post h Hh) as Hv.
  pose proof (@children_markup _ (Converter.ownText node) Converter.svelteChild
                FigmaClient.visibleNotFalse pre post h Hh) as Hs.
  destruct (pre ++ h :: post); auto.
Qed.

End Visibility.

(** C7: a child with [visible: false] leaves no trace in what the three
    renderers produce.  Whatever the kind, the name and the text of the
    hidden child, the children markup is the one made of the entries of
    the other visible children (no paragraph, no placeholder element, no
    comment for the hidden one), and the whole text of each renderer,
    for a given display name and given inputs, is unchanged when the
    hidden child is replaced by any other hidden child. *)
Theorem C7_hidden_child_not_rendered :
  forall (name_ : jsstring) (props : list jsstring)
         (n1 n2 : FigmaClient.FigmaNode)
         (pre post : list FigmaClient.FigmaNode) (h h' : FigmaClient.FigmaNode),
    FigmaClient.visible h = Some false ->
    FigmaClient.visible h' = Some false ->
    FigmaClient.children n1 = Some (pre ++ h :: post) ->
    FigmaClient.children n2 = Some (pre ++ h' :: post) ->
    FigmaClient.name n1 = FigmaClient.name n2 ->
    FigmaClient.absoluteBoundingBox n1 = FigmaClient.absoluteBoundingBox n2 ->
    (Converter.generateReactChildren n1
     = join nl (map Converter.reactChild
                  (filter FigmaClient.visibleNotFalse (pre ++ post)))
     /\ Converter.generateVueChildren n1
        = join nl (map Converter.vueChild
                     (filter FigmaClient.visibleNotFalse (pre ++ post)))
     /\ Converter.generateSvelteChildren n1
        = join nl (map Converter.svelteChild
                     (filter FigmaClient.visibleNotFalse (pre ++ post))))
    /\ Converter.generateReactComponent name_ n1 props
       = Converter.generateReactComponent name_ n2 props
    /\ Converter.generateVueComponent name_ n1 props
       = Converter.generateVueComponent name_ n2 props
    /\ Converter.generateSvelteComponent name_ n1 props
       = Converter.generateSvelteComponent name_ n2 props.
Proof.
  intros name_ props n1 n2 pre post h h' Hh Hh' Hc1 Hc2 Hname Hbox.
  destruct (@children_without_hidden n1 pre post h Hh Hc1) as [Hr1 [Hv1 Hs1]].
  destruct (@children_without_hidden n2 pre post h' Hh' Hc2) as [Hr2 [Hv2 Hs2]].
  split; [auto|].
  unfold Converter.generateReactComponent, Converter.generateVueComponent,
    Converter.generateSvelteComponent, Converter.dimensionsOf.
  rewrite Hr1, Hv1, Hs1, Hr2, Hv2, Hs2, Hname, Hbox. auto.
Qed.

Lemma C7_hidden_child_not_rendered_witness :
  FigmaClient.visible Samples.hiddenNote = Some false
  /\ FigmaClient.visible Samples.hiddenPanel = Some false
  /\ Converter.generateReactChildren Samples.greetingCard
     = str "      <p>Hello, ${userName}</p>" ++ nl
       ++ str "      <div>{/* box */}</div>"
  /\ Converter.generateVueChildren Samples.greetingCard
     = str "    <p>Hello, ${userName}</p>" ++ nl
       ++ str "    <div><!-- box --></div>"
  /\ Converter.generateSvelteChildren Samples.greetingCard
     = str "  <p>Hello, ${userName}</p>" ++ nl
       ++ str "  <div><!-- box --></div>"
  /\ Converter.generateVueComponent (str "GreetingCard") Samples.greetingCard
       [str "userName"]
     = Converter.generateVueComponent (str "GreetingCard")
         Samples.greetingCardWithPanel [str "userName"].
Proof.
  split; [reflexivity|]. split; [reflexivity|].
  destruct (@C7_hidden_child_not_rendered (str "GreetingCard") [str "userName"]
              Samples.greetingCard Samples.greetingCardWithPanel
              [Samples.greeting] [Samples.box]
              Samples.hiddenNote Samples.hiddenPanel
              eq_refl eq_refl eq_refl eq_refl eq_refl eq_refl)
    as [[Hr [Hv Hs]] [_ [Hvue _]]].
  repeat split; assumption.
Defined.

(** *** Template inputs *)

Section TemplateInputs.
Context {cc : CaseConversion}.



Lemma set_add_NoDup (x : jsstring) (l : list jsstring) :
  NoDup l -> NoDup (set_add x l).
Proof.
  intros H. unfold set_add. destruct (existsb (jsstring_eqb x) l) eqn:E;
    [exact H|].
  apply NoDup_app; [exact H|repeat constructor; intros []|].
  intros y Hy [Hxy|[]]. subst y.
  assert (Hex : existsb (jsstring_eqb x) l = true)
    by (apply existsb_exists; exists x; split; [exact Hy|apply jsstring_eqb_refl]).
  congruence.
Qed.

Lemma addPlaceholders_NoDup (acc : list jsstring) (c : FigmaClient.FigmaNode) :
  NoDup acc -> NoDup (Converter.addPlaceholders acc c).
Proof.
  intros H. unfold Converter.addPlaceholders.
  destruct (FigmaClient.textContent c) as [t|]; [|exact H].
  destruct (_ && _); [|exact H].
  destruct (matchPlaceholders t) as [ms|]; [|exact H].
  revert acc H. induction ms as [|m ms IH]; intros acc H; simpl; [exact H|].
  apply IH, set_add_NoDup, H.
Qed.

(** The template inputs are distinct names. *)
Lemma extractPropsFromNode_distinct (node : FigmaClient.FigmaNode) :
  NoDup (Converter.extractPropsFromNode node).
Proof.
  unfold Converter.extractPropsFromNode.
  destruct (FigmaClient.children node) as [cs|]; [|constructor].
  assert (H : NoDup (@nil jsstring)) by constructor.
  revert H. generalize (@nil jsstring).
  induction cs as [|c cs IH]; intros acc H; simpl; [exact H|].
  apply IH, addPlaceholders_NoDup, H.
Qed.


(** Every extracted name is declared by each renderer, in the syntax
    of its dialect. *)
Lemma react_declares (name_ : jsstring) (node : FigmaClient.FigmaNode)
  (props : list jsstring) (p : jsstring) :
  In p props ->
  includes (Converter.generateReactComponent name_ node props)
    (p ++ str "?: string | number;") = true.
Proof.
  intros H. unfold Converter.generateReactComponent.
  do 8 apply includes_app_r. apply includes_app_l.
  apply includes_join.
  apply (in_map (fun q => q ++ str "?: string | number;") _ _ H).
Qed.

Lemma vue_declares (name_ : jsstring) (node : FigmaClient.FigmaNode)
  (props : list jsstring) (p : jsstring) :
  In p props ->
  includes (Converter.generateVueComponent name_ node props)
    (p ++ str ": String,") = true.
Proof.
  intros H. unfold Converter.generateVueComponent.
  destruct props as [|q props]; [destruct H|].
  cbv beta iota zeta.
  do 27 apply includes_app_r. apply includes_app_l.
  do 4 apply includes_app_r. apply includes_app_l.
  apply includes_join.
  apply (in_map (fun q => q ++ str ": String,") _ _ H).
Qed.

Lemma svelte_declares (name_ : jsstring) (node : FigmaClient.FigmaNode)
  (props : list jsstring) (p : jsstring) :
  In p props ->
  includes (Converter.generateSvelteComponent name_ node props)
    (str "export let " ++ p ++ str ";") = true.
Proof.
  intros H. unfold Converter.generateSvelteComponent.
  cbv beta iota zeta.
  do 3 apply includes_app_r. apply includes_app_l.
  apply includes_join.
  apply (in_map (fun q => str "export let " ++ q ++ str ";") _ _ H).
Qed.

End TemplateInputs.




(** *** Manifest Builder *)

Section Lines.

Lemma splitAt_line (s rest cur : jsstring) :
  noNewline s = true ->
  splitAt 10 (s ++ nl ++ rest) cur = (cur ++ s) :: splitAt 10 rest [].
Proof.
  revert cur. induction s as [|c s IH]; intros cur H; simpl.
  - now rewrite app_nil_r.
  - simpl in H. apply andb_true_iff in H. destruct H as [Hc Hs].
    apply negb_true_iff in Hc. rewrite Hc, (IH _ Hs), <- app_assoc.
    reflexivity.
Qed.

Lemma lines_line (s rest : jsstring) :
  noNewline s = true -> lines (s ++ nl ++ rest) = s :: lines rest.
Proof. intros H. unfold lines. now rewrite splitAt_line. Qed.

(** Reading back a block of lines, each closed by a line feed. *)
Lemma lines_join_closed (ls : list jsstring) :
  forallb noNewline ls = true -> ls <> [] ->
  lines (join nl ls ++ nl) = ls ++ [[]].
Proof.
  induction ls as [|x ls IH]; intros H Hne; [congruence|].
  simpl in H. apply andb_true_iff in H. destruct H as [Hx Hls].
  destruct ls as [|y ls].
  - simpl join. rewrite <- (app_nil_r nl) at 1.
    now rewrite lines_line.
  - change (join nl (x :: y :: ls)) with (x ++ nl ++ join nl (y :: ls)).
    rewrite <- !app_assoc. rewrite lines_line by exact Hx.
    rewrite IH by (auto; discriminate). reflexivity.
Qed.

Lemma noNewline_app (s t : jsstring) :
  noNewline (s ++ t) = noNewline s && noNewline t.
Proof. apply forallb_app. Qed.

Lemma class_noNewline (isC : N -> bool) (s : jsstring) :
  isC 10%N = false -> forallb isC s = true -> noNewline s = true.
Proof.
  intros H10 H. unfold noNewline. rewrite forallb_forall in *.
  intros c Hc. apply negb_true_iff. destruct (N.eqb_spec c 10); [|reflexivity].
  subst c. rewrite (H _ Hc) in H10. discriminate.
Qed.

End Lines.

Section Manifest.
Context {cc : CaseConversion}.

Lemma exportLine_noNewline (n : FigmaClient.FigmaNode) :
  noNewline (Converter.exportLine n) = true.
Proof.
  unfold Converter.exportLine. rewrite !noNewline_app.
  rewrite (@class_noNewline isAlnum (Converter.toPascalCase (FigmaClient.name n)))
    by (reflexivity || apply toPascalCase_alnum).
  rewrite (@class_noNewline isSlugChar
             (Converter.sanitizeFileName (FigmaClient.name n)))
    by (reflexivity || apply sanitizeFileName_slug).
  reflexivity.
Qed.

Lemma exportLines_noNewline (ns : list FigmaClient.FigmaNode) :
  forallb noNewline (map Converter.exportLine ns) = true.
Proof.
  induction ns as [|n ns IH]; [reflexivity|].
  cbn [map forallb]. now rewrite exportLine_noNewline, IH.
Qed.

Lemma generateIndexFile_header (ns : list FigmaClient.FigmaNode)
  (fw : Converter.Framework) :
  Converter.generateIndexFile ns fw
  = Spec.indexHeader fw ++ nl
    ++ join nl (map Converter.exportLine (filter Converter.isValidNode ns))
    ++ nl.
Proof.
  unfold Converter.generateIndexFile.
  destruct fw; simpl Spec.indexHeader; simpl Converter.frameworkName;
    rewrite <- ?app_assoc; reflexivity.
Qed.

End Manifest.

(** C5 (as amended): the index file is the header comment followed by
    exactly one re-export line per valid node (visible not false, name
    not empty), in encounter order, each referencing [./{fileSlug}].
    Nothing is collapsed: two nodes with the same file slug give two
    lines. *)
Theorem C5_index_one_line_per_valid_node :
  forall (cc : CaseConversion) (ns : list FigmaClient.FigmaNode)
         (fw : Converter.Framework),
    lines (Converter.generateIndexFile ns fw)
    = Spec.indexHeader fw
      :: match filter Converter.isValidNode ns with
         | [] => [[]]
         | valid =>
             map (fun n =>
                    str "export { default as "
                    ++ Converter.toPascalCase (FigmaClient.name n)
                    ++ str " } from './"
                    ++ Converter.sanitizeFileName (FigmaClient.name n)
                    ++ str "';") valid
         end ++ [[]].
Proof.
  intros cc ns fw. rewrite generateIndexFile_header.
  rewrite lines_line by (destruct fw; reflexivity).
  f_equal.
  destruct (filter Converter.isValidNode ns) as [|n valid] eqn:E.
  - reflexivity.
  - apply lines_join_closed; [apply exportLines_noNewline|discriminate].
Qed.

(** C5 fails as stated: [Button] and [Button!!] share the file slug
    [button]; the index carries a re-export line for each of them, the
    second is not collapsed into the first.  (In the component mapping
    the two share the key [button.tsx], which ends up with the text of
    the second.) *)
Lemma C5_duplicate_slug_exported_twice :
  lines (Converter.generateIndexFile (cc := asciiCase)
           [Samples.button; Samples.buttonBang] Converter.react)
  = [str "// react Components";
     str "export { default as Button } from './button';";
     str "export { default as Button } from './button';";
     []]
  /\ map (fun kv => (fst kv, includes (snd kv) (str "Button!! Component")))
       (Converter.components
          (Converter.conversionOf (cc := asciiCase)
             (Samples.fileOf [Samples.button; Samples.buttonBang])
             Converter.react))
     = [(str "button.tsx", true)].
Proof. split; vm_compute; reflexivity. Qed.

(** *** Background colour *)

Section Background.
Context {cc : CaseConversion}.

Lemma bytes_checked : forallb Spec.byteChecked (seq 0 256) = true.
Proof. vm_compute. reflexivity. Qed.

Lemma byte_facts (z : Z) :
  (0 <= z <= 255)%Z ->
  map upperUnit (Spec.paddedHex z) = Spec.hexByte z
  /\ forallb isAscii (Spec.paddedHex z) = true
  /\ forallb Spec.isUpperHexDigit (Spec.hexByte z) = true.
Proof.
  intros Hz. pose proof bytes_checked as H.
  rewrite forallb_forall in H. specialize (H (Z.to_nat z)).
  unfold Spec.byteChecked in H. rewrite Z2Nat.id in H by lia.
  assert (Hin : In (Z.to_nat z) (seq 0 256)) by (apply in_seq; lia).
  apply H in Hin. apply andb_true_iff in Hin. destruct Hin as [Hin H3].
  apply andb_true_iff in Hin. destruct Hin as [H1 H2].
  apply jsstring_eqb_eq in H1. auto.
Qed.

Lemma pow2_pos (e : Z) : (0 < pow2 e)%Z.
Proof. unfold pow2. apply Z.pow_pos_nonneg; lia. Qed.

Lemma pow2_nonpos (e : Z) : (e <= 0)%Z -> pow2 e = 1%Z.
Proof. intros H. unfold pow2. now replace (Z.max 0 e) with 0%Z by lia. Qed.

(** Rounding to the nearest integer stays below an integer bound. *)
Lemma roundHalfEven_bounds (n d u : Z) :
  (0 <= n)%Z -> (0 < d)%Z -> (n <= u * d)%Z ->
  (0 <= roundHalfEven n d <= u)%Z.
Proof.
  intros Hn Hd Hu. unfold roundHalfEven.
  pose proof (Z.div_mod n d ltac:(lia)) as E.
  pose proof (Z.mod_pos_bound n d Hd) as Hr.
  assert (H0 : (0 <= n / d)%Z) by (apply Z.div_pos; lia).
  assert (Hle : (n / d <= u)%Z) by (apply Z.div_le_upper_bound; lia).
  destruct (Z.eq_dec (n / d) u) as [Eu|Nu].
  - assert (Hz : (n mod d = 0)%Z) by nia.
    rewrite Hz.
    assert (C : (2 * 0 ?= d)%Z = Lt) by (apply Z.compare_lt_iff; lia).
    rewrite C. lia.
  - destruct (2 * (n mod d) ?= d)%Z; [destruct (Z.even (n / d))| |]; lia.
Qed.

Lemma floorLog2_le (n d : Z) : (floorLog2 n d <= Z.log2 n - Z.log2 d)%Z.
Proof. unfold floorLog2. destruct (_ <=? _)%Z; lia. Qed.

(** Zero and the small integers are binary64 values and rounding is
    monotone: what lies between zero and such an integer is rounded to
    a value between them. *)
Lemma toBinary64_between (q : Q) (h : Z) :
  (0 < h <= 2 ^ 50)%Z -> 0 <= q -> q <= inject_Z h ->
  exists p, toBinary64 q = Finite p /\ 0 <= p /\ p <= inject_Z h.
Proof.
  intros Hh Hlo Hhi. unfold toBinary64.
  destruct q as [n d]. unfold Qle in Hlo, Hhi. cbn [Qnum Qden inject_Z] in *.
  destruct (Z.eqb_spec (Z.abs n) 0) as [E|E].
  - exists 0. split; [reflexivity|]. split; [apply Qle_refl|].
    unfold Qle. cbn. lia.
  - assert (Hn : (0 < n)%Z) by lia.
    rewrite Z.abs_eq by lia.
    set (k := Z.max (floorLog2 n (Z.pos d) - 52) (-1074)).
    assert (Hk : (k <= 0)%Z).
    { pose proof (floorLog2_le n (Z.pos d)) as F.
      assert (L : (Z.log2 n <= Z.log2 (h * Z.pos d))%Z)
        by (apply Z.log2_le_mono; lia).
      pose proof (Z.log2_mul_above h (Z.pos d) ltac:(lia) ltac:(lia)) as M.
      assert (Lh : (Z.log2 h <= 50)%Z).
      { change 50%Z with (Z.log2 (2 ^ 50)). apply Z.log2_le_mono. lia. }
      unfold k. lia. }
    rewrite (@pow2_nonpos k Hk), !Z.mul_1_r.
    pose proof (pow2_pos (- k)) as Pp.
    assert (B : (0 <= roundHalfEven (n * pow2 (- k)) (Z.pos d)
                 <= h * pow2 (- k))%Z)
      by (apply roundHalfEven_bounds; nia).
    set (m := roundHalfEven (n * pow2 (- k)) (Z.pos d)) in *.
    assert (Hov : (2 ^ 1024 * pow2 (- k) <=? m)%Z = false).
    { apply Z.leb_gt.
      assert ((2 ^ 50 < 2 ^ 1024)%Z) by (apply Z.pow_lt_mono_r; lia). nia. }
    rewrite Hov. eexists. split; [reflexivity|].
    unfold Qle. cbn [Qnum Qden inject_Z].
    rewrite Z2Pos.id by assumption.
    replace (Z.sgn n) with 1%Z by lia. lia.
Qed.

(** The rounding and the printing at work: one tenth, the product that
    is one half in binary64 and less when exact, the values out of
    range, the shortest digits and the exponent notation. *)
Lemma binary64_examples :
  sameValue (toBinary64 (1 # 10)) (3602879701896397 # 36028797018963968) = true
  /\ sameValue (times (196078431372549 # 100000000000000000) 255) (1 # 2) = true
  /\ toBinary64 (inject_Z (2 ^ 1024)) = PosInfinity
  /\ times (inject_Z (10 ^ 308)) 255 = PosInfinity
  /\ numberToString (1 # 3) = str "0.3333333333333333"
  /\ numberToString (inject_Z (2 ^ 60)) = str "1152921504606847000"
  /\ intToString (10 ^ 21) = str "1e+21"
  /\ numberToString (1 # 10000000) = str "1e-7".
Proof. repeat split; vm_compute; reflexivity. Qed.

(** The product of a channel of [[0, 1]] by 255 is finite and lies in
    [[0, 255]]. *)
Lemma times_channel (channel : Q) :
  Spec.inUnit channel ->
  exists p, times channel 255 = Finite p /\ 0 <= p /\ p <= 255.
Proof.
  intros [Hlo Hhi]. unfold times.
  destruct (@toBinary64_between channel 1 ltac:(lia) Hlo Hhi)
    as [a [Ea [Ha0 Ha1]]].
  destruct (@toBinary64_between 255 255 ltac:(lia) ltac:(lra) ltac:(apply Qle_refl))
    as [y [Ey [Hy0 Hy1]]].
  rewrite Ea, Ey.
  change (inject_Z 1) with 1 in Ha1. change (inject_Z 255) with 255 in Hy1.
  apply (@toBinary64_between (a * y) 255); [lia| |].
  - apply Qmult_le_0_compat; assumption.
  - change (inject_Z 255) with 255. nra.
Qed.

Lemma round_byte (p : Q) :
  0 <= p -> p <= 255 -> (0 <= Math_round p <= 255)%Z.
Proof.
  intros Hlo Hhi. unfold Math_round. split.
  - apply (Qfloor_resp_le 0). lra.
  - apply (Qfloor_resp_le _ (255 + (1 # 2))). lra.
Qed.

Lemma channelByte_byte (channel : Q) :
  (0 <= Spec.channelByte channel <= 255)%Z.
Proof.
  unfold Spec.channelByte, Spec.clampByte.
  destruct (times channel 255); lia.
Qed.

(** For a channel of [[0, 1]] the code pads the digits of the rounded
    product, which is the byte of the specification. *)
Lemma toHex_padded (channel : Q) :
  Spec.inUnit channel ->
  Index.toHex channel = Spec.paddedHex (Spec.channelByte channel).
Proof.
  intros H. destruct (times_channel H) as [p [E [H0 H1]]].
  unfold Index.toHex, Spec.channelByte, Spec.paddedHex, roundedToString16.
  rewrite E. pose proof (round_byte H0 H1) as B.
  unfold Spec.clampByte.
  now replace (Z.max 0 (Z.min 255 (Math_round p))) with (Math_round p) by lia.
Qed.

Lemma colorToHex_solid (fill : Index.Paint) (c : Index.Color) :
  Index.paint_type fill = str "SOLID" ->
  Index.paint_color fill = Some c ->
  Spec.inUnit (Index.r c) -> Spec.inUnit (Index.g c) -> Spec.inUnit (Index.b c) ->
  Index.colorToHex fill = Spec.hexTriplet c.
Proof.
  intros Hty Hc Hr Hg Hb. unfold Index.colorToHex, Spec.hexTriplet.
  rewrite Hc, Hty, jsstring_eqb_refl, !toHex_padded by assumption.
  destruct (byte_facts (channelByte_byte (Index.r c))) as [Er [Ar _]].
  destruct (byte_facts (channelByte_byte (Index.g c))) as [Eg [Ag _]].
  destruct (byte_facts (channelByte_byte (Index.b c))) as [Eb [Ab _]].
  rewrite toUpperCase_ascii.
  - rewrite !map_app, Er, Eg, Eb. reflexivity.
  - rewrite !forallb_app, Ar, Ag, Ab. reflexivity.
Qed.

Lemma hexTriplet_shape (c : Index.Color) :
  Spec.isHexTriplet (Spec.hexTriplet c) = true.
Proof.
  pose proof channelByte_byte as Hb.
  destruct (byte_facts (Hb (Index.r c))) as [_ [_ Hr]].
  destruct (byte_facts (Hb (Index.g c))) as [_ [_ Hg]].
  destruct (byte_facts (Hb (Index.b c))) as [_ [_ Hbb]].
  unfold Spec.hexTriplet, Spec.hexByte in *.
  cbn [forallb] in Hr, Hg, Hbb.
  rewrite andb_true_r in Hr, Hg, Hbb.
  apply andb_true_iff in Hr, Hg, Hbb.
  destruct Hr as [Hr1 Hr2], Hg as [Hg1 Hg2], Hbb as [Hb1 Hb2].
  cbn [str list_ascii_of_string map app Spec.isHexTriplet length forallb
       Nat.eqb N_of_ascii N_of_digits].
  cbn. now rewrite Hr1, Hr2, Hg1, Hg2, Hb1, Hb2.
Qed.

Lemma colorToHex_default (fill : Index.Paint) :
  Index.paint_type fill <> str "SOLID" \/ Index.paint_color fill = None ->
  Index.colorToHex fill = str "#000000".
Proof.
  intros [H|H]; unfold Index.colorToHex.
  - rewrite (jsstring_eqb_neq H). now destruct (Index.paint_color fill).
  - now rewrite H.
Qed.

End Background.

(** C3 (as amended): when [fills] is non-empty, its first entry is SOLID
    and carries a colour whose channels lie in [[0, 1]], the background
    is [#] followed by six uppercase hexadecimal digits, two per channel,
    of [round(channel * 255)], the product being the binary64 one (within
    [[0, 255]] for such channels, the code does not clamp).  When the
    first entry is not SOLID or carries no colour the background is the
    default [#000000].  The background is absent exactly when [fills] is
    absent or empty. *)
Theorem C3_background_of_first_fill :
  forall (cc : CaseConversion) (node : Index.FigmaNode),
    (forall fill rest c,
        Index.fills node = Some (fill :: rest) ->
        Index.paint_type fill = str "SOLID" ->
        Index.paint_color fill = Some c ->
        Spec.inUnit (Index.r c) -> Spec.inUnit (Index.g c) ->
        Spec.inUnit (Index.b c) ->
        Index.backgroundColor (Index.extractProps node) = Some (Spec.hexTriplet c)
        /\ Spec.isHexTriplet (Spec.hexTriplet c) = true)
    /\ (forall fill rest,
          Index.fills node = Some (fill :: rest) ->
          Index.paint_type fill <> str "SOLID" \/ Index.paint_color fill = None ->
          Index.backgroundColor (Index.extractProps node) = Some (str "#000000"))
    /\ (Index.backgroundColor (Index.extractProps node) = None
        <-> Index.fills node = None \/ Index.fills node = Some []).
Proof.
  intros cc node. split; [|split].
  - intros fill rest c Hf Hty Hc Hr Hg Hb. split.
    + unfold Index.extractProps. simpl. rewrite Hf.
      now rewrite (colorToHex_solid fill Hty Hc Hr Hg Hb).
    + apply hexTriplet_shape.
  - intros fill rest Hf H. unfold Index.extractProps. simpl. rewrite Hf.
    now rewrite (colorToHex_default fill H).
  - unfold Index.extractProps. simpl. split.
    + destruct (Index.fills node) as [[|fill rest]|]; auto. discriminate.
    + intros [H|H]; now rewrite H.
Qed.

Lemma C3_background_of_first_fill_witness :
  Spec.inUnit (4 # 10) /\ Spec.inUnit (94 # 100)
  /\ Index.backgroundColor
       (Index.extractProps (cc := asciiCase) (Samples.withFill Samples.solidFill))
     = Some (str "#6666F0")
  /\ Spec.inUnit (196078431372549 # 100000000000000000)
  /\ Index.backgroundColor
       (Index.extractProps (cc := asciiCase) (Samples.withFill Samples.faintFill))
     = Some (str "#0100FF")
  /\ Index.backgroundColor
       (Index.extractProps (cc := asciiCase) (Samples.withFill Samples.gradientFill))
     = Some (str "#000000")
  /\ Index.backgroundColor
       (Index.extractProps (cc := asciiCase)
          (Samples.bareIndex (str "Card") (str "FRAME"))) = None.
Proof.
  assert (H4 : Spec.inUnit (4 # 10)) by (split; discriminate).
  assert (H94 : Spec.inUnit (94 # 100)) by (split; discriminate).
  assert (Hf : Spec.inUnit (196078431372549 # 100000000000000000))
    by (split; discriminate).
  assert (H0 : Spec.inUnit 0) by (split; discriminate).
  assert (H1 : Spec.inUnit 1) by (split; discriminate).
  split; [exact H4|]. split; [exact H94|].
  split; [|split; [exact Hf|split; [|split]]].
  - destruct (@C3_background_of_first_fill asciiCase
                (Samples.withFill Samples.solidFill)) as [Hsolid _].
    destruct (Hsolid Samples.solidFill [] Samples.indigo
                eq_refl eq_refl eq_refl H4 H4 H94) as [Hbg _].
    exact Hbg.
  - destruct (@C3_background_of_first_fill asciiCase
                (Samples.withFill Samples.faintFill)) as [Hsolid _].
    destruct (Hsolid Samples.faintFill [] Samples.faint
                eq_refl eq_refl eq_refl Hf H0 H1) as [Hbg _].
    exact Hbg.
  - destruct (@C3_background_of_first_fill asciiCase
                (Samples.withFill Samples.gradientFill)) as [_ [Hdefault _]].
    apply (Hdefault Samples.gradientFill []); [reflexivity|].
    right. reflexivity.
  - destruct (@C3_background_of_first_fill asciiCase
                (Samples.bareIndex (str "Card") (str "FRAME"))) as [_ [_ Habsent]].
    apply Habsent. left. reflexivity.
Defined.

(** C3 fails as stated: the first fill is a gradient without colour,
    and the extracted record has the background [#000000] where the
    specification expects none. *)
Lemma C3_gradient_gets_default_colour :
  Index.backgroundColor
    (Index.extractProps (cc := asciiCase) (Samples.withFill Samples.gradientFill))
  = Some (str "#000000")
  /\ Index.backgroundColor
       (Index.extractProps (cc := asciiCase) (Samples.withFill Samples.gradientFill))
     <> None.
Proof. split; [reflexivity|discriminate]. Qed.

(** *** Font-size utility *)

Section FontSize.
Context {cc : CaseConversion}.

Lemma orDefault_truthy (n : option Q) (d : Q) :
  truthyQ d = true -> truthyQ (Index.orDefault n d) = true.
Proof.
  intros Hd. unfold Index.orDefault. destruct n as [v|]; [|exact Hd].
  destruct (truthyQ v) eqn:E; assumption.
Qed.

Lemma extracted_fontSize_truthy (node : Index.FigmaNode) (fs : Q) :
  Index.props_fontSize (Index.extractProps node) = Some fs ->
  truthyQ fs = true.
Proof.
  unfold Index.extractProps. simpl.
  destruct (Index.truthyStr (Index.characters node)); [|discriminate].
  intros H. injection H as <-. now apply orDefault_truthy.
Qed.

(** [round(fontSize / 4)] exceeds 16 from the font size 66 on. *)
Lemma round_quarter_threshold (fs : Q) :
  (Math_round (fs / 4) >? 16)%Z = Qle_bool 66 fs.
Proof.
  unfold Math_round, Qdiv. change (/ 4) with (1 # 4).
  destruct (Qle_bool 66 fs) eqn:E.
  - apply Qle_bool_iff in E. apply Z.gtb_lt.
    assert (H : (17 <= Qfloor (fs * (1 # 4) + (1 # 2)))%Z)
      by (apply (Qfloor_resp_le 17); lra).
    lia.
  - rewrite Z.gtb_ltb. apply Z.ltb_ge.
    destruct (Z_lt_le_dec 16 (Qfloor (fs * (1 # 4) + (1 # 2)))) as [Hlt|Hle];
      [|exact Hle].
    exfalso.
    assert (H17 : (17 <= Qfloor (fs * (1 # 4) + (1 # 2)))%Z) by lia.
    pose proof (Qfloor_le (fs * (1 # 4) + (1 # 2))) as Hfl.
    rewrite Zle_Qle in H17. change (inject_Z 17) with 17 in H17.
    assert (H66 : 66 <= fs) by lra.
    apply Qle_bool_iff in H66. congruence.
Qed.

Lemma fontSizeClasses_utility (props : Index.Props) (fs : Q) :
  Index.props_fontSize props = Some fs -> truthyQ fs = true ->
  Index.fontSizeClasses props = [Spec.fontUtility fs].
Proof.
  intros H Ht. unfold Index.fontSizeClasses, Index.truthyNum, Spec.fontUtility.
  rewrite H, Ht, round_quarter_threshold.
  destruct (Qle_bool 66 fs); now rewrite ?app_assoc.
Qed.

End FontSize.

(** C6 (as amended): in utility-class mode, for every property record
    the extractor yields with a font size, the class string ends with
    one font-size utility: [text-[{fontSize}px]] exactly when
    [round(fontSize / 4) > 16], that is from the font size 66 on, and the
    numeric-scale utility [text-{round(fontSize / 4)}] below. *)
Theorem C6_font_size_utility :
  forall (cc : CaseConversion) (this : Index.DesignToCode)
         (node : Index.FigmaNode) (fs : Q),
    Index.tailwind (Index.config this) = true ->
    Index.props_fontSize (Index.extractProps node) = Some fs ->
    Index.stylesOf this (Index.extractProps node)
    = join (str " ")
        (Index.dimensionClasses (Index.extractProps node)
         ++ Index.backgroundClasses (Index.extractProps node)
         ++ [Spec.fontUtility fs])
    /\ ((16 < Math_round (fs / 4))%Z <-> 66 <= fs).
Proof.
  intros cc this node fs Htw H. split.
  - unfold Index.stylesOf. rewrite Htw.
    unfold Index.generateTailwindClasses, Index.tailwindClasses.
    rewrite (fontSizeClasses_utility _ H (extracted_fontSize_truthy node H)).
    reflexivity.
  - rewrite <- Qle_bool_iff, <- round_quarter_threshold.
    symmetry. apply Z.gtb_lt.
Qed.

Lemma C6_font_size_utility_witness :
  Index.tailwind (Index.config (Samples.converterOf Index.react true true)) = true
  /\ Index.props_fontSize (Index.extractProps (cc := asciiCase) Samples.label20)
     = Some 20
  /\ Index.stylesOf (Samples.converterOf Index.react true true)
       (Index.extractProps (cc := asciiCase) Samples.label20)
     = str "text-5".
Proof.
  split; [reflexivity|]. split; [reflexivity|].
  exact (proj1 (@C6_font_size_utility asciiCase
                  (Samples.converterOf Index.react true true)
                  Samples.label20 20 eq_refl eq_refl)).
Defined.

(** C6 fails as stated: the font size 20 is above 16, and the class
    string is [text-5] without the utility [text-[20px]]. *)
Lemma C6_size_20_gets_numeric_scale :
  Index.props_fontSize (Index.extractProps (cc := asciiCase) Samples.label20)
  = Some 20
  /\ Index.generateTailwindClasses
       (Index.extractProps (cc := asciiCase) Samples.label20)
     = str "text-5"
  /\ includes
       (Index.generateTailwindClasses
          (Index.extractProps (cc := asciiCase) Samples.label20))
       (str "text-[20px]") = false.
Proof. repeat split; reflexivity. Qed.

(** *** File names *)

Section FileNames.
Context {cc : CaseConversion}.

Lemma record_set_keys (k v k' : jsstring) (rec : record) :
  In k' (map fst (record_set k v rec)) <-> k' = k \/ In k' (map fst rec).
Proof.
  induction rec as [|[k0 v0] rec IH]; simpl.
  - intuition.
  - destruct (jsstring_eqb k k0) eqn:E; simpl.
    + apply jsstring_eqb_eq in E. subst k0. intuition.
    + rewrite IH. intuition.
Qed.

Lemma stored_keys (fw : Converter.Framework) (ns : list FigmaClient.FigmaNode)
  (rec : record) (key : jsstring) :
  In key (map fst (fold_left (Converter.storeComponent fw) ns rec))
  <-> In key (map fst rec)
      \/ exists n, In n ns
           /\ key = Converter.sanitizeFileName (FigmaClient.name n) ++ str ".tsx".
Proof.
  revert rec. induction ns as [|n ns IH]; intros rec; simpl.
  - split; [auto|]. intros [H|[n [[] _]]]. exact H.
  - rewrite IH. unfold Converter.storeComponent.
    rewrite record_set_keys. split.
    + intros [[->|H]|[m [Hm ->]]]; eauto 6.
    + intros [H|[m [[<-|Hm] ->]]]; eauto 6.
Qed.

Lemma generateComponent_filename (this : Index.DesignToCode)
  (node : Index.FigmaNode) :
  Index.filename (Index.generateComponent this node)
  = Index.toPascalCase (Index.sanitizeName (Index.name node))
    ++ str "." ++ Spec.extensionOf (Index.config this).
Proof.
  unfold Index.generateComponent, Spec.extensionOf.
  destruct (Index.framework (Index.config this)); reflexivity.
Qed.

(** The keys of the component mapping are the file slugs of the valid
    nodes with the extension of the entry point. *)
Lemma converter_keys (f : FigmaClient.FigmaFile) (fw : Converter.Framework)
  (key : jsstring) :
  In key (map fst (Converter.components (Converter.conversionOf f fw)))
  <-> exists n,
        In n (FigmaClient.nodes f)
        /\ Converter.isValidNode n = true
        /\ key = Converter.sanitizeFileName (FigmaClient.name n) ++ str ".tsx".
Proof.
  unfold Converter.conversionOf. simpl. rewrite stored_keys. split.
  - intros [[]|[n [Hn ->]]]. apply filter_In in Hn. destruct Hn. eauto.
  - intros [n [Hn [Hv ->]]]. right. exists n. split; [|reflexivity].
    apply filter_In. auto.
Qed.

End FileNames.

(* ================================================================== *)
(** ** Further properties of the code *)
(* ================================================================== *)

(** *** The walk over the document tree *)

Section TreeWalk.

(** Induction over a document tree: a property holds of every node when
    it passes from the children to their parent. *)
Lemma FigmaNode_tree_ind (P : FigmaClient.FigmaNode -> Prop) :
  (forall n, Forall P (Vocabulary.childrenOf n) -> P n) ->
  forall n, P n.
Proof.
  intros H. fix IH 1. intros n. apply H.
  destruct n as [i nm ty vis box fl st sw cr fs ff fw tc ch].
  unfold Vocabulary.childrenOf. simpl.
  destruct ch as [cs|]; [|constructor].
  induction cs as [|c cs IHcs]; constructor; [apply IH|exact IHcs].
Qed.

Lemma walk_fold_app (cs : list FigmaClient.FigmaNode)
  (result : list FigmaClient.FigmaNode) :
  Forall (fun c => forall r, FigmaClient.walkFigmaTree c r
                             = r ++ FigmaClient.walkFigmaTree c []) cs ->
  fold_left (fun acc child => FigmaClient.walkFigmaTree child acc) cs result
  = result ++ flat_map (fun c => FigmaClient.walkFigmaTree c []) cs.
Proof.
  intros H. revert result. induction H as [|c cs Hc _ IH]; intros result; simpl.
  - now rewrite app_nil_r.
  - rewrite IH, Hc, <- app_assoc. reflexivity.
Qed.

Lemma walk_unfold_children (n : FigmaClient.FigmaNode)
  (result : list FigmaClient.FigmaNode) :
  FigmaClient.walkFigmaTree n result
  = if FigmaClient.visibleNotFalse n
    then fold_left (fun acc child => FigmaClient.walkFigmaTree child acc)
           (Vocabulary.childrenOf n)
           (if FigmaClient.isComponentOrFrame n then result ++ [n] else result)
    else result.
Proof.
  destruct n as [i nm ty vis box fl st sw cr fs ff fw tc ch].
  unfold Vocabulary.childrenOf. simpl.
  destruct (FigmaClient.visibleNotFalse _); [|reflexivity].
  destruct ch; reflexivity.
Qed.

(** The accumulator is only appended to. *)
Lemma walk_app (n : FigmaClient.FigmaNode) :
  forall result,
    FigmaClient.walkFigmaTree n result
    = result ++ FigmaClient.walkFigmaTree n [].
Proof.
  induction n as [n IH] using FigmaNode_tree_ind. intros result.
  rewrite (walk_unfold_children n result), (walk_unfold_children n []).
  destruct (FigmaClient.visibleNotFalse n); [|now rewrite app_nil_r].
  rewrite !(walk_fold_app _ IH).
  destruct (FigmaClient.isComponentOrFrame n); simpl;
    rewrite <- ?app_assoc; reflexivity.
Qed.

(** The walk in closed form: the node itself when it is a component or
    a frame, then the walks of its children in order; nothing at all
    below a hidden node. *)
Lemma walk_preorder (n : FigmaClient.FigmaNode) :
  FigmaClient.walkFigmaTree n []
  = if FigmaClient.visibleNotFalse n
    then (if FigmaClient.isComponentOrFrame n then [n] else [])
         ++ flat_map (fun c => FigmaClient.walkFigmaTree c [])
              (Vocabulary.childrenOf n)
    else [].
Proof.
  rewrite walk_unfold_children.
  destruct (FigmaClient.visibleNotFalse n); [|reflexivity].
  rewrite walk_fold_app.
  - destruct (FigmaClient.isComponentOrFrame n); reflexivity.
  - apply Forall_forall. intros c _. apply walk_app.
Qed.

Lemma fold_count (f : FigmaClient.FigmaNode -> Z)
  (cs : list FigmaClient.FigmaNode) (count : Z) :
  fold_left (fun acc child => (acc + f child)%Z) cs count
  = (count + Vocabulary.sumOver f cs)%Z.
Proof.
  revert count. induction cs as [|c cs IH]; intros count; simpl; [lia|].
  rewrite IH. lia.
Qed.

Lemma countComponents_unfold (n : FigmaClient.FigmaNode) :
  FigmaClient.countComponentsInNode n
  = ((if jsstring_eqb (FigmaClient.type n) (str "COMPONENT") then 1 else 0)
     + Vocabulary.sumOver FigmaClient.countComponentsInNode
         (Vocabulary.childrenOf n))%Z.
Proof.
  destruct n as [i nm ty vis box fl st sw cr fs ff fw tc ch].
  unfold Vocabulary.childrenOf. simpl.
  destruct ch as [cs|]; [apply fold_count|simpl; lia].
Qed.

Lemma countFrames_unfold (n : FigmaClient.FigmaNode) :
  FigmaClient.countFramesInNode n
  = ((if jsstring_eqb (FigmaClient.type n) (str "FRAME") then 1 else 0)
     + Vocabulary.sumOver FigmaClient.countFramesInNode
         (Vocabulary.childrenOf n))%Z.
Proof.
  destruct n as [i nm ty vis box fl st sw cr fs ff fw tc ch].
  unfold Vocabulary.childrenOf. simpl.
  destruct ch as [cs|]; [apply fold_count|simpl; lia].
Qed.

(** A node counts once, as a component or as a frame, exactly when the
    walk would push it. *)
Lemma own_count (n : FigmaClient.FigmaNode) :
  ((if jsstring_eqb (FigmaClient.type n) (str "COMPONENT") then 1 else 0)
   + (if jsstring_eqb (FigmaClient.type n) (str "FRAME") then 1 else 0))%Z
  = if FigmaClient.isComponentOrFrame n then 1%Z else 0%Z.
Proof.
  unfold FigmaClient.isComponentOrFrame.
  destruct (jsstring_eqb (FigmaClient.type n) (str "COMPONENT")) eqn:Ec.
  - apply jsstring_eqb_eq in Ec. rewrite Ec. reflexivity.
  - destruct (jsstring_eqb (FigmaClient.type n) (str "FRAME")); reflexivity.
Qed.

Lemma counts_nonneg (n : FigmaClient.FigmaNode) :
  (0 <= FigmaClient.countComponentsInNode n
   /\ 0 <= FigmaClient.countFramesInNode n)%Z.
Proof.
  induction n as [n IH] using FigmaNode_tree_ind.
  rewrite countComponents_unfold, countFrames_unfold.
  assert (Hs : (0 <= Vocabulary.sumOver FigmaClient.countComponentsInNode
                       (Vocabulary.childrenOf n)
                /\ 0 <= Vocabulary.sumOver FigmaClient.countFramesInNode
                          (Vocabulary.childrenOf n))%Z).
  { induction IH as [|c cs [Hc Hf] _ [IHc IHf]]; simpl; lia. }
  destruct (jsstring_eqb (FigmaClient.type n) (str "COMPONENT")),
    (jsstring_eqb (FigmaClient.type n) (str "FRAME")); lia.
Qed.

Lemma length_flat_map_walk (cs : list FigmaClient.FigmaNode) :
  Z.of_nat (length (flat_map (fun c => FigmaClient.walkFigmaTree c []) cs))
  = Vocabulary.sumOver
      (fun c => Z.of_nat (length (FigmaClient.walkFigmaTree c []))) cs.
Proof.
  induction cs as [|c cs IH]; simpl; [reflexivity|].
  rewrite length_app. lia.
Qed.

Lemma walk_length_le (n : FigmaClient.FigmaNode) :
  (Z.of_nat (length (FigmaClient.walkFigmaTree n []))
   <= FigmaClient.countComponentsInNode n + FigmaClient.countFramesInNode n)%Z.
Proof.
  induction n as [n IH] using FigmaNode_tree_ind.
  pose proof (counts_nonneg n) as [Hc Hf].
  rewrite walk_preorder.
  destruct (FigmaClient.visibleNotFalse n); [|simpl; lia].
  rewrite length_app, Nat2Z.inj_add, length_flat_map_walk.
  rewrite countComponents_unfold, countFrames_unfold.
  pose proof (own_count n) as Hown.
  assert (Hs : (Vocabulary.sumOver
                  (fun c => Z.of_nat (length (FigmaClient.walkFigmaTree c [])))
                  (Vocabulary.childrenOf n)
                <= Vocabulary.sumOver FigmaClient.countComponentsInNode
                     (Vocabulary.childrenOf n)
                   + Vocabulary.sumOver FigmaClient.countFramesInNode
                       (Vocabulary.childrenOf n))%Z).
  { induction IH as [|c cs Hc' _ IHs]; simpl; lia. }
  destruct (FigmaClient.isComponentOrFrame n); simpl length; lia.
Qed.

Lemma walk_length_eq (n : FigmaClient.FigmaNode) :
  (forall m, Vocabulary.inTree m n -> FigmaClient.visibleNotFalse m = true) ->
  (Z.of_nat (length (FigmaClient.walkFigmaTree n []))
   = FigmaClient.countComponentsInNode n + FigmaClient.countFramesInNode n)%Z.
Proof.
  induction n as [n IH] using FigmaNode_tree_ind. intros Hvis.
  rewrite walk_preorder, (Hvis n (Vocabulary.inTree_here n)).
  rewrite length_app, Nat2Z.inj_add, length_flat_map_walk.
  rewrite countComponents_unfold, countFrames_unfold.
  pose proof (own_count n) as Hown.
  assert (Hs : (Vocabulary.sumOver
                  (fun c => Z.of_nat (length (FigmaClient.walkFigmaTree c [])))
                  (Vocabulary.childrenOf n)
                = Vocabulary.sumOver FigmaClient.countComponentsInNode
                    (Vocabulary.childrenOf n)
                  + Vocabulary.sumOver FigmaClient.countFramesInNode
                      (Vocabulary.childrenOf n))%Z).
  { assert (Hsub : forall c, In c (Vocabulary.childrenOf n) ->
                     forall m, Vocabulary.inTree m c ->
                       FigmaClient.visibleNotFalse m = true)
      by (intros c Hc m Hm; apply Hvis; eapply Vocabulary.inTree_below; eauto).
    induction IH as [|c cs Hc' _ IHs]; simpl; [reflexivity|].
    rewrite Hc' by (apply Hsub; now left).
    rewrite IHs by (intros c' Hc'' m Hm; eapply Hsub; [right|]; eauto).
    lia. }
  destruct (FigmaClient.isComponentOrFrame n); simpl length; lia.
Qed.

Lemma walk_sound (n : FigmaClient.FigmaNode) :
  Forall (fun m => Vocabulary.inTree m n
                   /\ FigmaClient.visibleNotFalse m = true
                   /\ FigmaClient.isComponentOrFrame m = true)
    (FigmaClient.walkFigmaTree n []).
Proof.
  induction n as [n IH] using FigmaNode_tree_ind.
  rewrite walk_preorder.
  destruct (FigmaClient.visibleNotFalse n) eqn:Ev; [|constructor].
  apply Forall_app. split.
  - destruct (FigmaClient.isComponentOrFrame n) eqn:Ecf; constructor;
      [|constructor]. repeat split; auto. constructor.
  - apply Forall_forall. intros m Hm. apply in_flat_map in Hm.
    destruct Hm as [c [Hc Hm]].
    rewrite Forall_forall in IH. specialize (IH c Hc).
    rewrite Forall_forall in IH. destruct (IH m Hm) as [Ht [Hv Hcf]].
    repeat split; auto. eapply Vocabulary.inTree_below; eauto.
Qed.

End TreeWalk.

(** X1: the walk only appends to its accumulator, and what it appends is
    the node itself when it is a visible component or frame, followed by
    the walks of its children in document order; below a hidden node it
    appends nothing. *)
Theorem X1_walk_is_preorder :
  forall (n : FigmaClient.FigmaNode) (result : list FigmaClient.FigmaNode),
    FigmaClient.walkFigmaTree n result
    = result
      ++ (if FigmaClient.visibleNotFalse n
          then (if FigmaClient.isComponentOrFrame n then [n] else [])
               ++ flat_map (fun c => FigmaClient.walkFigmaTree c [])
                    (Vocabulary.childrenOf n)
          else []).
Proof.
  intros n result. rewrite walk_app, walk_preorder. reflexivity.
Qed.

(** X2: every node the walk collects is a node of the tree, is not
    hidden, and is a component or a frame. *)
Theorem X2_walk_collects_visible_components_and_frames :
  forall (n m : FigmaClient.FigmaNode) (result : list FigmaClient.FigmaNode),
    In m (FigmaClient.walkFigmaTree n result) ->
    In m result
    \/ (Vocabulary.inTree m n
        /\ FigmaClient.visibleNotFalse m = true
        /\ FigmaClient.isComponentOrFrame m = true).
Proof.
  intros n m result H. rewrite walk_app in H. apply in_app_or in H.
  destruct H as [H|H]; [now left|right].
  pose proof (walk_sound n) as Hs. rewrite Forall_forall in Hs. now apply Hs.
Qed.

Lemma X2_walk_collects_visible_components_and_frames_witness :
  In Documents.icon (FigmaClient.walkFigmaTree Documents.page [])
  /\ Vocabulary.inTree Documents.icon Documents.page
  /\ FigmaClient.isComponentOrFrame Documents.icon = true.
Proof.
  assert (H : In Documents.icon (FigmaClient.walkFigmaTree Documents.page []))
    by (right; left; reflexivity).
  split; [exact H|].
  destruct (@X2_walk_collects_visible_components_and_frames
              Documents.page Documents.icon [] H) as [[]|[Ht [_ Hcf]]].
  split; assumption.
Defined.

(** X3: the file built from a document lists at most as many nodes as
    its two counters add up to, since the counters also count what is
    hidden; it lists exactly that many when no node of the document is
    hidden, and none when the document itself is hidden. *)
Theorem X3_file_nodes_against_counters :
  forall (urlOrId name_ : jsstring) (document : FigmaClient.FigmaNode),
    let f := FigmaClient.figmaFileOf urlOrId name_ document in
    (Z.of_nat (length (FigmaClient.nodes f))
     <= FigmaClient.componentCount f + FigmaClient.frameCount f)%Z
    /\ ((forall m, Vocabulary.inTree m document ->
                   FigmaClient.visibleNotFalse m = true) ->
        (Z.of_nat (length (FigmaClient.nodes f))
         = FigmaClient.componentCount f + FigmaClient.frameCount f)%Z)
    /\ (FigmaClient.visible document = Some false ->
        FigmaClient.nodes f = []).
Proof.
  intros urlOrId name_ document f. subst f. simpl. split; [|split].
  - apply walk_length_le.
  - apply walk_length_eq.
  - intros H. rewrite walk_preorder.
    unfold FigmaClient.visibleNotFalse. now rewrite H.
Qed.

Lemma X3_file_nodes_against_counters_witness :
  (Z.of_nat (length (FigmaClient.nodes
                       (FigmaClient.figmaFileOf (str "abc123") (str "Design")
                          Documents.page))) = 2)%Z
  /\ (FigmaClient.componentCount
        (FigmaClient.figmaFileOf (str "abc123") (str "Design") Documents.page)
      + FigmaClient.frameCount
          (FigmaClient.figmaFileOf (str "abc123") (str "Design") Documents.page)
      = 4)%Z
  /\ FigmaClient.nodes
       (FigmaClient.figmaFileOf (str "abc123") (str "Design") Documents.draft)
     = [].
Proof.
  split; [reflexivity|]. split; [reflexivity|].
  apply (proj2 (proj2 (@X3_file_nodes_against_counters
                         (str "abc123") (str "Design") Documents.draft))).
  reflexivity.
Defined.

(** X4: the nodes of a file built from a document are never hidden, so
    that the entry point drops exactly those without a name. *)
Theorem X4_walked_nodes_pass_visibility :
  forall (urlOrId name_ : jsstring) (document : FigmaClient.FigmaNode),
    filter Converter.isValidNode
      (FigmaClient.nodes (FigmaClient.figmaFileOf urlOrId name_ document))
    = filter (fun n => truthy (FigmaClient.name n))
        (FigmaClient.walkFigmaTree document []).
Proof.
  intros urlOrId name_ document. simpl.
  pose proof (walk_sound document) as Hs.
  induction Hs as [|m ms [_ [Hv _]] _ IH]; simpl; [reflexivity|].
  unfold Converter.isValidNode at 1. rewrite Hv, IH. reflexivity.
Qed.

(** *** The component mapping *)

Section ComponentMapping.
Context {cc : CaseConversion}.

Lemma record_get_set_same (k v : jsstring) (rec : record) :
  record_get k (record_set k v rec) = Some v.
Proof.
  induction rec as [|[k0 v0] rec IH]; simpl.
  - now rewrite jsstring_eqb_refl.
  - destruct (jsstring_eqb k k0) eqn:E; simpl.
    + now rewrite jsstring_eqb_refl.
    + now rewrite E.
Qed.

Lemma record_get_set_other (k k' v : jsstring) (rec : record) :
  k' <> k -> record_get k' (record_set k v rec) = record_get k' rec.
Proof.
  intros Hne. induction rec as [|[k0 v0] rec IH]; simpl.
  - now rewrite (jsstring_eqb_neq Hne).
  - destruct (jsstring_eqb k k0) eqn:E; simpl.
    + apply jsstring_eqb_eq in E. subst k0.
      now rewrite (jsstring_eqb_neq Hne).
    + now rewrite IH.
Qed.

Lemma record_set_NoDup (k v : jsstring) (rec : record) :
  NoDup (map fst rec) -> NoDup (map fst (record_set k v rec)).
Proof.
  induction rec as [|[k0 v0] rec IH]; simpl; intros H.
  - repeat constructor. intros [].
  - inversion H as [|? ? Hnot Hrest]; subst.
    destruct (jsstring_eqb k k0) eqn:E; simpl.
    + apply jsstring_eqb_eq in E. subst k0. now constructor.
    + constructor; [|now apply IH].
      intros Hin. apply record_set_keys in Hin. destruct Hin as [->|Hin].
      * rewrite jsstring_eqb_refl in E. discriminate.
      * contradiction.
Qed.

Lemma record_set_length (k v : jsstring) (rec : record) :
  (length (record_set k v rec) <= S (length rec))%nat.
Proof.
  induction rec as [|[k0 v0] rec IH]; simpl; [lia|].
  destruct (jsstring_eqb k k0); simpl; lia.
Qed.

Lemma stored_NoDup (fw : Converter.Framework) (ns : list FigmaClient.FigmaNode)
  (rec : record) :
  NoDup (map fst rec) ->
  NoDup (map fst (fold_left (Converter.storeComponent fw) ns rec)).
Proof.
  revert rec. induction ns as [|n ns IH]; intros rec H; simpl; [exact H|].
  apply IH. unfold Converter.storeComponent. now apply record_set_NoDup.
Qed.

Lemma stored_length (fw : Converter.Framework) (ns : list FigmaClient.FigmaNode)
  (rec : record) :
  (length (fold_left (Converter.storeComponent fw) ns rec)
   <= length rec + length ns)%nat.
Proof.
  revert rec. induction ns as [|n ns IH]; intros rec; simpl; [lia|].
  specialize (IH (Converter.storeComponent fw rec n)).
  pose proof (record_set_length
                (Converter.sanitizeFileName (FigmaClient.name n) ++ str ".tsx")
                (Converter.generateComponentCode n fw) rec) as Hl.
  unfold Converter.storeComponent in *. lia.
Qed.

Lemma stored_get (fw : Converter.Framework) (key : jsstring)
  (ns : list FigmaClient.FigmaNode) (rec : record) :
  record_get key (fold_left (Converter.storeComponent fw) ns rec)
  = Vocabulary.lastStored fw key ns (record_get key rec).
Proof.
  unfold Vocabulary.lastStored.
  revert rec. induction ns as [|n ns IH]; intros rec; simpl; [reflexivity|].
  rewrite IH. f_equal. unfold Converter.storeComponent.
  destruct (jsstring_eqb key
              (Converter.sanitizeFileName (FigmaClient.name n) ++ str ".tsx"))
    eqn:E.
  - apply jsstring_eqb_eq in E. rewrite E. apply record_get_set_same.
  - apply record_get_set_other. intros ->.
    rewrite jsstring_eqb_refl in E. discriminate.
Qed.

Lemma lastStored_untouched (fw : Converter.Framework) (key : jsstring)
  (ns : list FigmaClient.FigmaNode) (init : option jsstring) :
  (forall m, In m ns ->
     Converter.sanitizeFileName (FigmaClient.name m) ++ str ".tsx" <> key) ->
  Vocabulary.lastStored fw key ns init = init.
Proof.
  unfold Vocabulary.lastStored.
  revert init. induction ns as [|n ns IH]; intros init H; simpl; [reflexivity|].
  rewrite jsstring_eqb_neq by (intros E; apply (H n); [now left|now symmetry]).
  apply IH. intros m Hm. apply H. now right.
Qed.

Lemma lastStored_app (fw : Converter.Framework) (key : jsstring)
  (pre post : list FigmaClient.FigmaNode) (init : option jsstring) :
  Vocabulary.lastStored fw key (pre ++ post) init
  = Vocabulary.lastStored fw key post (Vocabulary.lastStored fw key pre init).
Proof. unfold Vocabulary.lastStored. apply fold_left_app. Qed.

(** What the mapping holds under the file name of a valid node that no
    later valid node shares the file slug with. *)
Lemma stored_last (f : FigmaClient.FigmaFile) (fw : Converter.Framework)
  (pre post : list FigmaClient.FigmaNode) (n : FigmaClient.FigmaNode) :
  FigmaClient.nodes f = pre ++ n :: post ->
  Converter.isValidNode n = true ->
  (forall m, In m post -> Converter.isValidNode m = true ->
     Converter.sanitizeFileName (FigmaClient.name m)
     <> Converter.sanitizeFileName (FigmaClient.name n)) ->
  record_get (Converter.sanitizeFileName (FigmaClient.name n) ++ str ".tsx")
    (Converter.components (Converter.conversionOf f fw))
  = Some (Converter.generateComponentCode n fw).
Proof.
  intros Hn Hv Hpost.
  unfold Converter.conversionOf. simpl.
  rewrite stored_get, Hn, filter_app. simpl. rewrite Hv.
  rewrite lastStored_app.
  change (n :: filter Converter.isValidNode post)
    with ([n] ++ filter Converter.isValidNode post).
  rewrite lastStored_app, lastStored_untouched.
  - unfold Vocabulary.lastStored. simpl. now rewrite jsstring_eqb_refl.
  - intros m Hm E. apply filter_In in Hm. destruct Hm as [Hm Hmv].
    apply (Hpost m Hm Hmv). now apply app_inv_tail in E.
Qed.

End ComponentMapping.

(** C4 (as amended): [generateComponent] names the file of a node
    [{componentName}.{ext}], where the component name is the pascal-case
    form of the name stripped to [[a-zA-Z0-9]] (not the file slug) and
    the extension is fixed by the dialect, [tsx] or [jsx] by the
    typescript flag for the function component.  [convertFigmaToCode],
    which has no typescript flag, keys its mapping by [{fileSlug}.tsx]
    whatever the dialect: the keys are exactly the file slugs of the
    valid nodes followed by [.tsx], and under the key of a valid node
    lies the text generated for the last valid node with that file
    slug. *)
Theorem C4_output_file_names :
  forall (cc : CaseConversion),
    (forall (this : Index.DesignToCode) (node : Index.FigmaNode),
        Index.filename (Index.generateComponent this node)
        = Index.toPascalCase (Index.sanitizeName (Index.name node))
          ++ str "." ++ Spec.extensionOf (Index.config this))
    /\ (forall (f : FigmaClient.FigmaFile) (fw : Converter.Framework)
               (key : jsstring),
          In key (map fst (Converter.components (Converter.conversionOf f fw)))
          <-> exists n,
                In n (FigmaClient.nodes f)
                /\ Converter.isValidNode n = true
                /\ key = Converter.sanitizeFileName (FigmaClient.name n)
                         ++ str ".tsx")
    /\ (forall (f : FigmaClient.FigmaFile) (fw : Converter.Framework)
               (pre post : list FigmaClient.FigmaNode)
               (n : FigmaClient.FigmaNode),
          FigmaClient.nodes f = pre ++ n :: post ->
          Converter.isValidNode n = true ->
          (forall m, In m post -> Converter.isValidNode m = true ->
             Converter.sanitizeFileName (FigmaClient.name m)
             <> Converter.sanitizeFileName (FigmaClient.name n)) ->
          record_get
            (Converter.sanitizeFileName (FigmaClient.name n) ++ str ".tsx")
            (Converter.components (Converter.conversionOf f fw))
          = Some (Converter.generateComponentCode n fw)).
Proof.
  intros cc. split; [|split].
  - apply generateComponent_filename.
  - intros f fw key. apply converter_keys.
  - intros f fw pre post n. apply stored_last.
Qed.

Lemma C4_output_file_names_witness :
  Index.filename
    (Index.generateComponent (cc := asciiCase)
       (Samples.converterOf Index.svelte true true)
       (Samples.withFill Samples.solidFill))
  = str "Submitbutton.svelte"
  /\ Converter.isValidNode Samples.buttonBang = true
  /\ record_get (str "button.tsx")
       (Converter.components
          (Converter.conversionOf (cc := asciiCase)
             (Samples.fileOf [Samples.button; Samples.buttonBang])
             Converter.svelte))
     = Some (Converter.generateComponentCode (cc := asciiCase)
               Samples.buttonBang Converter.svelte).
Proof.
  destruct (@C4_output_file_names asciiCase) as [Hname [_ Hstored]].
  split; [|split; [reflexivity|]].
  - apply (Hname (Samples.converterOf Index.svelte true true)
             (Samples.withFill Samples.solidFill)).
  - apply (Hstored (Samples.fileOf [Samples.button; Samples.buttonBang])
             Converter.svelte [Samples.button] [] Samples.buttonBang
             eq_refl eq_refl).
    intros m [].
Defined.

(** C4 fails as stated: for the frame [Submit Button], whose file slug
    is [submit-button], the typescript function-component configuration
    gives the file name [Submitbutton.tsx]; and the conversion for the
    single-file dialect stores that frame under [submit-button.tsx]. *)
Lemma C4_name_is_not_slug_dot_extension :
  Converter.sanitizeFileName (cc := asciiCase) (str "Submit Button")
  = str "submit-button"
  /\ Index.filename
       (Index.generateComponent (cc := asciiCase)
          (Samples.converterOf Index.react true true)
          (Samples.withFill Samples.solidFill))
     = str "Submitbutton.tsx"
  /\ map fst
       (Converter.components
          (Converter.conversionOf (cc := asciiCase)
             (Samples.fileOf [Samples.submitButton]) Converter.vue))
     = [str "submit-button.tsx"].
Proof. repeat split; reflexivity. Qed.

(** X5: the file names of the component mapping are pairwise distinct,
    and there are at most as many of them as valid nodes: nodes with the
    same file slug share one entry. *)
Theorem X5_component_file_names_distinct :
  forall (cc : CaseConversion) (f : FigmaClient.FigmaFile)
         (fw : Converter.Framework),
    NoDup (map fst (Converter.components (Converter.conversionOf f fw)))
    /\ (length (Converter.components (Converter.conversionOf f fw))
        <= length (filter Converter.isValidNode (FigmaClient.nodes f)))%nat.
Proof.
  intros cc f fw. unfold Converter.conversionOf. simpl. split.
  - apply stored_NoDup. constructor.
  - apply (stored_length fw (filter Converter.isValidNode (FigmaClient.nodes f)) []).
Qed.

(** X6: under a file name the component mapping holds the text of the
    last valid node with that file slug: a later node overwrites an
    earlier one. *)
Theorem X6_last_node_with_a_slug_wins :
  forall (cc : CaseConversion) (f : FigmaClient.FigmaFile)
         (fw : Converter.Framework)
         (pre post : list FigmaClient.FigmaNode) (n : FigmaClient.FigmaNode),
    FigmaClient.nodes f = pre ++ n :: post ->
    Converter.isValidNode n = true ->
    (forall m, In m post -> Converter.isValidNode m = true ->
       Converter.sanitizeFileName (FigmaClient.name m)
       <> Converter.sanitizeFileName (FigmaClient.name n)) ->
    record_get (Converter.sanitizeFileName (FigmaClient.name n) ++ str ".tsx")
      (Converter.components (Converter.conversionOf f fw))
    = Some (Converter.generateComponentCode n fw).
Proof.
  intros cc f fw pre post n Hn Hv Hpost.
  unfold Converter.conversionOf. simpl.
  rewrite stored_get, Hn, filter_app. simpl. rewrite Hv.
  rewrite lastStored_app.
  change (n :: filter Converter.isValidNode post)
    with ([n] ++ filter Converter.isValidNode post).
  rewrite lastStored_app, lastStored_untouched.
  - unfold Vocabulary.lastStored. simpl. now rewrite jsstring_eqb_refl.
  - intros m Hm E. apply filter_In in Hm. destruct Hm as [Hm Hmv].
    apply (Hpost m Hm Hmv). now apply app_inv_tail in E.
Qed.

Lemma X6_last_node_with_a_slug_wins_witness :
  Converter.isValidNode Samples.buttonBang = true
  /\ record_get (str "button.tsx")
       (Converter.components
          (Converter.conversionOf (cc := asciiCase)
             (Samples.fileOf [Samples.button; Samples.buttonBang])
             Converter.react))
     = Some (Converter.generateComponentCode (cc := asciiCase)
               Samples.buttonBang Converter.react).
Proof.
  split; [reflexivity|].
  apply (@X6_last_node_with_a_slug_wins asciiCase
           (Samples.fileOf [Samples.button; Samples.buttonBang]) Converter.react
           [Samples.button] [] Samples.buttonBang eq_refl eq_refl).
  intros m [].
Defined.

(** X7: a node with [visible: false] is dropped by the entry point, like
    a node without a name: the conversion of a file is the conversion of
    the same file without that node. *)
Theorem X7_hidden_node_excluded :
  forall (cc : CaseConversion) (f1 f2 : FigmaClient.FigmaFile)
         (pre post : list FigmaClient.FigmaNode) (n : FigmaClient.FigmaNode)
         (fw : Converter.Framework),
    FigmaClient.visible n = Some false ->
    FigmaClient.nodes f1 = pre ++ n :: post ->
    FigmaClient.nodes f2 = pre ++ post ->
    Converter.convertFigmaToCode f1 fw = Converter.convertFigmaToCode f2 fw.
Proof.
  intros cc f1 f2 pre post n fw Hvis H1 H2.
  unfold Converter.convertFigmaToCode. f_equal.
  apply conversionOf_nodes. rewrite H1, H2.
  apply filter_skip. unfold Converter.isValidNode.
  now rewrite (hidden_not_visible n Hvis).
Qed.

Lemma X7_hidden_node_excluded_witness :
  FigmaClient.visible Documents.hiddenButton = Some false
  /\ Converter.convertFigmaToCode (cc := asciiCase)
       (Samples.fileOf [Documents.icon; Documents.hiddenButton]) Converter.vue
     = Converter.convertFigmaToCode (cc := asciiCase)
         (Samples.fileOf [Documents.icon]) Converter.vue.
Proof.
  split; [reflexivity|].
  apply (@X7_hidden_node_excluded asciiCase
           (Samples.fileOf [Documents.icon; Documents.hiddenButton])
           (Samples.fileOf [Documents.icon])
           [Documents.icon] [] Documents.hiddenButton Converter.vue);
    reflexivity.
Defined.

(** *** The file identifier *)

Section FileId.

Lemma alnum_not_slash (c : N) : isAlnum c = true -> (47 =? c)%N = false.
Proof.
  intros H. destruct (N.eqb_spec 47 c) as [<-|]; [discriminate|reflexivity].
Qed.

Lemma spanAlnum_alnum (s : jsstring) :
  forallb isAlnum (fst (FigmaClient.spanAlnum s)) = true.
Proof.
  induction s as [|c s IH]; simpl; [reflexivity|].
  destruct (isAlnum c) eqn:E; [|reflexivity].
  destruct (FigmaClient.spanAlnum s) as [w rest]. simpl in *. now rewrite E.
Qed.

Lemma spanAlnum_run (w rest : jsstring) :
  forallb isAlnum w = true ->
  match rest with [] => True | c :: _ => isAlnum c = false end ->
  FigmaClient.spanAlnum (w ++ rest) = (w, rest).
Proof.
  intros Hw Hrest. induction w as [|c w IH]; simpl.
  - destruct rest as [|d rest]; [reflexivity|]. simpl. now rewrite Hrest.
  - simpl in Hw. apply andb_true_iff in Hw. destruct Hw as [Hc Hw].
    now rewrite Hc, IH.
Qed.

Lemma fileIdAt_alnum (s w : jsstring) :
  FigmaClient.fileIdAt s = Some w -> w <> [] /\ forallb isAlnum w = true.
Proof.
  unfold FigmaClient.fileIdAt.
  destruct (startsWith s (str "/file/")); [|discriminate].
  pose proof (spanAlnum_alnum (skipn 6 s)) as Ha.
  destruct (FigmaClient.spanAlnum (skipn 6 s)) as [[|c u] rest];
    [discriminate|].
  destruct rest as [|d rest]; [discriminate|].
  destruct (N.eqb_spec d 47); [|destruct d as [|p]; try discriminate;
    repeat (destruct p as [p|p|]; try discriminate); congruence].
  subst d. intros H. injection H as <-. split; [discriminate|exact Ha].
Qed.

Lemma findFileId_alnum (s w : jsstring) :
  FigmaClient.findFileId s = Some w -> w <> [] /\ forallb isAlnum w = true.
Proof.
  induction s as [|c s IH]; simpl; [discriminate|].
  destruct (FigmaClient.fileIdAt (c :: s)) as [u|] eqn:E; [|exact IH].
  intros H. injection H as <-. now apply (fileIdAt_alnum (c :: s)).
Qed.

Lemma findFileId_of_alnum (s : jsstring) :
  forallb isAlnum s = true -> FigmaClient.findFileId s = None.
Proof.
  induction s as [|c s IH]; simpl; [reflexivity|]. intros H.
  apply andb_true_iff in H. destruct H as [Hc Hs].
  unfold FigmaClient.fileIdAt.
  change (startsWith (c :: s) (str "/file/"))
    with ((47 =? c)%N && startsWith s (str "file/")).
  rewrite (alnum_not_slash c Hc). simpl. now apply IH.
Qed.

Lemma fileIdAt_hit (w post : jsstring) :
  w <> [] -> forallb isAlnum w = true ->
  FigmaClient.fileIdAt (str "/file/" ++ w ++ str "/" ++ post) = Some w.
Proof.
  intros Hne Hw. unfold FigmaClient.fileIdAt.
  rewrite startsWith_app.
  change (skipn 6 (str "/file/" ++ w ++ str "/" ++ post))
    with (w ++ str "/" ++ post).
  rewrite (spanAlnum_run w (str "/" ++ post) Hw) by reflexivity.
  destruct w; [congruence|reflexivity].
Qed.

Lemma startsWith_long (u v p : jsstring) :
  (length p <= length u)%nat -> startsWith (u ++ v) p = startsWith u p.
Proof.
  revert u. induction p as [|a p IH]; intros u H; [reflexivity|].
  destruct u as [|b u]; simpl in H; [lia|].
  simpl. rewrite IH by lia. reflexivity.
Qed.

Lemma includes_cons (c : N) (s p : jsstring) :
  includes (c :: s) p = startsWith (c :: s) p || includes s p.
Proof. reflexivity. Qed.

Lemma findFileId_cons_miss (c : N) (s : jsstring) :
  startsWith (c :: s) (str "/file/") = false ->
  FigmaClient.findFileId (c :: s) = FigmaClient.findFileId s.
Proof.
  intros H. cbn [FigmaClient.findFileId]. unfold FigmaClient.fileIdAt.
  now rewrite H.
Qed.

Lemma findFileId_cons_none (c : N) (s : jsstring) :
  FigmaClient.fileIdAt (c :: s) = None ->
  FigmaClient.findFileId (c :: s) = FigmaClient.findFileId s.
Proof. intros H. cbn [FigmaClient.findFileId]. now rewrite H. Qed.

Lemma findFileId_skip (pre rest : jsstring) :
  includes (pre ++ str "/file") (str "/file/") = false ->
  FigmaClient.findFileId (pre ++ str "/file/" ++ rest)
  = FigmaClient.findFileId (str "/file/" ++ rest).
Proof.
  induction pre as [|c pre IH]; intros H; [reflexivity|].
  change ((c :: pre) ++ str "/file") with (c :: (pre ++ str "/file")) in H.
  rewrite includes_cons in H. apply orb_false_iff in H.
  destruct H as [Hhere Hrest].
  change ((c :: pre) ++ str "/file/" ++ rest)
    with (c :: (pre ++ str "/file/" ++ rest)).
  rewrite findFileId_cons_miss; [now apply IH|].
  replace (c :: pre ++ str "/file/" ++ rest)
    with ((c :: pre ++ str "/file") ++ (str "/" ++ rest))
    by (simpl; rewrite <- app_assoc; reflexivity).
  rewrite startsWith_long; [exact Hhere|].
  simpl. rewrite length_app. simpl. lia.
Qed.

End FileId.

Lemma startsWith_prefix (s p : jsstring) :
  startsWith s p = true -> exists t, s = p ++ t.
Proof.
  revert s. induction p as [|a p IH]; intros s H.
  - now exists s.
  - destruct s as [|b s]; [discriminate|]. simpl in H.
    apply andb_true_iff in H. destruct H as [Hab Hs].
    apply N.eqb_eq in Hab. subst b.
    destruct (IH s Hs) as [t ->]. now exists t.
Qed.

Lemma alnum_never_starts_with_slash (u p : jsstring) :
  forallb isAlnum u = true -> In 47%N p -> startsWith u p = false.
Proof.
  intros Hu Hp. destruct (startsWith u p) eqn:E; [|reflexivity].
  apply startsWith_prefix in E. destruct E as [t ->].
  rewrite forallb_app in Hu. apply andb_true_iff in Hu. destruct Hu as [Hp' _].
  rewrite forallb_forall in Hp'. specialize (Hp' _ Hp). discriminate.
Qed.

(** X8: extracting the file identifier is idempotent; a string of
    letters and digits is its own identifier; and whenever the result is
    not the input itself it is a non-empty string of letters and digits. *)
Theorem X8_extractFileId_idempotent :
  forall (urlOrId : jsstring),
    FigmaClient.extractFileId (FigmaClient.extractFileId urlOrId)
    = FigmaClient.extractFileId urlOrId
    /\ (forallb isAlnum urlOrId = true ->
        FigmaClient.extractFileId urlOrId = urlOrId)
    /\ (FigmaClient.extractFileId urlOrId = urlOrId
        \/ (FigmaClient.extractFileId urlOrId <> []
            /\ forallb isAlnum (FigmaClient.extractFileId urlOrId) = true)).
Proof.
  intros s.
  assert (Hform : FigmaClient.extractFileId s
                  = match FigmaClient.findFileId s with
                    | Some w => w
                    | None => s
                    end) by reflexivity.
  destruct (FigmaClient.findFileId s) as [w|] eqn:E; rewrite Hform.
  - destruct (findFileId_alnum s E) as [Hne Hw].
    split; [|split].
    + unfold FigmaClient.extractFileId. now rewrite (findFileId_of_alnum w Hw).
    + intros Hs. rewrite (findFileId_of_alnum s Hs) in E. discriminate.
    + right. split; assumption.
  - split; [|split].
    + exact Hform.
    + reflexivity.
    + now left.
Qed.

Lemma X8_extractFileId_idempotent_witness :
  forallb isAlnum (str "abc123") = true
  /\ FigmaClient.extractFileId (str "abc123") = str "abc123".
Proof.
  split; [reflexivity|].
  apply (proj1 (proj2 (X8_extractFileId_idempotent (str "abc123")))).
  reflexivity.
Defined.

(** X9: from an address that holds [/file/], an identifier of letters
    and digits and a slash, with no earlier [/file/], the identifier is
    extracted; without the slash after the identifier nothing matches
    and the whole address is returned as the identifier. *)
Theorem X9_extractFileId_of_address :
  forall (pre id : jsstring),
    id <> [] -> forallb isAlnum id = true ->
    includes (pre ++ str "/file") (str "/file/") = false ->
    (forall post,
        FigmaClient.extractFileId (pre ++ str "/file/" ++ id ++ str "/" ++ post)
        = id)
    /\ FigmaClient.extractFileId (pre ++ str "/file/" ++ id)
       = pre ++ str "/file/" ++ id.
Proof.
  intros pre id Hne Hid Hpre. split.
  - intros post. unfold FigmaClient.extractFileId.
    rewrite findFileId_skip by exact Hpre.
    change (str "/file/" ++ id ++ str "/" ++ post)
      with (47%N :: (str "file/" ++ id ++ str "/" ++ post)).
    cbn [FigmaClient.findFileId].
    change (47%N :: (str "file/" ++ id ++ str "/" ++ post))
      with (str "/file/" ++ id ++ str "/" ++ post).
    now rewrite (@fileIdAt_hit id post Hne Hid).
  - unfold FigmaClient.extractFileId.
    rewrite findFileId_skip by exact Hpre.
    assert (Hnone : FigmaClient.findFileId (str "/file/" ++ id) = None).
    { change (str "/file/" ++ id)
        with (47%N :: 102%N :: 105%N :: 108%N :: 101%N :: 47%N :: id).
      assert (H0 : FigmaClient.fileIdAt
                     (47%N :: 102%N :: 105%N :: 108%N :: 101%N :: 47%N :: id)
                   = None).
      { unfold FigmaClient.fileIdAt.
        change (47%N :: 102%N :: 105%N :: 108%N :: 101%N :: 47%N :: id)
          with (str "/file/" ++ id).
        rewrite startsWith_app.
        change (skipn 6 (str "/file/" ++ id)) with id.
        rewrite <- (app_nil_r id) at 1.
        rewrite (@spanAlnum_run id [] Hid I). now destruct id. }
      rewrite (@findFileId_cons_none _ _ H0).
      do 4 (rewrite findFileId_cons_none by reflexivity).
      rewrite findFileId_cons_miss.
      - now apply findFileId_of_alnum.
      - change (startsWith (47%N :: id) (str "/file/"))
          with ((47 =? 47)%N && startsWith id (str "file/")).
        rewrite (@alnum_never_starts_with_slash id (str "file/") Hid);
          [reflexivity|].
        simpl. tauto. }
    now rewrite Hnone.
Qed.

Lemma X9_extractFileId_of_address_witness :
  includes (str "https://www.figma.com" ++ str "/file") (str "/file/") = false
  /\ FigmaClient.extractFileId (str "https://www.figma.com/file/abc123/MyDesign")
     = str "abc123"
  /\ FigmaClient.extractFileId (str "https://www.figma.com/file/abc123")
     = str "https://www.figma.com/file/abc123".
Proof.
  split; [reflexivity|].
  destruct (@X9_extractFileId_of_address (str "https://www.figma.com")
              (str "abc123") ltac:(discriminate) eq_refl eq_refl)
    as [Hhit Hmiss].
  split; [exact (Hhit (str "MyDesign"))|exact Hmiss].
Defined.

(** *** Names: slugs, component names, file names *)

Section Names.
Context {cc : CaseConversion}.

Lemma kebab_units_checked :
  forallb Vocabulary.kebabUnitChecked (map N.of_nat (seq 0 128)) = true.
Proof. vm_compute. reflexivity. Qed.

Lemma unit_facts (c : N) :
  isAscii c = true ->
  isUpperAZ (lowerUnit c) = false
  /\ lowerUnit (lowerUnit c) = lowerUnit c
  /\ lowerUnit (upperUnit c) = lowerUnit c
  /\ isAlnum (upperUnit c) = isAlnum c
  /\ isAlnum (lowerUnit c) = isAlnum c
  /\ isAscii (upperUnit c) = true
  /\ isAscii (lowerUnit c) = true
  /\ (isAlnum c = true -> isUpperAZ (upperUnit c) = false -> isDigit c = true)
  /\ (isDigit c = true -> upperUnit c <> 45%N)
  /\ (isSlugChar c = true -> lowerUnit c = c)
  /\ (isSlugChar c = true -> isSpace c = false)
  /\ (isAlnum c = true -> isNameSep c = false).
Proof.
  intros H. unfold isAscii in H. apply N.ltb_lt in H.
  pose proof kebab_units_checked as Hall. rewrite forallb_forall in Hall.
  assert (Hin : In c (map N.of_nat (seq 0 128))).
  { apply in_map_iff. exists (N.to_nat c). split; [apply N2Nat.id|].
    apply in_seq. lia. }
  specialize (Hall c Hin). unfold Vocabulary.kebabUnitChecked in Hall.
  repeat (apply andb_true_iff in Hall;
          let G := fresh "G" in destruct Hall as [Hall G]).
  repeat match goal with
         | X : Bool.eqb _ _ = true |- _ => apply Bool.eqb_prop in X
         | X : negb _ = true |- _ => apply negb_true_iff in X
         | X : (_ =? _)%N = true |- _ => apply N.eqb_eq in X
         end.
  repeat split; try assumption.
  - intros Ha Hu. rewrite Ha, Hu in G4. exact G4.
  - intros Hd E. rewrite Hd in G3. rewrite E in G3. discriminate.
  - intros Hs. rewrite Hs in G1. now apply N.eqb_eq in G1.
  - intros Hs. rewrite Hs in G0. exact G0.
  - intros Ha. rewrite Ha in G. exact G.
Qed.

Lemma between_le (lo hi c : N) : between lo hi c = true -> (c <= hi)%N.
Proof.
  unfold between. intros H. apply andb_true_iff in H. destruct H as [_ H].
  now apply N.leb_le.
Qed.

Lemma alnum_ascii (c : N) : isAlnum c = true -> isAscii c = true.
Proof.
  unfold isAlnum, isLowerAZ, isUpperAZ, isDigit, isAscii. intros H.
  apply N.ltb_lt.
  apply orb_true_iff in H. destruct H as [H|H];
    [apply orb_true_iff in H; destruct H as [H|H]|];
    apply between_le in H; lia.
Qed.

Lemma slug_ascii (c : N) : isSlugChar c = true -> isAscii c = true.
Proof.
  unfold isSlugChar, isLowerAZ, isDigit, isAscii. intros H.
  apply N.ltb_lt.
  apply orb_true_iff in H. destruct H as [H|H];
    [apply orb_true_iff in H; destruct H as [H|H]; apply between_le in H; lia|].
  apply N.eqb_eq in H. lia.
Qed.

Lemma forallb_impl (P Q : N -> bool) (s : jsstring) :
  (forall c, P c = true -> Q c = true) ->
  forallb P s = true -> forallb Q s = true.
Proof.
  intros H. rewrite !forallb_forall. auto.
Qed.

Lemma map_fixed (f : N -> N) (P : N -> bool) (s : jsstring) :
  (forall c, P c = true -> f c = c) -> forallb P s = true -> map f s = s.
Proof.
  intros Hf. induction s as [|c s IH]; simpl; [reflexivity|].
  intros H. apply andb_true_iff in H. destruct H as [Hc Hs].
  now rewrite Hf, IH.
Qed.

Lemma replaceRuns_none (isC : N -> bool) (by_ s : jsstring) :
  forallb (fun c => negb (isC c)) s = true ->
  replaceRuns isC by_ s false = s.
Proof.
  induction s as [|c s IH]; simpl; [reflexivity|].
  intros H. apply andb_true_iff in H. destruct H as [Hc Hs].
  apply negb_true_iff in Hc. now rewrite Hc, IH.
Qed.

Lemma filter_all (P : N -> bool) (s : jsstring) :
  forallb P s = true -> filter P s = s.
Proof.
  induction s as [|c s IH]; simpl; [reflexivity|].
  intros H. apply andb_true_iff in H. destruct H as [Hc Hs].
  now rewrite Hc, IH.
Qed.

Lemma splitRuns_no_sep (isSep : N -> bool) (s cur : jsstring) :
  forallb (fun c => negb (isSep c)) s = true ->
  splitRuns isSep s cur false = [cur ++ s].
Proof.
  revert cur. induction s as [|c s IH]; intros cur H; simpl.
  - now rewrite app_nil_r.
  - simpl in H. apply andb_true_iff in H. destruct H as [Hc Hs].
    apply negb_true_iff in Hc. rewrite Hc, IH by exact Hs.
    now rewrite <- app_assoc.
Qed.

End Names.

Section NameTheorems.
Context {cc : CaseConversion}.

Lemma sanitizeFileName_of_slug (t : jsstring) :
  forallb isSlugChar t = true -> (length t <= 50)%nat ->
  Converter.sanitizeFileName t = t.
Proof.
  intros Hslug Hlen. rewrite sanitizeFileName_firstn.
  rewrite toLowerCase_ascii by (apply (forallb_impl isSlugChar); auto using slug_ascii).
  rewrite (map_fixed lowerUnit isSlugChar)
    by (auto; intros c Hc; apply (unit_facts c (slug_ascii c Hc)); exact Hc).
  rewrite replaceRuns_none
    by (apply (forallb_impl isSlugChar); auto; intros c Hc;
        apply negb_true_iff; apply (unit_facts c (slug_ascii c Hc)); exact Hc).
  unfold keepOnly. rewrite filter_all by exact Hslug.
  now apply firstn_all2.
Qed.

Lemma sanitizeName_alnum (name : jsstring) :
  forallb isAlnum (Index.sanitizeName name) = true.
Proof. apply keepOnly_all. Qed.

Lemma index_capitalize (s : jsstring) :
  forallb isAscii s = true -> Index.capitalize s = Vocabulary.capitalized s.
Proof.
  intros H. unfold Index.capitalize. destruct s as [|c r].
  - rewrite toUpperCase_ascii, toLowerCase_ascii by reflexivity. reflexivity.
  - rewrite slice_tail. simpl in H. apply andb_true_iff in H.
    destruct H as [Hc Hr].
    rewrite toUpperCase_ascii by (simpl; now rewrite Hc).
    rewrite toLowerCase_ascii by exact Hr. reflexivity.
Qed.

Lemma index_toPascalCase_alnum (s : jsstring) :
  forallb isAlnum s = true -> Index.toPascalCase s = Vocabulary.capitalized s.
Proof.
  intros H. unfold Index.toPascalCase, splitOn.
  rewrite splitRuns_no_sep.
  - simpl. apply index_capitalize.
    apply (forallb_impl isAlnum); auto using alnum_ascii.
  - apply (forallb_impl isAlnum); auto. intros c Hc. apply negb_true_iff.
    apply (unit_facts c (alnum_ascii c Hc)). exact Hc.
Qed.

Lemma dashCapitals_lowered (r : jsstring) :
  forallb isAscii r = true ->
  Index.dashCapitals (map lowerUnit r) = map lowerUnit r.
Proof.
  induction r as [|c r IH]; simpl; [reflexivity|].
  intros H. apply andb_true_iff in H. destruct H as [Hc Hr].
  destruct (unit_facts c Hc) as [Hup _]. rewrite Hup. simpl.
  f_equal. now apply IH.
Qed.

Lemma dropLeadingDash_other (c : N) (r : jsstring) :
  c <> 45%N -> Index.dropLeadingDash (c :: r) = c :: r.
Proof.
  intros H. destruct c as [|p]; [reflexivity|].
  repeat (destruct p as [p|p|]; try reflexivity).
  congruence.
Qed.

Lemma map_lower_idem (r : jsstring) :
  forallb isAscii r = true ->
  map lowerUnit (map lowerUnit r) = map lowerUnit r.
Proof.
  induction r as [|c r IH]; simpl; [reflexivity|].
  intros H. apply andb_true_iff in H. destruct H as [Hc Hr].
  destruct (unit_facts c Hc) as [_ [Hll _]]. now rewrite Hll, IH.
Qed.

Lemma forallb_map_lower_ascii (r : jsstring) :
  forallb isAscii r = true -> forallb isAscii (map lowerUnit r) = true.
Proof.
  induction r as [|c r IH]; simpl; [reflexivity|].
  intros H. apply andb_true_iff in H. destruct H as [Hc Hr].
  destruct (unit_facts c Hc) as [_ [_ [_ [_ [_ [_ [Hl _]]]]]]].
  now rewrite Hl, IH.
Qed.

Lemma kebab_of_capitalized (s : jsstring) :
  forallb isAlnum s = true ->
  Index.toKebabCase (Vocabulary.capitalized s) = map lowerUnit s.
Proof.
  intros H. destruct s as [|c r]; unfold Index.toKebabCase.
  - simpl. rewrite toLowerCase_ascii by reflexivity. reflexivity.
  - simpl in H. apply andb_true_iff in H. destruct H as [Hc Hr].
    assert (Har : forallb isAscii r = true)
      by (apply (forallb_impl isAlnum); auto using alnum_ascii).
    pose proof (alnum_ascii c Hc) as Hac.
    destruct (unit_facts c Hac)
      as [_ [_ [Hlu [_ [_ [Hau [_ [Hdig [Hnot45 _]]]]]]]]].
    cbn [Vocabulary.capitalized Index.dashCapitals flat_map].
    change (flat_map (fun c0 => if isUpperAZ c0 then [45%N; c0] else [c0])
              (map lowerUnit r))
      with (Index.dashCapitals (map lowerUnit r)).
    rewrite dashCapitals_lowered by exact Har.
    destruct (isUpperAZ (upperUnit c)) eqn:Eu.
    + rewrite toLowerCase_ascii
        by (simpl; rewrite Hau; simpl; now apply forallb_map_lower_ascii).
      simpl. rewrite Hlu, map_lower_idem by exact Har. reflexivity.
    + rewrite toLowerCase_ascii
        by (simpl; rewrite Hau; simpl; now apply forallb_map_lower_ascii).
      simpl map. rewrite Hlu, map_lower_idem by exact Har.
      apply dropLeadingDash_other.
      specialize (Hdig Hc eq_refl). intros E.
      assert (Hl : lowerUnit c = c).
      { unfold lowerUnit. unfold isDigit, between in Hdig.
        apply andb_true_iff in Hdig. destruct Hdig as [H1 H2].
        apply N.leb_le in H1, H2.
        unfold isUpperAZ, between.
        destruct (N.leb_spec 65 c); [lia|reflexivity]. }
      rewrite Hl in E. subst c. discriminate.
Qed.

Lemma capitalized_alnum (s : jsstring) :
  forallb isAlnum s = true -> forallb isAlnum (Vocabulary.capitalized s) = true.
Proof.
  intros H. destruct s as [|c r]; [reflexivity|].
  simpl in H. apply andb_true_iff in H. destruct H as [Hc Hr]. simpl.
  destruct (unit_facts c (alnum_ascii c Hc)) as [_ [_ [_ [Hu _]]]].
  rewrite Hu, Hc. simpl.
  induction r as [|d r IH]; simpl; [reflexivity|].
  simpl in Hr. apply andb_true_iff in Hr. destruct Hr as [Hd Hr].
  destruct (unit_facts d (alnum_ascii d Hd)) as [_ [_ [_ [_ [Hl _]]]]].
  now rewrite Hl, Hd, IH.
Qed.

End NameTheorems.

(** X10: building the file slug is idempotent, whatever the case tables
    of the runtime: a slug is its own slug. *)
Theorem X10_sanitizeFileName_idempotent :
  forall (cc : CaseConversion) (name : jsstring),
    Converter.sanitizeFileName (Converter.sanitizeFileName name)
    = Converter.sanitizeFileName name.
Proof.
  intros cc name. apply sanitizeFileName_of_slug.
  - apply sanitizeFileName_slug.
  - apply sanitizeFileName_length.
Qed.

(** X11: in [generateComponent] the pascal-case conversion comes after
    the name was stripped to letters and digits, so it never finds a
    word boundary: the component name is the stripped name with its
    first letter uppercased and all others lowercased, and the test
    identifier made from it is the stripped name in lowercase, without
    any hyphen added. *)
Theorem X11_component_name_is_one_word :
  forall (cc : CaseConversion) (name : jsstring),
    Index.toPascalCase (Index.sanitizeName name)
    = Vocabulary.capitalized (Index.sanitizeName name)
    /\ Index.toKebabCase (Index.toPascalCase (Index.sanitizeName name))
       = map lowerUnit (Index.sanitizeName name).
Proof.
  intros cc name. pose proof (sanitizeName_alnum name) as H.
  rewrite (index_toPascalCase_alnum _ H). split; [reflexivity|].
  now apply kebab_of_capitalized.
Qed.

(** X12: a generated file name never leaves its directory: the name
    [generateComponent] returns and every key of the component mapping
    of [convertFigmaToCode] hold only letters, digits, dots and hyphens,
    hence no slash. *)
Theorem X12_file_names_hold_no_separator :
  forall (cc : CaseConversion),
    (forall (this : Index.DesignToCode) (node : Index.FigmaNode),
        forallb Vocabulary.isFileNameChar
          (Index.filename (Index.generateComponent this node)) = true
        /\ ~ In 47%N (Index.filename (Index.generateComponent this node)))
    /\ (forall (f : FigmaClient.FigmaFile) (fw : Converter.Framework)
               (key : jsstring),
          In key (map fst (Converter.components (Converter.conversionOf f fw))) ->
          forallb Vocabulary.isFileNameChar key = true /\ ~ In 47%N key).
Proof.
  intros cc.
  assert (Hno : forall s, forallb Vocabulary.isFileNameChar s = true ->
                          ~ In 47%N s).
  { intros s Hs Hin. rewrite forallb_forall in Hs. specialize (Hs _ Hin).
    discriminate. }
  split.
  - intros this node.
    assert (H : forallb Vocabulary.isFileNameChar
                  (Index.filename (Index.generateComponent this node)) = true).
    { rewrite generateComponent_filename.
      rewrite (index_toPascalCase_alnum _ (sanitizeName_alnum _)).
      rewrite !forallb_app. apply andb_true_iff. split.
      - apply (forallb_impl isAlnum).
        + intros c Hc. unfold Vocabulary.isFileNameChar. now rewrite Hc.
        + apply capitalized_alnum, sanitizeName_alnum.
      - unfold Spec.extensionOf.
        destruct (Index.framework (Index.config this));
          [destruct (Index.typescript (Index.config this))| |]; reflexivity. }
    split; [exact H|now apply Hno].
  - intros f fw key Hkey. apply converter_keys in Hkey.
    destruct Hkey as [n [_ [_ ->]]].
    assert (H : forallb Vocabulary.isFileNameChar
                  (Converter.sanitizeFileName (FigmaClient.name n) ++ str ".tsx")
                = true).
    { rewrite forallb_app. apply andb_true_iff. split; [|reflexivity].
      apply (forallb_impl isSlugChar); [|apply sanitizeFileName_slug].
      intros c Hc. unfold Vocabulary.isFileNameChar, isAlnum.
      unfold isSlugChar in Hc.
      destruct (isLowerAZ c), (isUpperAZ c), (isDigit c), (c =? 45)%N,
        (c =? 46)%N; simpl in *; try reflexivity; discriminate. }
    split; [exact H|now apply Hno].
Qed.

(** *** Placeholders *)

Section Placeholders.

Lemma spanWord_split (s : jsstring) :
  s = fst (spanWord s) ++ snd (spanWord s)
  /\ forallb isWord (fst (spanWord s)) = true.
Proof.
  induction s as [|c s [IH1 IH2]]; simpl; [auto|].
  destruct (isWord c) eqn:E; [|auto].
  destruct (spanWord s) as [w rest]. simpl in *. rewrite E.
  split; [now f_equal|assumption].
Qed.

Lemma spanWord_run (w rest : jsstring) :
  forallb isWord w = true ->
  match rest with [] => True | c :: _ => isWord c = false end ->
  spanWord (w ++ rest) = (w, rest).
Proof.
  intros Hw Hrest. induction w as [|c w IH]; simpl.
  - destruct rest as [|d rest]; [reflexivity|]. simpl. now rewrite Hrest.
  - simpl in Hw. apply andb_true_iff in Hw. destruct Hw as [Hc Hw].
    now rewrite Hc, IH.
Qed.

(** A match is the text of a placeholder for an identifier, and a prefix
    of what was scanned. *)
Lemma matchPlaceholderAt_shape (s m : jsstring) :
  matchPlaceholderAt s = Some m ->
  exists w rest,
    Vocabulary.isIdentifier w = true
    /\ m = Vocabulary.placeholder w
    /\ s = m ++ rest.
Proof.
  unfold matchPlaceholderAt.
  destruct s as [|a s]; [discriminate|].
  destruct (N.eq_dec a 36) as [->|Ha];
    [|destruct a as [|p]; try discriminate;
      repeat (destruct p as [p|p|]; try discriminate); congruence].
  destruct s as [|b s]; [discriminate|].
  destruct (N.eq_dec b 123) as [->|Hb];
    [|destruct b as [|p]; try discriminate;
      repeat (destruct p as [p|p|]; try discriminate); congruence].
  destruct (spanWord_split s) as [Hsplit Hword].
  destruct (spanWord s) as [[|c w] rest]; [discriminate|]. simpl in *.
  destruct rest as [|d rest]; [discriminate|].
  destruct (N.eq_dec d 125) as [->|Hd];
    [|destruct d as [|p]; try discriminate;
      repeat (destruct p as [p|p|]; try discriminate); congruence].
  intros H. injection H as <-.
  exists (c :: w), rest. unfold Vocabulary.isIdentifier, Vocabulary.placeholder.
  split; [exact Hword|]. split; [reflexivity|].
  rewrite Hsplit. simpl. rewrite <- !app_assoc. reflexivity.
Qed.

Lemma matchPlaceholderAt_hit (w post : jsstring) :
  Vocabulary.isIdentifier w = true ->
  matchPlaceholderAt (Vocabulary.placeholder w ++ post)
  = Some (Vocabulary.placeholder w).
Proof.
  unfold Vocabulary.isIdentifier, Vocabulary.placeholder. intros H.
  apply andb_true_iff in H. destruct H as [Hne Hw].
  change ((str "${" ++ w ++ str "}") ++ post)
    with (36%N :: 123%N :: ((w ++ str "}") ++ post)).
  unfold matchPlaceholderAt.
  rewrite <- app_assoc, (@spanWord_run w (str "}" ++ post) Hw) by reflexivity.
  destruct w; [discriminate|reflexivity].
Qed.

Lemma slice_placeholder (w : jsstring) :
  slice (Vocabulary.placeholder w) 2 (Some (-1)%Z) = w.
Proof.
  unfold slice, sliceIndex, Vocabulary.placeholder.
  change (2 <? 0)%Z with false. change (-1 <? 0)%Z with true. cbv iota.
  change (str "${" ++ w ++ str "}") with (36%N :: 123%N :: (w ++ [125%N])).
  simpl length. rewrite length_app. simpl length.
  rewrite Z.min_l by lia. rewrite Z.max_l by lia.
  change (Z.to_nat 2) with 2%nat. simpl skipn.
  replace (Z.to_nat (Z.of_nat (S (S (length w + 1))) + -1 - 2)) with (length w)
    by lia.
  rewrite firstn_app, Nat.sub_diag, firstn_all. simpl. apply app_nil_r.
Qed.

Lemma matchAllFrom_shape (s : jsstring) :
  forall skip m,
    In m (matchAllFrom skip s) ->
    exists w, Vocabulary.isIdentifier w = true /\ m = Vocabulary.placeholder w.
Proof.
  induction s as [|c s IH]; intros skip m H; [destruct H|].
  cbn [matchAllFrom] in H. destruct skip as [|k]; [|eauto].
  destruct (matchPlaceholderAt (c :: s)) as [m'|] eqn:E; [|eauto].
  destruct H as [<-|H]; [|eauto].
  destruct (matchPlaceholderAt_shape _ E) as [w [_ [Hw [Hm _]]]]. eauto.
Qed.

(** A match that starts before a dollar sign ends before it. *)
Lemma match_ends_before_dollar (u t m rest : jsstring) :
  u <> [] ->
  (exists w, Vocabulary.isIdentifier w = true /\ m = Vocabulary.placeholder w) ->
  u ++ 36%N :: t = m ++ rest ->
  (length m <= length u)%nat.
Proof.
  intros Hu [w [Hw ->]] E.
  destruct (Nat.le_gt_cases (length (Vocabulary.placeholder w)) (length u))
    as [Hle|Hgt]; [exact Hle|exfalso].
  assert (Hn : nth_error (Vocabulary.placeholder w) (length u) = Some 36%N).
  { rewrite <- (nth_error_app1 _ rest) by exact Hgt. rewrite <- E.
    rewrite nth_error_app2 by lia. now rewrite Nat.sub_diag. }
  unfold Vocabulary.isIdentifier in Hw. apply andb_true_iff in Hw.
  destruct Hw as [_ Hw].
  unfold Vocabulary.placeholder in Hn.
  change (str "${" ++ w ++ str "}") with (36%N :: 123%N :: (w ++ [125%N])) in Hn.
  destruct u as [|a [|b u]]; [congruence|discriminate|].
  cbn [length nth_error] in Hn. apply nth_error_In in Hn.
  apply in_app_or in Hn. destruct Hn as [Hn|[Hn|[]]]; [|discriminate].
  rewrite forallb_forall in Hw. specialize (Hw _ Hn). discriminate.
Qed.

Lemma matchAllFrom_finds (w post pre : jsstring) :
  Vocabulary.isIdentifier w = true ->
  forall skip,
    (skip <= length pre)%nat ->
    In (Vocabulary.placeholder w)
      (matchAllFrom skip (pre ++ Vocabulary.placeholder w ++ post)).
Proof.
  intros Hw. induction pre as [|c pre IH]; intros skip Hskip.
  - assert (skip = 0)%nat by (simpl in Hskip; lia). subst skip.
    pose proof (matchPlaceholderAt_hit w post Hw) as Hhit.
    change ([] ++ Vocabulary.placeholder w ++ post)
      with (Vocabulary.placeholder w ++ post).
    destruct (Vocabulary.placeholder w ++ post) as [|a r] eqn:E;
      [discriminate|].
    cbn [matchAllFrom]. rewrite Hhit. now left.
  - change ((c :: pre) ++ Vocabulary.placeholder w ++ post)
      with (c :: (pre ++ Vocabulary.placeholder w ++ post)).
    cbn [matchAllFrom]. destruct skip as [|k].
    + destruct (matchPlaceholderAt
                  (c :: pre ++ Vocabulary.placeholder w ++ post))
        as [m'|] eqn:E.
      * right. apply IH.
        destruct (matchPlaceholderAt_shape _ E) as [w' [rest [Hw' [Hm' Hs]]]].
        assert (Hlen : (length m' <= length (c :: pre))%nat).
        { apply (@match_ends_before_dollar (c :: pre)
                   (123%N :: (w ++ str "}") ++ post) m' rest);
            [discriminate|eauto|].
          rewrite <- Hs. unfold Vocabulary.placeholder.
          simpl. rewrite <- !app_assoc. reflexivity. }
        simpl in Hlen. lia.
      * apply IH. lia.
    + apply IH. simpl in Hskip. lia.
Qed.

Lemma set_add_In (x y : jsstring) (l : list jsstring) :
  In x (set_add y l) <-> x = y \/ In x l.
Proof.
  unfold set_add. destruct (existsb (jsstring_eqb y) l) eqn:E.
  - split; [auto|]. intros [->|H]; [|exact H].
    apply existsb_exists in E. destruct E as [z [Hz Hyz]].
    apply jsstring_eqb_eq in Hyz. now subst z.
  - rewrite in_app_iff. simpl. intuition.
Qed.

Lemma fold_set_add_In (f : jsstring -> jsstring) (ms acc : list jsstring)
  (x : jsstring) :
  In x (fold_left (fun a m => set_add (f m) a) ms acc)
  <-> In x acc \/ exists m, In m ms /\ x = f m.
Proof.
  revert acc. induction ms as [|m ms IH]; intros acc; simpl.
  - split; [auto|]. intros [H|[m [[] _]]]. exact H.
  - rewrite IH, set_add_In. split.
    + intros [[->|H]|[m' [Hm' ->]]]; eauto.
    + intros [H|[m' [[<-|Hm'] ->]]]; eauto.
Qed.

End Placeholders.

Section TemplateInputsFurther.
Context {cc : CaseConversion}.

Lemma addPlaceholders_In (acc : list jsstring) (c : FigmaClient.FigmaNode)
  (p : jsstring) :
  In p (Converter.addPlaceholders acc c) ->
  In p acc \/ Vocabulary.isIdentifier p = true.
Proof.
  unfold Converter.addPlaceholders.
  destruct (FigmaClient.textContent c) as [t|]; [|auto].
  destruct (_ && _); [|auto].
  unfold matchPlaceholders.
  destruct (matchAllFrom 0 t) as [|m ms] eqn:E; [auto|].
  intros H. apply fold_set_add_In in H. destruct H as [H|[m' [Hm' ->]]]; [auto|].
  right. rewrite <- E in Hm'.
  destruct (matchAllFrom_shape _ _ _ Hm') as [w [Hw ->]].
  now rewrite slice_placeholder.
Qed.

Lemma addPlaceholders_mono (acc : list jsstring) (c : FigmaClient.FigmaNode)
  (p : jsstring) :
  In p acc -> In p (Converter.addPlaceholders acc c).
Proof.
  intros H. unfold Converter.addPlaceholders.
  destruct (FigmaClient.textContent c) as [t|]; [|exact H].
  destruct (_ && _); [|exact H].
  destruct (matchPlaceholders t); [|exact H].
  apply fold_set_add_In. now left.
Qed.

Lemma fold_addPlaceholders_mono (cs : list FigmaClient.FigmaNode)
  (acc : list jsstring) (p : jsstring) :
  In p acc -> In p (fold_left Converter.addPlaceholders cs acc).
Proof.
  revert acc. induction cs as [|c cs IH]; intros acc H; simpl; [exact H|].
  apply IH, addPlaceholders_mono, H.
Qed.

Lemma addPlaceholders_finds (acc : list jsstring) (c : FigmaClient.FigmaNode)
  (pre w post : jsstring) :
  FigmaClient.type c = str "TEXT" ->
  FigmaClient.textContent c = Some (pre ++ Vocabulary.placeholder w ++ post) ->
  Vocabulary.isIdentifier w = true ->
  In w (Converter.addPlaceholders acc c).
Proof.
  intros Hty Htx Hw. unfold Converter.addPlaceholders.
  rewrite Htx, Hty, jsstring_eqb_refl.
  assert (Hinc : includes (pre ++ Vocabulary.placeholder w ++ post) (str "${")
                 = true).
  { apply includes_app_r. unfold Vocabulary.placeholder.
    rewrite <- app_assoc. apply includes_here. }
  rewrite Hinc. simpl andb. cbv iota.
  pose proof (@matchAllFrom_finds w post pre Hw 0%nat (Nat.le_0_l _)) as Hin.
  unfold matchPlaceholders.
  destruct (matchAllFrom 0 (pre ++ Vocabulary.placeholder w ++ post))
    as [|m ms]; [destruct Hin|].
  apply fold_set_add_In. right. exists (Vocabulary.placeholder w).
  split; [exact Hin|]. now rewrite slice_placeholder.
Qed.

End TemplateInputsFurther.

(** X13: the template inputs of a node are pairwise distinct, and each
    is an identifier: a non-empty string of word characters. *)
Theorem X13_template_inputs_are_identifiers :
  forall (node : FigmaClient.FigmaNode),
    NoDup (Converter.extractPropsFromNode node)
    /\ (forall p, In p (Converter.extractPropsFromNode node) ->
                  Vocabulary.isIdentifier p = true).
Proof.
  intros node. split; [apply extractPropsFromNode_distinct|].
  unfold Converter.extractPropsFromNode.
  destruct (FigmaClient.children node) as [cs|]; [|intros p []].
  assert (H : forall p, In p (@nil jsstring) -> Vocabulary.isIdentifier p = true)
    by (intros p []).
  revert H. generalize (@nil jsstring).
  induction cs as [|c cs IH]; intros acc H; simpl; [exact H|].
  apply IH. intros p Hp. apply addPlaceholders_In in Hp.
  destruct Hp as [Hp|Hp]; auto.
Qed.

(** X14: a placeholder [${w}] anywhere in the text content of a direct
    TEXT child makes [w] a template input of the node, whatever else the
    text and the other children hold and whether the child is visible or
    not. *)
Theorem X14_placeholder_becomes_input :
  forall (node child : FigmaClient.FigmaNode)
         (before after : list FigmaClient.FigmaNode) (pre w post : jsstring),
    FigmaClient.children node = Some (before ++ child :: after) ->
    FigmaClient.type child = str "TEXT" ->
    FigmaClient.textContent child
    = Some (pre ++ Vocabulary.placeholder w ++ post) ->
    Vocabulary.isIdentifier w = true ->
    In w (Converter.extractPropsFromNode node).
Proof.
  intros node child before after pre w post Hc Hty Htx Hw.
  unfold Converter.extractPropsFromNode. rewrite Hc, fold_left_app. simpl.
  apply fold_addPlaceholders_mono.
  now apply (@addPlaceholders_finds _ child pre w post).
Qed.

Lemma X14_placeholder_becomes_input_witness :
  FigmaClient.visible Documents.hiddenToken = Some false
  /\ Vocabulary.isIdentifier (str "apiKey") = true
  /\ In (str "apiKey") (Converter.extractPropsFromNode Documents.cardWithToken).
Proof.
  split; [reflexivity|]. split; [reflexivity|].
  apply (@X14_placeholder_becomes_input Documents.cardWithToken
           Documents.hiddenToken [] [] (str "Token: ") (str "apiKey") (str "!"));
    reflexivity.
Defined.

(** X15: every template input of a node is declared in the text that
    [generateComponentCode] produces, in the syntax of the dialect: an
    optional interface member, a [String] prop, or an exported
    variable. *)
Theorem X15_every_input_is_declared :
  forall (cc : CaseConversion) (node : FigmaClient.FigmaNode)
         (fw : Converter.Framework) (p : jsstring),
    In p (Converter.extractPropsFromNode node) ->
    includes (Converter.generateComponentCode node fw)
      (Vocabulary.declarationOf fw p) = true.
Proof.
  intros cc node fw p H. unfold Converter.generateComponentCode.
  destruct fw; simpl Vocabulary.declarationOf.
  - now apply react_declares.
  - now apply vue_declares.
  - now apply svelte_declares.
Qed.

Lemma X15_every_input_is_declared_witness :
  In (str "apiKey") (Converter.extractPropsFromNode Documents.cardWithToken)
  /\ includes
       (Converter.generateComponentCode (cc := asciiCase)
          Documents.cardWithToken Converter.svelte)
       (str "export let apiKey;") = true
  /\ Converter.generateSvelteChildren Documents.cardWithToken = [].
Proof.
  assert (H : In (str "apiKey")
                (Converter.extractPropsFromNode Documents.cardWithToken))
    by (left; reflexivity).
  split; [exact H|]. split; [|reflexivity].
  apply (@X15_every_input_is_declared asciiCase Documents.cardWithToken
           Converter.svelte (str "apiKey") H).
Defined.

(** X16: the template inputs depend on the direct children only through
    their type and text content: nodes whose children agree on these
    two, one by one, have the same inputs, whatever their names,
    visibility and own subtrees. *)
Theorem X16_inputs_read_type_and_text_only :
  forall (n1 n2 : FigmaClient.FigmaNode),
    Forall2 (fun a b => FigmaClient.type a = FigmaClient.type b
                        /\ FigmaClient.textContent a = FigmaClient.textContent b)
      (Vocabulary.childrenOf n1) (Vocabulary.childrenOf n2) ->
    Converter.extractPropsFromNode n1 = Converter.extractPropsFromNode n2.
Proof.
  intros n1 n2 H.
  assert (E : forall n, Converter.extractPropsFromNode n
                        = fold_left Converter.addPlaceholders
                            (Vocabulary.childrenOf n) []).
  { intros n. unfold Converter.extractPropsFromNode, Vocabulary.childrenOf.
    now destruct (FigmaClient.children n). }
  rewrite !E. generalize (@nil jsstring).
  induction H as [|a b l1 l2 [Hty Htx] _ IH]; intros acc; simpl; [reflexivity|].
  replace (Converter.addPlaceholders acc b) with (Converter.addPlaceholders acc a)
    by (unfold Converter.addPlaceholders; now rewrite Hty, Htx).
  apply IH.
Qed.

Lemma X16_inputs_read_type_and_text_only_witness :
  Converter.extractPropsFromNode (Samples.frameOf (str "A") [Samples.greeting])
  = Converter.extractPropsFromNode
      (Samples.frameOf (str "B")
         [Samples.textLayer (str "other") (str "Hello, ${userName}") (Some false)]).
Proof.
  apply X16_inputs_read_type_and_text_only.
  repeat constructor.
Defined.

(** *** Styles of the class *)

Ltac seek :=
  first [ apply includes_here
        | apply includes_app_r; seek
        | apply includes_app_l; seek ].

Section Styles.
Context {cc : CaseConversion}.

Lemma includes_spec (s p : jsstring) :
  includes s p = true <-> exists a b, s = a ++ p ++ b.
Proof.
  split.
  - induction s as [|c s IH]; intros H.
    + simpl in H. rewrite orb_false_r in H.
      apply startsWith_prefix in H. destruct H as [t H]. now exists [], t.
    + rewrite includes_cons in H. apply orb_true_iff in H. destruct H as [H|H].
      * apply startsWith_prefix in H. destruct H as [t H]. now exists [], t.
      * destruct (IH H) as [a [b ->]]. now exists (c :: a), b.
  - intros [a [b ->]]. apply includes_app_r, includes_here.
Qed.

Lemma includes_trans (s q p : jsstring) :
  includes s q = true -> includes q p = true -> includes s p = true.
Proof.
  intros H1 H2. apply includes_spec in H1, H2.
  destruct H1 as [a [b ->]], H2 as [a' [b' ->]].
  apply includes_spec. exists (a ++ a'), (b' ++ b).
  now rewrite <- !app_assoc.
Qed.

Lemma react_has_styles (this : Index.DesignToCode) (node : Index.FigmaNode)
  (props : Index.Props) :
  includes (Index.generateReactComponent this node props)
    (Index.stylesOf this props) = true.
Proof. unfold Index.generateReactComponent. cbv zeta. seek. Qed.

Lemma vue_has_styles (this : Index.DesignToCode) (node : Index.FigmaNode)
  (props : Index.Props) :
  includes (Index.generateVueComponent this node props)
    (Index.stylesOf this props) = true.
Proof. unfold Index.generateVueComponent. cbv zeta. seek. Qed.

Lemma svelte_has_styles (this : Index.DesignToCode) (node : Index.FigmaNode)
  (props : Index.Props) :
  includes (Index.generateSvelteComponent this node props)
    (Index.stylesOf this props) = true.
Proof. unfold Index.generateSvelteComponent. cbv zeta. seek. Qed.

Lemma code_has_styles (this : Index.DesignToCode) (node : Index.FigmaNode) :
  includes (Index.code (Index.generateComponent this node))
    (Index.stylesOf this (Index.extractProps node)) = true.
Proof.
  unfold Index.generateComponent.
  destruct (Index.framework (Index.config this)); simpl Index.code.
  - apply react_has_styles.
  - apply vue_has_styles.
  - apply svelte_has_styles.
Qed.

Lemma vue_has_css_entry (this : Index.DesignToCode) (node : Index.FigmaNode)
  (props : Index.Props) (k v : jsstring) :
  Index.tailwind (Index.config this) = false ->
  In (k, v) (Index.styleObjectToCSS props) ->
  includes (Index.generateVueComponent this node props)
    (str "  " ++ k ++ str ": " ++ v ++ str ";") = true.
Proof.
  intros Htw Hin.
  apply includes_trans with (q := Index.generateCSSContent props).
  - unfold Index.generateVueComponent. cbv zeta. rewrite Htw. cbn [negb].
    seek.
  - unfold Index.generateCSSContent. apply includes_join.
    apply (in_map (fun kv => str "  " ++ fst kv ++ str ": " ++ snd kv ++ str ";")
             _ _ Hin).
Qed.

Lemma svelte_has_css_entry (this : Index.DesignToCode) (node : Index.FigmaNode)
  (props : Index.Props) (k v : jsstring) :
  Index.tailwind (Index.config this) = false ->
  In (k, v) (Index.styleObjectToCSS props) ->
  includes (Index.generateSvelteComponent this node props)
    (k ++ str "," ++ v) = true.
Proof.
  intros Htw Hin.
  apply includes_trans
    with (q := join (nl ++ str "    ")
                 (map Index.entryText (Index.styleObjectToCSS props))).
  - unfold Index.generateSvelteComponent. cbv zeta. rewrite Htw. cbn [negb].
    seek.
  - apply includes_join. apply (in_map Index.entryText _ _ Hin).
Qed.

Lemma hex_uint_output (d : Hexadecimal.uint) :
  forallb Vocabulary.isHexOutput
    (str (HexadecimalString.NilEmpty.string_of_uint d)) = true.
Proof. induction d; simpl; auto. Qed.

Lemma intToString16_output (z : Z) :
  forallb Vocabulary.isHexOutput (intToString16 z) = true
  /\ intToString16 z <> [].
Proof.
  unfold intToString16, HexadecimalString.NilZero.string_of_int,
    HexadecimalString.NilZero.string_of_uint.
  destruct (Z.to_hex_int z) as [d|d]; split;
    try (destruct d; try apply (hex_uint_output (_ d)); reflexivity);
    try (destruct d; discriminate).
  - destruct d; simpl; try reflexivity;
      match goal with |- context [HexadecimalString.NilEmpty.string_of_uint ?u] =>
        apply (hex_uint_output u) end.
Qed.

Lemma toBinary64_not_NaN (q : Q) : toBinary64 q <> NaN.
Proof.
  unfold toBinary64. destruct (_ =? _)%Z; [discriminate|].
  destruct (_ <=? _)%Z; [destruct (_ <? _)%Z|]; discriminate.
Qed.

(** The product by 255 is a number. *)
Lemma times_255_not_NaN (n : Q) : times n 255 <> NaN.
Proof.
  unfold times. pose proof (toBinary64_not_NaN n) as Hn.
  remember (toBinary64 255) as y eqn:Ey. vm_compute in Ey. subst y.
  destruct (toBinary64 n) as [a| | |].
  - apply toBinary64_not_NaN.
  - vm_compute. discriminate.
  - vm_compute. discriminate.
  - now elim Hn.
Qed.

Lemma hex_units_checked :
  forallb Vocabulary.hexUnitChecked (map N.of_nat (seq 0 128)) = true.
Proof. vm_compute. reflexivity. Qed.

Lemma hexOutput_facts (c : N) :
  Vocabulary.isHexOutput c = true ->
  isAscii c = true /\ Vocabulary.isUpperHexOutput (upperUnit c) = true.
Proof.
  intros H.
  assert (Ha : isAscii c = true).
  { unfold Vocabulary.isHexOutput, isDigit, isAscii in *. apply N.ltb_lt.
    apply orb_true_iff in H. destruct H as [H|H];
      [apply orb_true_iff in H; destruct H as [H|H]; apply between_le in H; lia|].
    apply N.eqb_eq in H. lia. }
  split; [exact Ha|].
  pose proof hex_units_checked as Hall. rewrite forallb_forall in Hall.
  assert (Hin : In c (map N.of_nat (seq 0 128))).
  { unfold isAscii in Ha. apply N.ltb_lt in Ha.
    apply in_map_iff. exists (N.to_nat c). split; [apply N2Nat.id|].
    apply in_seq. lia. }
  specialize (Hall c Hin). unfold Vocabulary.hexUnitChecked in Hall.
  now rewrite H in Hall.
Qed.

Lemma upper_hex_output (s : jsstring) :
  forallb Vocabulary.isHexOutput s = true ->
  forallb isAscii s = true
  /\ forallb Vocabulary.isUpperHexOutput (map upperUnit s) = true.
Proof.
  induction s as [|c s IH]; simpl; [auto|]. intros H.
  apply andb_true_iff in H. destruct H as [Hc Hs].
  destruct (hexOutput_facts c Hc) as [Ha Hu], (IH Hs) as [IHa IHu].
  now rewrite Ha, Hu, IHa, IHu.
Qed.

(** The digits of a finite rounded product, padded to two. *)
Lemma paddedHex_output (z : Z) :
  forallb Vocabulary.isHexOutput (Spec.paddedHex z) = true
  /\ (2 <= length (Spec.paddedHex z))%nat.
Proof.
  unfold Spec.paddedHex.
  destruct (intToString16_output z) as [Hout Hne].
  destruct (length (intToString16 z) =? 1)%nat eqn:E.
  - apply Nat.eqb_eq in E. split.
    + simpl. exact Hout.
    + rewrite length_app, E. simpl. lia.
  - apply Nat.eqb_neq in E. split; [exact Hout|].
    destruct (intToString16 z) as [|a [|b r]];
      simpl in *; try congruence; lia.
Qed.

(** One channel of a colour: ASCII, and a channel text once
    uppercased. *)
Lemma toHex_output (n : Q) :
  forallb isAscii (Index.toHex n) = true
  /\ Vocabulary.isChannelText (map upperUnit (Index.toHex n)) = true.
Proof.
  pose proof (times_255_not_NaN n) as Hn.
  unfold Index.toHex, roundedToString16.
  destruct (times n 255) as [p| | |].
  - destruct (paddedHex_output (Math_round p)) as [Hout Hlen].
    destruct (upper_hex_output _ Hout) as [Ha Hu].
    split; [exact Ha|].
    unfold Vocabulary.isChannelText.
    fold (Spec.paddedHex (Math_round p)).
    rewrite length_map, Hu.
    apply Nat.leb_le in Hlen. now rewrite Hlen.
  - split; vm_compute; reflexivity.
  - split; vm_compute; reflexivity.
  - congruence.
Qed.

(** The text of a colour: the hash sign, then the texts of the three
    channels. *)
Lemma colorToHex_shape (fill : Index.Paint) :
  exists rr gg bb,
    Index.colorToHex fill = str "#" ++ rr ++ gg ++ bb
    /\ Vocabulary.isChannelText rr = true
    /\ Vocabulary.isChannelText gg = true
    /\ Vocabulary.isChannelText bb = true.
Proof.
  unfold Index.colorToHex.
  destruct (Index.paint_color fill) as [c|];
    [|exists (str "00"), (str "00"), (str "00"); repeat split].
  destruct (jsstring_eqb (Index.paint_type fill) (str "SOLID"));
    [|exists (str "00"), (str "00"), (str "00"); repeat split].
  destruct (toHex_output (Index.r c)) as [Ar Hr].
  destruct (toHex_output (Index.g c)) as [Ag Hg].
  destruct (toHex_output (Index.b c)) as [Ab Hb].
  rewrite toUpperCase_ascii
    by (rewrite !forallb_app, Ar, Ag, Ab; reflexivity).
  rewrite !map_app. eauto 10.
Qed.

Lemma truthyStr_colorToHex (fill : Index.Paint) :
  Index.truthyStr (Some (Index.colorToHex fill)) = Some (Index.colorToHex fill).
Proof.
  destruct (colorToHex_shape fill) as [rr [gg [bb [E _]]]]. now rewrite E.
Qed.

Lemma truthyNum_orDefault (n : option Q) (d : Q) :
  truthyQ d = true ->
  Index.truthyNum (Some (Index.orDefault n d)) = Some (Index.orDefault n d).
Proof.
  intros Hd. unfold Index.truthyNum. now rewrite (orDefault_truthy n d Hd).
Qed.

Lemma styleObjectToCSS_extracted (node : Index.FigmaNode) :
  Index.styleObjectToCSS (Index.extractProps node)
  = Vocabulary.styleEntriesOf node.
Proof.
  unfold Index.styleObjectToCSS, Index.extractProps, Vocabulary.styleEntriesOf.
  cbn [Index.dimensions Index.backgroundColor Index.props_fontSize
       Index.props_fontWeight].
  f_equal; [now destruct (Index.absoluteBoundingBox node)|].
  f_equal.
  - destruct (Index.fills node) as [[|fill rest]|]; try reflexivity.
    now rewrite truthyStr_colorToHex.
  - destruct (Index.truthyStr (Index.characters node)); [|reflexivity].
    rewrite !truthyNum_orDefault by reflexivity. reflexivity.
Qed.

End Styles.

(** X17: in utility-class mode every class that [generateTailwindClasses]
    builds for a node appears in the text of the component, whichever
    dialect is configured. *)
Theorem X17_utility_classes_reach_every_dialect :
  forall (cc : CaseConversion) (this : Index.DesignToCode)
         (node : Index.FigmaNode) (cls : jsstring),
    Index.tailwind (Index.config this) = true ->
    In cls (Index.tailwindClasses (Index.extractProps node)) ->
    includes (Index.code (Index.generateComponent this node)) cls = true.
Proof.
  intros cc this node cls Htw Hin.
  apply includes_trans with (q := Index.stylesOf this (Index.extractProps node)).
  - apply code_has_styles.
  - unfold Index.stylesOf. rewrite Htw.
    unfold Index.generateTailwindClasses. now apply includes_join.
Qed.

Lemma X17_utility_classes_reach_every_dialect_witness :
  In (str "bg-[#6666F0]")
    (Index.tailwindClasses
       (Index.extractProps (cc := asciiCase) (Samples.withFill Samples.solidFill)))
  /\ includes
       (Index.code
          (Index.generateComponent (cc := asciiCase)
             (Samples.converterOf Index.svelte true true)
             (Samples.withFill Samples.solidFill)))
       (str "bg-[#6666F0]") = true.
Proof.
  assert (H : In (str "bg-[#6666F0]")
                (Index.tailwindClasses
                   (Index.extractProps (cc := asciiCase)
                      (Samples.withFill Samples.solidFill))))
    by (right; right; left; reflexivity).
  split; [exact H|].
  apply (@X17_utility_classes_reach_every_dialect asciiCase
           (Samples.converterOf Index.svelte true true)
           (Samples.withFill Samples.solidFill) (str "bg-[#6666F0]") eq_refl H).
Defined.

(** X18: the style entries of the extracted record are exactly those of
    the attributes the node carries: width and height for a bounding
    box, the background colour for a non-empty [fills], font size and
    font weight (14 and 400 unless the node gives non-zero ones) for a
    non-empty text; the truthiness tests of [styleObjectToCSS] never drop
    one of them. *)
Theorem X18_style_entries_follow_attributes :
  forall (cc : CaseConversion) (node : Index.FigmaNode),
    Index.styleObjectToCSS (Index.extractProps node)
    = Vocabulary.styleEntriesOf node.
Proof. intros cc node. apply styleObjectToCSS_extracted. Qed.

(** X19: without utility classes, every style entry of the node is
    written into the style block of the single-file component as
    [  key: value;], and into the style block of the reactive component
    as [key,value], the text an entry pair takes when an array of pairs
    is joined. *)
Theorem X19_style_entries_in_style_blocks :
  forall (cc : CaseConversion) (this : Index.DesignToCode)
         (node : Index.FigmaNode) (k v : jsstring),
    Index.tailwind (Index.config this) = false ->
    In (k, v) (Vocabulary.styleEntriesOf node) ->
    (Index.framework (Index.config this) = Index.vue ->
     includes (Index.code (Index.generateComponent this node))
       (str "  " ++ k ++ str ": " ++ v ++ str ";") = true)
    /\ (Index.framework (Index.config this) = Index.svelte ->
        includes (Index.code (Index.generateComponent this node))
          (k ++ str "," ++ v) = true).
Proof.
  intros cc this node k v Htw Hin.
  rewrite <- styleObjectToCSS_extracted in Hin.
  unfold Index.generateComponent. split; intros Hfw; rewrite Hfw; simpl Index.code.
  - now apply vue_has_css_entry.
  - now apply svelte_has_css_entry.
Qed.

Lemma X19_style_entries_in_style_blocks_witness :
  In (str "background-color", str "#6666F0")
    (Vocabulary.styleEntriesOf (cc := asciiCase) (Samples.withFill Samples.solidFill))
  /\ includes
       (Index.code
          (Index.generateComponent (cc := asciiCase)
             (Samples.converterOf Index.vue true false)
             (Samples.withFill Samples.solidFill)))
       (str "  background-color: #6666F0;") = true
  /\ includes
       (Index.code
          (Index.generateComponent (cc := asciiCase)
             (Samples.converterOf Index.svelte true false)
             (Samples.withFill Samples.solidFill)))
       (str "background-color,#6666F0") = true.
Proof.
  assert (H : In (str "background-color", str "#6666F0")
                (Vocabulary.styleEntriesOf (cc := asciiCase)
                   (Samples.withFill Samples.solidFill)))
    by (right; right; left; reflexivity).
  split; [exact H|]. split.
  - apply (proj1 (@X19_style_entries_in_style_blocks asciiCase
                    (Samples.converterOf Index.vue true false)
                    (Samples.withFill Samples.solidFill)
                    (str "background-color") (str "#6666F0") eq_refl H)).
    reflexivity.
  - apply (proj2 (@X19_style_entries_in_style_blocks asciiCase
                    (Samples.converterOf Index.svelte true false)
                    (Samples.withFill Samples.solidFill)
                    (str "background-color") (str "#6666F0") eq_refl H)).
    reflexivity.
Defined.

(** X20: whatever the first fill holds, the text [colorToHex] makes of
    it is the hash sign followed by the texts of three channels, each
    of at least two code units that are uppercase hexadecimal digits or
    a minus sign, or else the word INFINITY, with or without a minus
    sign, when the binary64 product is out of range: the text is never
    empty and never lowercase, and nothing is clamped. *)
Theorem X20_colour_text_shape :
  forall (cc : CaseConversion) (fill : Index.Paint),
    exists rr gg bb,
      Index.colorToHex fill = str "#" ++ rr ++ gg ++ bb
      /\ Vocabulary.isChannelText rr = true
      /\ Vocabulary.isChannelText gg = true
      /\ Vocabulary.isChannelText bb = true.
Proof. intros cc fill. apply colorToHex_shape. Qed.

(** A channel written 1e308 and a negative one: the product of the
    first is out of range, the second keeps its sign. *)
Lemma colorToHex_unclamped :
  Index.colorToHex (cc := asciiCase)
    {| Index.paint_type := str "SOLID";
       Index.paint_color :=
         Some {| Index.r := inject_Z (10 ^ 308); Index.g := 0;
                 Index.b := 0; Index.a := 1 |} |}
  = str "#INFINITY0000"
  /\ Index.colorToHex (cc := asciiCase)
       {| Index.paint_type := str "SOLID";
          Index.paint_color :=
            Some {| Index.r := 2; Index.g := - (1); Index.b := 0;
                    Index.a := 1 |} |}
     = str "#1FE-FF00".
Proof. split; vm_compute; reflexivity. Qed.

Section IndexAgainstMapping.
Context {cc : CaseConversion}.

Lemma record_get_of_key (k : jsstring) (rec : record) :
  In k (map fst rec) -> exists v, record_get k rec = Some v.
Proof.
  induction rec as [|[k0 v0] rec IH]; simpl; [intros []|].
  intros H. destruct (jsstring_eqb k k0) eqn:E; [eauto|].
  destruct H as [->|H]; [|auto].
  rewrite jsstring_eqb_refl in E. discriminate.
Qed.

Lemma filter_twice (A : Type) (keep : A -> bool) (l : list A) :
  filter keep (filter keep l) = filter keep l.
Proof.
  induction l as [|x l IH]; simpl; [reflexivity|].
  destruct (keep x) eqn:E; simpl; rewrite ?E, IH; reflexivity.
Qed.

Lemma index_lines (ns : list FigmaClient.FigmaNode) (fw : Converter.Framework) :
  lines (Converter.generateIndexFile ns fw)
  = Spec.indexHeader fw
    :: match filter Converter.isValidNode ns with
       | [] => [[]]
       | valid => map Converter.exportLine valid
       end ++ [[]].
Proof.
  rewrite generateIndexFile_header.
  rewrite lines_line by (destruct fw; reflexivity).
  f_equal.
  destruct (filter Converter.isValidNode ns) as [|n valid] eqn:E;
    [reflexivity|].
  apply lines_join_closed; [apply exportLines_noNewline|discriminate].
Qed.

End IndexAgainstMapping.

(** X21: the index and the component mapping agree: for every node that
    gets a re-export line, the mapping holds a text under the file name
    [{fileSlug}.tsx] the line refers to. *)
Theorem X21_every_export_has_its_file :
  forall (cc : CaseConversion) (f : FigmaClient.FigmaFile)
         (fw : Converter.Framework) (n : FigmaClient.FigmaNode),
    In n (filter Converter.isValidNode (FigmaClient.nodes f)) ->
    In (Converter.exportLine n)
      (lines (Converter.index (Converter.conversionOf f fw)))
    /\ exists text,
         record_get (Converter.sanitizeFileName (FigmaClient.name n) ++ str ".tsx")
           (Converter.components (Converter.conversionOf f fw))
         = Some text.
Proof.
  intros cc f fw n Hn. split.
  - unfold Converter.conversionOf. simpl Converter.index.
    rewrite index_lines, filter_twice.
    destruct (filter Converter.isValidNode (FigmaClient.nodes f)) as [|m ms];
      [destruct Hn|].
    right. apply in_or_app. left.
    apply (in_map Converter.exportLine _ _ Hn).
  - apply record_get_of_key, converter_keys.
    apply filter_In in Hn. destruct Hn as [Hn Hv]. eauto.
Qed.

Lemma X21_every_export_has_its_file_witness :
  In Samples.buttonBang
    (filter Converter.isValidNode
       (FigmaClient.nodes (Samples.fileOf [Samples.button; Samples.buttonBang])))
  /\ In (str "export { default as Button } from './button';")
       (lines (Converter.index
                 (Converter.conversionOf (cc := asciiCase)
                    (Samples.fileOf [Samples.button; Samples.buttonBang])
                    Converter.react)))
  /\ exists text,
       record_get (str "button.tsx")
         (Converter.components
            (Converter.conversionOf (cc := asciiCase)
               (Samples.fileOf [Samples.button; Samples.buttonBang])
               Converter.react))
       = Some text.
Proof.
  assert (H : In Samples.buttonBang
                (filter Converter.isValidNode
                   (FigmaClient.nodes
                      (Samples.fileOf [Samples.button; Samples.buttonBang]))))
    by (right; left; reflexivity).
  split; [exact H|].
  apply (@X21_every_export_has_its_file asciiCase
           (Samples.fileOf [Samples.button; Samples.buttonBang])
           Converter.react Samples.buttonBang H).
Defined.

(** X22: whichever dialect is configured, the text of the component
    carries as its test identifier the name of the node stripped to
    letters and digits and lowercased. *)
Theorem X22_test_identifier_in_every_dialect :
  forall (cc : CaseConversion) (this : Index.DesignToCode)
         (node : Index.FigmaNode),
    includes (Index.code (Index.generateComponent this node))
      (map lowerUnit (Index.sanitizeName (Index.name node))) = true.
Proof.
  intros cc this node.
  rewrite <- (kebab_of_capitalized _ (sanitizeName_alnum (Index.name node))).
  rewrite <- (index_toPascalCase_alnum _ (sanitizeName_alnum (Index.name node))).
  unfold Index.generateComponent.
  destruct (Index.framework (Index.config this)); simpl Index.code.
  - unfold Index.generateReactComponent. cbv zeta.
    simpl Index.props_name. seek.
  - unfold Index.generateVueComponent. cbv zeta.
    simpl Index.props_name.
    destruct (Index.typescript (Index.config this)); seek.
  - unfold Index.generateSvelteComponent. cbv zeta.
    simpl Index.props_name. seek.
Qed.
